(** * LidarSpeaksVolumes: the point-cloud demos and the viewer

    A shallow embedding of [ConvexHull_pointcloud_demo.py],
    [AlphaShape_pointcloud_demo.py] and [pointcloud_viewer.py].

    Numbers.  Python floats and NumPy float64 arrays are read as real numbers
    ([R]) and their operations as exact real arithmetic; integers (point
    counts) are [Z].  This is the reading under which the specification
    states its numeric properties ("within floating-point tolerance").

    Libraries.  NumPy's module-wide generator, SciPy's [ConvexHull] and the
    [alphashape] package are not code of the repository.  The generator is a
    state of an arbitrary type [RandomState] with two primitive draws, the
    two geometry packages are functions that return a value or raise; every
    definition below takes them as parameters, and what is assumed of them
    is written as a named contract and appears as a hypothesis of exactly
    the theorems that use it. *)

From Stdlib Require Import Reals Lra Lia ZArith List Permutation.
From Stdlib Require Import ClassicalEpsilon.
From stdpp Require Import base option list strings gmap.

Local Open Scope R_scope.

(** ** Values of the embedding *)

(** One row [[x, y, z]] of an [(n, 3)] array. *)
Record Point3D := mkPoint { px : R; py : R; pz : R }.

(** The exceptions the modelled code can meet. *)
Inductive exn :=
  | ValueError      (* numpy: negative dimensions, mismatched columns *)
  | IndexError      (* numpy: index out of bounds *)
  | KeyError        (* dict subscript on a missing key *)
  | QhullError      (* scipy.spatial.ConvexHull on a degenerate input *)
  | UnboundLocalError   (* a local name read before it is bound *)
  | LibraryError (msg : string).   (* any other Exception of a package *)

Inductive result (A : Type) :=
  | Ok (a : A)
  | Raise (e : exn).
Arguments Ok {A} a.
Arguments Raise {A} e.

#[global] Instance result_ret : MRet result := fun A a => Ok a.
#[global] Instance result_bind : MBind result := fun A B f m =>
  match m with
  | Ok a => f a
  | Raise e => Raise e
  end.

(** Code that reads and advances the module-wide generator: a state and
    exception monad over the generator state [S].  A raised exception leaves
    the state as it was when the exception was raised. *)
Definition M (S A : Type) : Type := S -> result A * S.

#[global] Instance M_ret {S} : MRet (M S) := fun A a s => (Ok a, s).
#[global] Instance M_bind {S} : MBind (M S) := fun A B f m s =>
  match m s with
  | (Ok a, s') => f a s'
  | (Raise e, s') => (Raise e, s')
  end.

(** A computation that does not touch the generator. *)
Definition lift {S A} (r : result A) : M S A := fun s => (r, s).

(** ** The [math] module and NumPy *)

Module math.
Definition pi : R := PI.
End math.

Module np.

Definition pi : R := PI.

(** [np.vstack((a, b, ...))] on arrays of rows. *)
Definition vstack (arrays : list (list Point3D)) : list Point3D := concat arrays.

Definition zeros_like (r : list R) : list R := map (fun _ => 0) r.
Definition ones_like (r : list R) : list R := map (fun _ => 1) r.

(** [np.column_stack((x, y, z))]: the three columns must have one length. *)
Fixpoint column_stack (x y z : list R) : result (list Point3D) :=
  match x, y, z with
  | [], [], [] => Ok []
  | a :: x', b :: y', c :: z' =>
      rows ← column_stack x' y' z'; Ok (mkPoint a b c :: rows)
  | _, _, _ => Raise ValueError
  end.

(** [a[idx]] for an array of rows and an array of integer indices. *)
Fixpoint take (a : list Point3D) (idx : list nat) : result (list Point3D) :=
  match idx with
  | [] => Ok []
  | i :: idx' =>
      match a !! i with
      | Some p => rows ← take a idx'; Ok (p :: rows)
      | None => Raise IndexError
      end
  end.

Section Random.
(** State of the module-wide generator [np.random]. *)
Variable RandomState : Type.
(** One double of the generator, in [[0, 1)]. *)
Variable random_sample : RandomState -> R * RandomState.
(** [np.random.permutation(n)]: a shuffled [arange(n)]. *)
Variable permutation : nat -> RandomState -> list nat * RandomState.

(** [n] consecutive doubles. *)
Fixpoint draws (n : nat) (s : RandomState) : list R * RandomState :=
  match n with
  | O => ([], s)
  | S k =>
      let (u, s1) := random_sample s in
      let (us, s2) := draws k s1 in
      (u :: us, s2)
  end.

(** [np.random.rand(n)]: a negative dimension raises before any draw. *)
Definition random_rand (n : Z) : M RandomState (list R) := fun s =>
  if (n <? 0)%Z then (Raise ValueError, s)
  else let (us, s') := draws (Z.to_nat n) s in (Ok us, s').

(** [np.random.choice(n, size, replace=False)]: the legacy generator
    takes the first [size] entries of [permutation(n)], and refuses a
    sample larger than the population. *)
Definition random_choice (n size : nat) : M RandomState (list nat) := fun s =>
  if (n <? size)%nat then (Raise ValueError, s)
  else let (p, s') := permutation n s in (Ok (firstn size p), s').
End Random.

End np.

(** What the embedding assumes of the generator. *)
Definition unit_interval_draws {S} (random_sample : S -> R * S) : Prop :=
  forall s, 0 <= fst (random_sample s) < 1.

Definition shuffles {S} (permutation : nat -> S -> list nat * S) : Prop :=
  forall n s, Permutation (fst (permutation n s)) (seq 0 n).

(** ** SciPy and alphashape objects *)

(** A [scipy.spatial.ConvexHull] object; the scripts read only [volume]. *)
Record Hull := { volume : R }.

(** What [alphashape.alphashape] returns: a mesh with a [volume] attribute,
    or a planar geometry without one ([hasattr(shape, "volume")]). *)
Record Shape := { volume_attr : option R }.

(** Points of one plane [a x + b y + c z = d], lines and single points
    included. *)
Definition coplanar (pts : list Point3D) : Prop :=
  exists a b c d, (a <> 0 \/ b <> 0 \/ c <> 0) /\
    forall p, In p pts -> a * px p + b * py p + c * pz p = d.

(** A point set from which no hull can be built: fewer than four points,
    or all of them in one plane. *)
Definition degenerate (pts : list Point3D) : Prop :=
  (length pts < 4)%nat \/ coplanar pts.

(** Qhull refuses an input from which no initial simplex can be built. *)
Definition qhull_rejects_degenerate
    (ConvexHull : list Point3D -> result Hull) : Prop :=
  forall pts, degenerate pts -> ConvexHull pts = Raise QhullError.

(** ** Python built-ins *)

(** Round half to even, on the reals. *)
Definition round_half_even (x : R) : Z :=
  let n := Int_part x in
  let f := frac_part x in
  if Rlt_dec f (1 / 2) then n
  else if Rlt_dec (1 / 2) f then (n + 1)%Z
  else if Z.even n then n else (n + 1)%Z.

(** [round(x, ndigits)] *)
Definition round (x : R) (ndigits : nat) : R :=
  IZR (round_half_even (x * 10 ^ ndigits)) / 10 ^ ndigits.

(** [d[k]] *)
Definition getitem {V} (d : gmap string V) (k : string) : result V :=
  match d !! k with
  | Some v => Ok v
  | None => Raise KeyError
  end.

(** A number of the metadata record. *)
Inductive value :=
  | Float (x : R)
  | Int (n : Z).

(** A top-level entry of the JSON payload. *)
Inductive payload :=
  | Metadata (m : gmap string value)
  | Rows (pts : list Point3D).

(** ** ConvexHull_pointcloud_demo.py *)

Module ConvexHullDemo.

(** The "Configurable parameters" block. *)
Record Config := {
  bucket_radius : R;
  bucket_height : R;
  fill_ratio : R;
  num_points_wall : Z;
  num_points_bottom : Z;
  num_points_fill_surface : Z
}.

Definition configured : Config := {|
  bucket_radius := 1 / 10;
  bucket_height := 2 / 10;
  fill_ratio := 5 / 10;
  num_points_wall := 8000;
  num_points_bottom := 16000;
  num_points_fill_surface := 8000
|}.

Section Script.
Variable RandomState : Type.
Variable random_sample : RandomState -> R * RandomState.
Variable ConvexHull : list Point3D -> result Hull.

Abbreviation rand := (np.random_rand RandomState random_sample).

Definition generate_cylinder_wall (radius height : R) (n_points : Z)
  : M RandomState (list Point3D) :=
  u ← rand n_points;
  let theta := map (fun u => u * 2 * np.pi) u in
  v ← rand n_points;
  let z := map (fun v => v * height) v in
  let x := map (fun t => radius * cos t) theta in
  let y := map (fun t => radius * sin t) theta in
  lift (np.column_stack x y z).

Definition generate_bottom (radius : R) (n_points : Z)
  : M RandomState (list Point3D) :=
  u ← rand n_points;
  let r := map (fun u => sqrt u * radius) u in
  v ← rand n_points;
  let theta := map (fun v => v * 2 * np.pi) v in
  let x := zip_with (fun r t => r * cos t) r theta in
  let y := zip_with (fun r t => r * sin t) r theta in
  let z := np.zeros_like r in
  lift (np.column_stack x y z).

Definition generate_fill_surface (radius height fill_ratio : R) (n_points : Z)
  : M RandomState (list Point3D) :=
  let z_fill := fill_ratio * height in
  u ← rand n_points;
  let r := map (fun u => sqrt u * radius) u in
  v ← rand n_points;
  let theta := map (fun v => v * 2 * np.pi) v in
  let x := zip_with (fun r t => r * cos t) r theta in
  let y := zip_with (fun r t => r * sin t) r theta in
  let z := map (fun o => o * z_fill) (np.ones_like r) in
  lift (np.column_stack x y z).

Definition estimate_volumes (bottom_pts wall_pts fill_pts : list Point3D)
    (radius height fill_ratio : R) : result (gmap string R) :=
  let analytic_capacity := math.pi * radius ^ 2 * height in
  let analytic_fill := analytic_capacity * fill_ratio in
  let full_bucket_pts := np.vstack [bottom_pts; wall_pts; fill_pts] in
  hull_full ← ConvexHull full_bucket_pts;
  hull_fill ← ConvexHull (np.vstack [bottom_pts; fill_pts]);
  mret (list_to_map [
    ("analytic_capacity_m3"%string, analytic_capacity);
    ("analytic_fill_m3"%string, analytic_fill);
    ("convex_hull_full_m3"%string, volume hull_full);
    ("convex_hull_fill_m3"%string, volume hull_fill) ] : gmap string R).


(** The [metadata] dict literal of the main block. *)
Definition metadata_of (cfg : Config) (vols : gmap string R)
  : result (gmap string value) :=
  capacity ← getitem vols "analytic_capacity_m3";
  capacity' ← getitem vols "analytic_capacity_m3";
  fill ← getitem vols "analytic_fill_m3";
  fill' ← getitem vols "analytic_fill_m3";
  hull_full ← getitem vols "convex_hull_full_m3";
  hull_full' ← getitem vols "convex_hull_full_m3";
  hull_fill ← getitem vols "convex_hull_fill_m3";
  hull_fill' ← getitem vols "convex_hull_fill_m3";
  mret (list_to_map [
    ("bucket_radius"%string, Float (bucket_radius cfg));
    ("bucket_height"%string, Float (bucket_height cfg));
    ("fill_ratio"%string, Float (fill_ratio cfg));
    ("num_points_wall"%string, Int (num_points_wall cfg));
    ("num_points_bottom"%string, Int (num_points_bottom cfg));
    ("num_points_fill_surface"%string, Int (num_points_fill_surface cfg));
    ("analytic_capacity_m3"%string, Float (round capacity 6));
    ("analytic_capacity_liters"%string, Float (round (capacity' * 1000) 3));
    ("analytic_fill_m3"%string, Float (round fill 6));
    ("analytic_fill_liters"%string, Float (round (fill' * 1000) 3));
    ("convex_hull_full_m3"%string, Float (round hull_full 6));
    ("convex_hull_full_liters"%string, Float (round (hull_full' * 1000) 3));
    ("convex_hull_fill_m3"%string, Float (round hull_fill 6));
    ("convex_hull_fill_liters"%string, Float (round (hull_fill' * 1000) 3)) ]
    : gmap string value).

(** The main block, up to the JSON payload [data] that is written out. *)
Definition main (cfg : Config) : M RandomState (gmap string payload) :=
  wall_pts ← generate_cylinder_wall (bucket_radius cfg) (bucket_height cfg)
               (num_points_wall cfg);
  bottom_pts ← generate_bottom (bucket_radius cfg) (num_points_bottom cfg);
  fill_pts ← generate_fill_surface (bucket_radius cfg) (bucket_height cfg)
               (fill_ratio cfg) (num_points_fill_surface cfg);
  let empty_bucket := np.vstack [wall_pts; bottom_pts] in
  let full_bucket := np.vstack [empty_bucket; fill_pts] in
  vols ← lift (estimate_volumes bottom_pts wall_pts fill_pts
                 (bucket_radius cfg) (bucket_height cfg) (fill_ratio cfg));
  metadata ← lift (metadata_of cfg vols);
  mret (list_to_map [
    ("metadata"%string, Metadata metadata);
    ("empty_bucket"%string, Rows empty_bucket);
    ("fill_surface"%string, Rows fill_pts);
    ("full_bucket"%string, Rows full_bucket) ] : gmap string payload).

(** The script as it is run: [np.random.seed(0)] at import, then the main
    block. *)
Definition run (seed : Z -> RandomState) (cfg : Config)
  : result (gmap string payload) * RandomState :=
  main cfg (seed 0%Z).

(** The three sampling calls of the main block return [wall], [bottom] and
    [fill], taking the generator from [s] to [s3]. *)
Definition sampled (cfg : Config) (s : RandomState)
    (wall bottom fill : list Point3D) (s3 : RandomState) : Prop :=
  exists s1 s2,
    generate_cylinder_wall (bucket_radius cfg) (bucket_height cfg)
      (num_points_wall cfg) s = (Ok wall, s1) /\
    generate_bottom (bucket_radius cfg) (num_points_bottom cfg) s1
      = (Ok bottom, s2) /\
    generate_fill_surface (bucket_radius cfg) (bucket_height cfg)
      (fill_ratio cfg) (num_points_fill_surface cfg) s2 = (Ok fill, s3).

End Script.
End ConvexHullDemo.

(** ** AlphaShape_pointcloud_demo.py *)

Module AlphaShapeDemo.

(** The "Configurable parameters" block. *)
Record Config := {
  bucket_radius : R;
  bucket_height : R;
  fill_ratio : R;
  num_points_wall : Z;
  num_points_bottom : Z;
  num_points_fill_surface : Z;
  alpha_value : R
}.

Definition configured : Config := {|
  bucket_radius := 1 / 10;
  bucket_height := 2 / 10;
  fill_ratio := 5 / 10;
  num_points_wall := 8000;
  num_points_bottom := 16000;
  num_points_fill_surface := 8000;
  alpha_value := 2
|}.

Section Script.
Variable RandomState : Type.
Variable random_sample : RandomState -> R * RandomState.
Variable permutation : nat -> RandomState -> list nat * RandomState.
Variable ConvexHull : list Point3D -> result Hull.
Variable alphashape : list Point3D -> R -> result Shape.

Abbreviation rand := (np.random_rand RandomState random_sample).
Abbreviation choice := (np.random_choice RandomState permutation).

Definition generate_cylinder_wall (radius height : R) (n_points : Z)
  : M RandomState (list Point3D) :=
  u ← rand n_points;
  let theta := map (fun u => u * 2 * np.pi) u in
  v ← rand n_points;
  let z := map (fun v => v * height) v in
  let x := map (fun t => radius * cos t) theta in
  let y := map (fun t => radius * sin t) theta in
  lift (np.column_stack x y z).

Definition generate_bottom (radius : R) (n_points : Z)
  : M RandomState (list Point3D) :=
  u ← rand n_points;
  let r := map (fun u => sqrt u * radius) u in
  v ← rand n_points;
  let theta := map (fun v => v * 2 * np.pi) v in
  let x := zip_with (fun r t => r * cos t) r theta in
  let y := zip_with (fun r t => r * sin t) r theta in
  let z := np.zeros_like r in
  lift (np.column_stack x y z).

Definition generate_fill_surface (radius height fill_ratio : R) (n_points : Z)
  : M RandomState (list Point3D) :=
  let z_fill := fill_ratio * height in
  u ← rand n_points;
  let r := map (fun u => sqrt u * radius) u in
  v ← rand n_points;
  let theta := map (fun v => v * 2 * np.pi) v in
  let x := zip_with (fun r t => r * cos t) r theta in
  let y := zip_with (fun r t => r * sin t) r theta in
  let z := map (fun o => o * z_fill) (np.ones_like r) in
  lift (np.column_stack x y z).

(** "subsample for alpha-shape speed": the [if] of [estimate_volumes]. *)
Definition subsample (fill_region : list Point3D)
  : M RandomState (list Point3D) :=
  if (5000 <? Z.of_nat (length fill_region))%Z then
    idx ← choice (length fill_region) (Z.to_nat 5000);
    lift (np.take fill_region idx)
  else mret fill_region.

(** The [try]/[except Exception] of [estimate_volumes]. *)
Definition alpha_volume (fill_region : list Point3D) (alpha : R) : result R :=
  match alphashape fill_region alpha with
  | Ok shape =>
      Ok (match volume_attr shape with Some v => v | None => 0 end)
  | Raise _ =>
      hull ← ConvexHull fill_region; Ok (volume hull)
  end.

(** The name [ConvexHull] inside [estimate_volumes].  The import in the
    [except] block makes it a local name of the whole function, which hides
    the import at the top of the module: after the [try] statement it is
    bound exactly when the [except] block ran, that is when [alphashape]
    raised. *)
Definition local_ConvexHull (fill_region : list Point3D) (alpha : R)
  : option (list Point3D -> result Hull) :=
  match alphashape fill_region alpha with
  | Ok _ => None
  | Raise _ => Some ConvexHull
  end.

Definition estimate_volumes (bottom_pts wall_pts fill_pts : list Point3D)
    (radius height fill_ratio alpha : R) : M RandomState (gmap string R) :=
  let analytic_capacity := math.pi * radius ^ 2 * height in
  let analytic_fill := analytic_capacity * fill_ratio in
  let fill_region := np.vstack [bottom_pts; fill_pts] in
  fill_region ← subsample fill_region;
  alpha_vol ← lift (alpha_volume fill_region alpha);
  hull_full ← lift (match local_ConvexHull fill_region alpha with
                    | Some ConvexHull =>
                        ConvexHull (np.vstack [bottom_pts; wall_pts; fill_pts])
                    | None => Raise UnboundLocalError
                    end);
  mret (list_to_map [
    ("analytic_capacity_m3"%string, analytic_capacity);
    ("analytic_fill_m3"%string, analytic_fill);
    ("convex_hull_full_m3"%string, volume hull_full);
    ("alpha_shape_fill_m3"%string, alpha_vol) ] : gmap string R).

(** The [metadata] dict literal of the main block. *)
Definition metadata_of (cfg : Config) (vols : gmap string R)
  : result (gmap string value) :=
  capacity ← getitem vols "analytic_capacity_m3";
  capacity' ← getitem vols "analytic_capacity_m3";
  fill ← getitem vols "analytic_fill_m3";
  fill' ← getitem vols "analytic_fill_m3";
  hull_full ← getitem vols "convex_hull_full_m3";
  hull_full' ← getitem vols "convex_hull_full_m3";
  alpha_fill ← getitem vols "alpha_shape_fill_m3";
  alpha_fill' ← getitem vols "alpha_shape_fill_m3";
  mret (list_to_map [
    ("bucket_radius"%string, Float (bucket_radius cfg));
    ("bucket_height"%string, Float (bucket_height cfg));
    ("fill_ratio"%string, Float (fill_ratio cfg));
    ("num_points_wall"%string, Int (num_points_wall cfg));
    ("num_points_bottom"%string, Int (num_points_bottom cfg));
    ("num_points_fill_surface"%string, Int (num_points_fill_surface cfg));
    ("alpha_value"%string, Float (alpha_value cfg));
    ("analytic_capacity_m3"%string, Float (round capacity 6));
    ("analytic_capacity_liters"%string, Float (round (capacity' * 1000) 3));
    ("analytic_fill_m3"%string, Float (round fill 6));
    ("analytic_fill_liters"%string, Float (round (fill' * 1000) 3));
    ("convex_hull_full_m3"%string, Float (round hull_full 6));
    ("convex_hull_full_liters"%string, Float (round (hull_full' * 1000) 3));
    ("alpha_shape_fill_m3"%string, Float (round alpha_fill 6));
    ("alpha_shape_fill_liters"%string, Float (round (alpha_fill' * 1000) 3)) ]
    : gmap string value).

(** The main block, up to the JSON payload [data] that is written out. *)
Definition main (cfg : Config) : M RandomState (gmap string payload) :=
  wall_pts ← generate_cylinder_wall (bucket_radius cfg) (bucket_height cfg)
               (num_points_wall cfg);
  bottom_pts ← generate_bottom (bucket_radius cfg) (num_points_bottom cfg);
  fill_pts ← generate_fill_surface (bucket_radius cfg) (bucket_height cfg)
               (fill_ratio cfg) (num_points_fill_surface cfg);
  let empty_bucket := np.vstack [wall_pts; bottom_pts] in
  let full_bucket := np.vstack [empty_bucket; fill_pts] in
  vols ← estimate_volumes bottom_pts wall_pts fill_pts
           (bucket_radius cfg) (bucket_height cfg) (fill_ratio cfg)
           (alpha_value cfg);
  metadata ← lift (metadata_of cfg vols);
  mret (list_to_map [
    ("metadata"%string, Metadata metadata);
    ("empty_bucket"%string, Rows empty_bucket);
    ("fill_surface"%string, Rows fill_pts);
    ("full_bucket"%string, Rows full_bucket) ] : gmap string payload).

(** The script as it is run: [np.random.seed(0)] at import, then the main
    block. *)
Definition run (seed : Z -> RandomState) (cfg : Config)
  : result (gmap string payload) * RandomState :=
  main cfg (seed 0%Z).

(** The three sampling calls of the main block return [wall], [bottom] and
    [fill], taking the generator from [s] to [s3]. *)
Definition sampled (cfg : Config) (s : RandomState)
    (wall bottom fill : list Point3D) (s3 : RandomState) : Prop :=
  exists s1 s2,
    generate_cylinder_wall (bucket_radius cfg) (bucket_height cfg)
      (num_points_wall cfg) s = (Ok wall, s1) /\
    generate_bottom (bucket_radius cfg) (num_points_bottom cfg) s1
      = (Ok bottom, s2) /\
    generate_fill_surface (bucket_radius cfg) (bucket_height cfg)
      (fill_ratio cfg) (num_points_fill_surface cfg) s2 = (Ok fill, s3).

End Script.
End AlphaShapeDemo.

(** ** pointcloud_viewer.py *)

Module Viewer.

(** A [go.Scatter3d] trace; mode, marker size and opacity are the same
    constants in the three traces. *)
Record Scatter3d := {
  xs : list R;
  ys : list R;
  zs : list R;
  color : string;
  name : string;
  visible : bool
}.

(** A dropdown button: its label and the visibility list it applies. *)
Record Button := { label : string; shows : list bool }.

Record Figure := {
  traces : list Scatter3d;
  buttons : list Button;
  title : string
}.

(** [data.get(key, [])], for the entries the viewer reads.  The demos write
    arrays of rows under the keys they use; an entry of another shape is
    outside the model, which stops there. *)
Definition get (data : gmap string payload) (key : string)
  : result (list Point3D) :=
  match data !! key with
  | None => Ok []
  | Some (Rows pts) => Ok pts
  | Some (Metadata _) => Raise ValueError
  end.

(** The rows unzipped into [xs], [ys], [zs], then the [go.Scatter3d] call. *)
Definition scatter (points : list Point3D) (color name : string) : Scatter3d :=
  {| xs := map px points; ys := map py points; zs := map pz points;
     color := color; name := name; visible := true |}.

(** One [if points:] block: the trace and its label are appended together. *)
Definition add_group (points : list Point3D) (color name : string)
    (acc : list Scatter3d * list string) : list Scatter3d * list string :=
  match points with
  | [] => acc
  | _ :: _ => (acc.1 ++ [scatter points color name], acc.2 ++ [name])
  end.

(** The buttons after "All": one per label, showing only its own trace. *)
Fixpoint label_buttons (n i : nat) (labels : list string) : list Button :=
  match labels with
  | [] => []
  | l :: rest =>
      {| label := l; shows := <[i := true]> (replicate n false) |}
        :: label_buttons n (S i) rest
  end.

(** [main], from the file the dialog returned: [file_path] is empty when the
    dialog was cancelled, [data] is the content [json.load] gives.  [None]
    is the early return without a figure. *)
Definition main (file_path : string) (data : gmap string payload)
  : result (option Figure) :=
  if decide (file_path = ""%string) then Ok None
  else
    empty_points ← get data "empty_bucket";
    fill_points ← get data "fill_points";
    full_points ← get data "full_bucket";
    let '(traces, labels) :=
      add_group full_points "green" "Full Bucket"
        (add_group fill_points "orange" "Fill Points"
           (add_group empty_points "blue" "Empty Bucket" ([], []))) in
    let n := length traces in
    let buttons :=
      {| label := "All"; shows := replicate n true |}
        :: label_buttons n 0 labels in
    Ok (Some {| traces := traces; buttons := buttons;
                title := "Point Cloud Viewer: " +:+ file_path |}).

End Viewer.

(** ** The disk sampling law of the specification *)

Module Sampler.
Section Law.
Variable RandomState : Type.
Variable random_sample : RandomState -> R * RandomState.

(** [sampleDisk], following the specification's words: the radial
    coordinate is [radius * sqrt u] for a draw [u], the angle is a draw
    scaled to [[0, 2 pi)], and [z] is fixed at [zHeight].  The [count]
    radial draws are made first, then the [count] angular ones. *)
Definition sampleDisk (radius zHeight : R) (count : Z)
  : M RandomState (list Point3D) :=
  us ← np.random_rand RandomState random_sample count;
  vs ← np.random_rand RandomState random_sample count;
  mret (zip_with (fun u v =>
          let r := radius * sqrt u in
          let theta := 2 * PI * v in
          mkPoint (r * cos theta) (r * sin theta) zHeight) us vs).

End Law.
End Sampler.

(** The rows the generators of the scripts build from a first array of
    draws [us] and a second array [vs]: [disk_rows] for the two disk
    generators, [wall_rows] for the wall. *)
Definition disk_rows (radius z : R) (us vs : list R) : list Point3D :=
  zip_with (fun u v =>
    mkPoint (sqrt u * radius * cos (v * 2 * PI))
            (sqrt u * radius * sin (v * 2 * PI)) z) us vs.

Definition wall_rows (radius height : R) (us vs : list R) : list Point3D :=
  zip_with (fun u v =>
    mkPoint (radius * cos (u * 2 * PI)) (radius * sin (u * 2 * PI))
            (v * height)) us vs.

(** ** Volume fields of the report *)




(** ** Notions used to state further properties *)

(** The trace one [if points:] block of the viewer contributes: none for an
    empty group, one otherwise. *)
Definition group_trace (points : list Point3D) (color name : string)
  : list Viewer.Scatter3d :=
  match points with
  | [] => []
  | _ :: _ => [Viewer.scatter points color name]
  end.

(** The key of the liters field paired with a cubic-meter field: [_m3]
    replaced by [_liters]. *)
Definition liters_key (k : string) : string :=
  (String.substring 0 (String.length k - 3) k +:+ "_liters")%string.

(** The closed cylinder of the vessel. *)
Definition in_cylinder (radius height : R) (p : Point3D) : Prop :=
  px p ^ 2 + py p ^ 2 <= radius ^ 2 /\ 0 <= pz p <= height.

(** ** Notions used to state the pairing of the volume fields *)





(** ** Stand-ins for the libraries

    Concrete generators and geometry functions on which the definitions can
    be run.  They are used only to exhibit runs; no general theorem depends
    on them. *)

Module Toy.

(** A generator whose state counts the draws made so far. *)
Definition random_sample (s : nat) : R * nat := (/ (INR s + 2), S s).

(** Alternately the identity and the reversal. *)
Definition permutation (n s : nat) : list nat * nat :=
  (if Nat.even s then seq 0 n else rev (seq 0 n), S s).

(** A hull of volume 1 for four points or more, Qhull's error below. *)
Definition ConvexHull (pts : list Point3D) : result Hull :=
  if (length pts <? 4)%nat then Raise QhullError else Ok {| volume := 1 |}.

(** A hull builder that meets [qhull_rejects_degenerate]: Qhull's error on
    a degenerate input, a hull of volume 1 on any other. *)
Definition Qhull (pts : list Point3D) : result Hull :=
  if excluded_middle_informative (degenerate pts) then Raise QhullError
  else Ok {| volume := 1 |}.

(** Below four points alphashape returns the planar convex hull of the
    points, which has no [volume]; otherwise a mesh, here of volume 1/2. *)
Definition alphashape (pts : list Point3D) (alpha : R) : result Shape :=
  if (length pts <? 4)%nat then Ok {| volume_attr := None |}
  else Ok {| volume_attr := Some (1 / 2) |}.

(** Small configurations of the convex-hull script: three points in all,
    and four points in the fill region. *)
Definition three_points : ConvexHullDemo.Config := {|
  ConvexHullDemo.bucket_radius := 1 / 10;
  ConvexHullDemo.bucket_height := 2 / 10;
  ConvexHullDemo.fill_ratio := 5 / 10;
  ConvexHullDemo.num_points_wall := 1;
  ConvexHullDemo.num_points_bottom := 1;
  ConvexHullDemo.num_points_fill_surface := 1
|}.

Definition four_points : ConvexHullDemo.Config := {|
  ConvexHullDemo.bucket_radius := 1 / 10;
  ConvexHullDemo.bucket_height := 2 / 10;
  ConvexHullDemo.fill_ratio := 5 / 10;
  ConvexHullDemo.num_points_wall := 0;
  ConvexHullDemo.num_points_bottom := 2;
  ConvexHullDemo.num_points_fill_surface := 2
|}.

(** An alpha-shape construction that fails. *)
Definition failing_alphashape (pts : list Point3D) (alpha : R) : result Shape :=
  Raise (LibraryError "alphashape").

(** An alpha-shape construction that always gives a mesh of volume 1. *)
Definition unit_alphashape (pts : list Point3D) (alpha : R) : result Shape :=
  Ok {| volume_attr := Some 1 |}.

(** A small configuration of the alpha-shape script: four points in the
    fill region. *)
Definition alpha_four_points : AlphaShapeDemo.Config := {|
  AlphaShapeDemo.bucket_radius := 1 / 10;
  AlphaShapeDemo.bucket_height := 2 / 10;
  AlphaShapeDemo.fill_ratio := 5 / 10;
  AlphaShapeDemo.num_points_wall := 0;
  AlphaShapeDemo.num_points_bottom := 2;
  AlphaShapeDemo.num_points_fill_surface := 2;
  AlphaShapeDemo.alpha_value := 2
|}.

(** A fill region of 5001 rows, all different. *)
Definition big_region : list Point3D :=
  map (fun i => mkPoint (INR i) 0 0) (seq 0 (Z.to_nat 5001)).

End Toy.

(** Files for the viewer: one with an empty-vessel group and a fill group
    under the key the viewer reads, one with no group at all. *)
Module Cloud.

Definition two_groups : gmap string payload := list_to_map [
  ("empty_bucket"%string, Rows [mkPoint 1 0 0; mkPoint 0 1 0]);
  ("fill_points"%string, Rows [mkPoint 0 0 1]) ].

Definition no_group : gmap string payload := ∅.

End Cloud.

(** Further configurations: a negative bottom count, a vessel without
    height, and an alpha-shape vessel without radius. *)
Module Configs.

Definition negative_bottom : ConvexHullDemo.Config := {|
  ConvexHullDemo.bucket_radius := 1 / 10;
  ConvexHullDemo.bucket_height := 2 / 10;
  ConvexHullDemo.fill_ratio := 5 / 10;
  ConvexHullDemo.num_points_wall := 1;
  ConvexHullDemo.num_points_bottom := -1;
  ConvexHullDemo.num_points_fill_surface := 1
|}.

Definition empty_vessel : ConvexHullDemo.Config := {|
  ConvexHullDemo.bucket_radius := 1 / 10;
  ConvexHullDemo.bucket_height := 2 / 10;
  ConvexHullDemo.fill_ratio := 0;
  ConvexHullDemo.num_points_wall := 4;
  ConvexHullDemo.num_points_bottom := 4;
  ConvexHullDemo.num_points_fill_surface := 4
|}.

Definition no_radius : AlphaShapeDemo.Config := {|
  AlphaShapeDemo.bucket_radius := 0;
  AlphaShapeDemo.bucket_height := 2 / 10;
  AlphaShapeDemo.fill_ratio := 5 / 10;
  AlphaShapeDemo.num_points_wall := 4;
  AlphaShapeDemo.num_points_bottom := 4;
  AlphaShapeDemo.num_points_fill_surface := 4;
  AlphaShapeDemo.alpha_value := 2
|}.

End Configs.

(** * Properties *)

(** ** The two monads *)

Lemma result_bind_Ok {A B} (m : result A) (f : A -> result B) a :
  m = Ok a -> (m ≫= f) = f a.
Proof. intros ->. reflexivity. Qed.

Lemma result_bind_Raise {A B} (m : result A) (f : A -> result B) e :
  m = Raise e -> (m ≫= f) = Raise e.
Proof. intros ->. reflexivity. Qed.

Lemma result_bind_inv {A B} (m : result A) (f : A -> result B) b :
  (m ≫= f) = Ok b -> exists a, m = Ok a /\ f a = Ok b.
Proof. destruct m as [a|e]; [exists a; auto | discriminate]. Qed.

Lemma M_bind_Ok {S A B} (m : M S A) (f : A -> M S B) s a s1 :
  m s = (Ok a, s1) -> (m ≫= f) s = f a s1.
Proof. intros H. unfold mbind, M_bind. rewrite H. reflexivity. Qed.

Lemma M_bind_Raise {S A B} (m : M S A) (f : A -> M S B) s e s1 :
  m s = (Raise e, s1) -> (m ≫= f) s = (Raise e, s1).
Proof. intros H. unfold mbind, M_bind. rewrite H. reflexivity. Qed.

Lemma lift_run {S A} (r : result A) (s : S) : lift r s = (r, s).
Proof. reflexivity. Qed.

Lemma M_bind_inv {S A B} (m : M S A) (f : A -> M S B) s b s' :
  (m ≫= f) s = (Ok b, s') ->
  exists a s1, m s = (Ok a, s1) /\ f a s1 = (Ok b, s').
Proof.
  unfold mbind, M_bind. destruct (m s) as [[a|e] s1]; intros H.
  - exists a, s1. auto.
  - discriminate.
Qed.

(** ** NumPy *)

Section Draws.
Context {RandomState : Type}.
Variable random_sample : RandomState -> R * RandomState.

Lemma draws_length n s : length (np.draws _ random_sample n s).1 = n.
Proof.
  revert s. induction n as [|n IH]; intros s; simpl; [reflexivity|].
  destruct (random_sample s) as [u s1]. specialize (IH s1).
  destruct (np.draws _ random_sample n s1) as [us s2]. simpl in *. lia.
Qed.

Lemma draws_unit_interval n s :
  unit_interval_draws random_sample ->
  Forall (fun u => 0 <= u < 1) (np.draws _ random_sample n s).1.
Proof.
  intros Hrng. revert s. induction n as [|n IH]; intros s; simpl.
  - constructor.
  - pose proof (Hrng s) as Hu. destruct (random_sample s) as [u s1].
    specialize (IH s1). destruct (np.draws _ random_sample n s1) as [us s2].
    simpl in *. constructor; assumption.
Qed.

Lemma random_rand_negative n s :
  (n < 0)%Z -> np.random_rand _ random_sample n s = (Raise ValueError, s).
Proof.
  intros Hn. unfold np.random_rand.
  destruct (Z.ltb_spec n 0); [reflexivity | lia].
Qed.

Lemma random_rand_Ok n s :
  (0 <= n)%Z ->
  np.random_rand _ random_sample n s =
    (Ok (np.draws _ random_sample (Z.to_nat n) s).1,
     (np.draws _ random_sample (Z.to_nat n) s).2).
Proof.
  intros Hn. unfold np.random_rand.
  destruct (Z.ltb_spec n 0); [lia|].
  destruct (np.draws _ random_sample (Z.to_nat n) s); reflexivity.
Qed.

End Draws.

Lemma column_stack_wall (f g h : R -> R) (us vs : list R) :
  length us = length vs ->
  np.column_stack (map f us) (map g us) (map h vs) =
    Ok (zip_with (fun u v => mkPoint (f u) (g u) (h v)) us vs).
Proof.
  revert vs. induction us as [|u us IH]; intros [|v vs] Hlen;
    simpl in *; try discriminate; [reflexivity|].
  rewrite IH by lia. reflexivity.
Qed.

Lemma column_stack_disk (F G : R -> R -> R) (a b c : R -> R) (us vs : list R) :
  length us = length vs ->
  np.column_stack (zip_with F (map a us) (map b vs))
                  (zip_with G (map a us) (map b vs))
                  (map c (map a us)) =
    Ok (zip_with (fun u v => mkPoint (F (a u) (b v)) (G (a u) (b v)) (c (a u)))
          us vs).
Proof.
  revert vs. induction us as [|u us IH]; intros [|v vs] Hlen;
    simpl in *; try discriminate; [reflexivity|].
  rewrite IH by lia. reflexivity.
Qed.

(** ** The samplers *)

Section Samplers.
Context {RandomState : Type}.
Variable random_sample : RandomState -> R * RandomState.

Abbreviation draws := (np.draws RandomState random_sample).
Abbreviation wall := (ConvexHullDemo.generate_cylinder_wall RandomState random_sample).
Abbreviation bottom := (ConvexHullDemo.generate_bottom RandomState random_sample).
Abbreviation surface := (ConvexHullDemo.generate_fill_surface RandomState random_sample).

(** The two scripts carry the same three generators. *)
Lemma alpha_generators_same :
  AlphaShapeDemo.generate_cylinder_wall RandomState random_sample = wall /\
  AlphaShapeDemo.generate_bottom RandomState random_sample = bottom /\
  AlphaShapeDemo.generate_fill_surface RandomState random_sample = surface.
Proof. repeat split. Qed.

Lemma generate_cylinder_wall_run radius height n s :
  (0 <= n)%Z ->
  let N := Z.to_nat n in
  wall radius height n s =
    (Ok (wall_rows radius height (draws N s).1 (draws N (draws N s).2).1),
     (draws N (draws N s).2).2).
Proof.
  intros Hn N. unfold ConvexHullDemo.generate_cylinder_wall.
  erewrite M_bind_Ok by (apply random_rand_Ok; exact Hn).
  erewrite M_bind_Ok by (apply random_rand_Ok; exact Hn).
  unfold lift, np.pi. rewrite !map_map.
  rewrite (column_stack_wall (fun u => radius * cos (u * 2 * PI))
             (fun u => radius * sin (u * 2 * PI)) (fun v => v * height))
    by (rewrite !draws_length; reflexivity).
  reflexivity.
Qed.

Lemma generate_bottom_run radius n s :
  (0 <= n)%Z ->
  let N := Z.to_nat n in
  bottom radius n s =
    (Ok (disk_rows radius 0 (draws N s).1 (draws N (draws N s).2).1),
     (draws N (draws N s).2).2).
Proof.
  intros Hn N. unfold ConvexHullDemo.generate_bottom.
  erewrite M_bind_Ok by (apply random_rand_Ok; exact Hn).
  erewrite M_bind_Ok by (apply random_rand_Ok; exact Hn).
  unfold lift, np.pi, np.zeros_like.
  rewrite (column_stack_disk (fun r t => r * cos t) (fun r t => r * sin t)
             (fun u => sqrt u * radius) (fun v => v * 2 * PI) (fun _ => 0))
    by (rewrite !draws_length; reflexivity).
  reflexivity.
Qed.

Lemma generate_fill_surface_run radius height fill_ratio n s :
  (0 <= n)%Z ->
  let N := Z.to_nat n in
  surface radius height fill_ratio n s =
    (Ok (disk_rows radius (fill_ratio * height)
           (draws N s).1 (draws N (draws N s).2).1),
     (draws N (draws N s).2).2).
Proof.
  intros Hn N. unfold ConvexHullDemo.generate_fill_surface.
  erewrite M_bind_Ok by (apply random_rand_Ok; exact Hn).
  erewrite M_bind_Ok by (apply random_rand_Ok; exact Hn).
  unfold lift, np.pi, np.ones_like. rewrite (map_map (fun _ : R => 1)).
  rewrite (column_stack_disk (fun r t => r * cos t) (fun r t => r * sin t)
             (fun u => sqrt u * radius) (fun v => v * 2 * PI)
             (fun _ => 1 * (fill_ratio * height)))
    by (rewrite !draws_length; reflexivity).
  unfold disk_rows. do 2 f_equal. apply zip_with_ext; [|reflexivity..].
  intros u v. f_equal. ring.
Qed.

End Samplers.

Lemma Forall_zip_with_intro {A B C} (f : A -> B -> C)
    (P : A -> Prop) (Q : B -> Prop) (G : C -> Prop) (l : list A) (k : list B) :
  (forall a b, P a -> Q b -> G (f a b)) ->
  Forall P l -> Forall Q k -> Forall G (zip_with f l k).
Proof.
  intros HG Hl. revert k. induction Hl as [|a l Ha Hl IH]; intros k Hk.
  - constructor.
  - destruct Hk as [|b k Hb Hk]; simpl; constructor; auto.
Qed.

Lemma length_zip_with_same {A B C} (f : A -> B -> C) (l : list A) (k : list B) :
  length l = length k -> length (zip_with f l k) = length l.
Proof.
  revert k. induction l as [|a l IH]; intros [|b k] H; simpl in *;
    try discriminate; [reflexivity|]. rewrite IH by lia. reflexivity.
Qed.

Lemma on_circle (r t : R) : (r * cos t) ^ 2 + (r * sin t) ^ 2 = r ^ 2.
Proof.
  pose proof (sin2_cos2 t) as H. unfold Rsqr in H.
  replace ((r * cos t) ^ 2 + (r * sin t) ^ 2)
    with (r ^ 2 * (sin t * sin t + cos t * cos t)) by ring.
  rewrite H. ring.
Qed.

Lemma toy_draws_unit_interval : unit_interval_draws Toy.random_sample.
Proof.
  intros s. unfold Toy.random_sample. simpl.
  pose proof (pos_INR s) as Hs.
  assert (0 < INR s + 2) as Hpos by lra.
  split.
  - left. apply Rinv_0_lt_compat. exact Hpos.
  - rewrite <- Rinv_1. apply Rinv_lt_contravar; lra.
Qed.

Section SamplerClaims.
Context {RandomState : Type}.
Variable random_sample : RandomState -> R * RandomState.

Abbreviation wall := (ConvexHullDemo.generate_cylinder_wall RandomState random_sample).
Abbreviation bottom := (ConvexHullDemo.generate_bottom RandomState random_sample).
Abbreviation surface := (ConvexHullDemo.generate_fill_surface RandomState random_sample).
Abbreviation sampleDisk := (Sampler.sampleDisk RandomState random_sample).

Lemma sampleDisk_run radius z n s :
  (0 <= n)%Z ->
  let N := Z.to_nat n in
  sampleDisk radius z n s =
    (Ok (disk_rows radius z (np.draws _ random_sample N s).1
           (np.draws _ random_sample N (np.draws _ random_sample N s).2).1),
     (np.draws _ random_sample N (np.draws _ random_sample N s).2).2).
Proof.
  intros Hn N. unfold Sampler.sampleDisk.
  erewrite M_bind_Ok by (apply random_rand_Ok; exact Hn).
  erewrite M_bind_Ok by (apply random_rand_Ok; exact Hn).
  unfold mret, M_ret, disk_rows. do 2 f_equal.
  apply zip_with_ext; [|reflexivity..].
  intros u v. cbv zeta.
  replace (2 * PI * v) with (v * 2 * PI) by ring.
  replace (radius * sqrt u) with (sqrt u * radius) by ring. reflexivity.
Qed.

Lemma sampleDisk_negative radius z n s :
  (n < 0)%Z -> sampleDisk radius z n s = (Raise ValueError, s).
Proof.
  intros Hn. unfold Sampler.sampleDisk.
  apply M_bind_Raise, random_rand_negative, Hn.
Qed.

(** C9.  With draws in [[0, 1)], a height that is not negative and a count
    that is not negative, each generator returns [n_points] points: the
    wall points satisfy [x^2 + y^2 = radius^2] and [0 <= z <= height], the
    bottom points have [z = 0] and [x^2 + y^2 <= radius^2], and the
    fill-surface points have [z = fill_ratio * height].  (No condition on
    the radius is needed.) *)
Theorem sampled_points_on_their_surfaces radius height fill_ratio n s :
  unit_interval_draws random_sample ->
  0 <= height -> (0 <= n)%Z ->
  (exists pts s', wall radius height n s = (Ok pts, s') /\
     length pts = Z.to_nat n /\
     Forall (fun p => px p ^ 2 + py p ^ 2 = radius ^ 2 /\
                      0 <= pz p <= height) pts) /\
  (exists pts s', bottom radius n s = (Ok pts, s') /\
     length pts = Z.to_nat n /\
     Forall (fun p => pz p = 0 /\ px p ^ 2 + py p ^ 2 <= radius ^ 2) pts) /\
  (exists pts s', surface radius height fill_ratio n s = (Ok pts, s') /\
     length pts = Z.to_nat n /\
     Forall (fun p => pz p = fill_ratio * height) pts).
Proof.
  intros Hrng Hh Hn.
  set (N := Z.to_nat n).
  pose proof (draws_unit_interval random_sample N s Hrng) as Hus.
  pose proof (draws_unit_interval random_sample N
                (np.draws _ random_sample N s).2 Hrng) as Hvs.
  assert (length (np.draws _ random_sample N s).1 =
          length (np.draws _ random_sample N (np.draws _ random_sample N s).2).1)
    as Hlen by (rewrite !draws_length; reflexivity).
  split; [|split].
  - eexists _, _. split; [apply generate_cylinder_wall_run; exact Hn|].
    split.
    + unfold wall_rows. rewrite length_zip_with_same by exact Hlen.
      apply draws_length.
    + unfold wall_rows. eapply Forall_zip_with_intro; [|exact Hus|exact Hvs].
      intros u v _ Hv. simpl. split; [apply on_circle | nra].
  - eexists _, _. split; [apply generate_bottom_run; exact Hn|].
    split.
    + unfold disk_rows. rewrite length_zip_with_same by exact Hlen.
      apply draws_length.
    + unfold disk_rows. eapply Forall_zip_with_intro; [|exact Hus|exact Hvs].
      intros u v Hu _. cbn [px py pz]. split; [reflexivity|].
      rewrite on_circle.
      replace ((sqrt u * radius) ^ 2)
        with (sqrt u * sqrt u * radius ^ 2) by ring.
      rewrite sqrt_sqrt by lra.
      pose proof (pow2_ge_0 radius). nra.
  - eexists _, _. split; [apply generate_fill_surface_run; exact Hn|].
    split.
    + unfold disk_rows. rewrite length_zip_with_same by exact Hlen.
      apply draws_length.
    + unfold disk_rows.
      eapply (Forall_zip_with_intro _ (fun _ => True) (fun _ => True)).
      * intros u v _ _. reflexivity.
      * apply Forall_forall. auto.
      * apply Forall_forall. auto.
Qed.

(** C6.  The bottom generator is the specification's disk law at height
    [0] and the fill-surface generator is the same law at height
    [fill_ratio * height], draw for draw and on every generator state; and
    every point of the law is [(r cos theta, r sin theta, zHeight)] with
    [r = radius * sqrt u] for a draw [u] of [[0, 1)] and [theta] in
    [[0, 2 pi)]. *)
Theorem disk_sampling_law radius height fill_ratio zHeight n s :
  unit_interval_draws random_sample ->
  bottom radius n s = sampleDisk radius 0 n s /\
  surface radius height fill_ratio n s =
    sampleDisk radius (fill_ratio * height) n s /\
  forall pts s', sampleDisk radius zHeight n s = (Ok pts, s') ->
    Forall (fun p => exists u theta,
              0 <= u < 1 /\ 0 <= theta < 2 * PI /\
              p = mkPoint (radius * sqrt u * cos theta)
                          (radius * sqrt u * sin theta) zHeight) pts.
Proof.
  intros Hrng. destruct (Z.lt_ge_cases n 0) as [Hneg|Hn].
  - rewrite !sampleDisk_negative by exact Hneg.
    split; [|split].
    + unfold ConvexHullDemo.generate_bottom.
      apply M_bind_Raise, random_rand_negative, Hneg.
    + unfold ConvexHullDemo.generate_fill_surface.
      apply M_bind_Raise, random_rand_negative, Hneg.
    + intros pts s' H. discriminate.
  - rewrite !sampleDisk_run by exact Hn.
    split; [apply generate_bottom_run; exact Hn|].
    split; [apply generate_fill_surface_run; exact Hn|].
    intros pts s' H. injection H as <- _.
    unfold disk_rows. eapply Forall_zip_with_intro.
    2: apply (draws_unit_interval random_sample _ s Hrng).
    2: apply (draws_unit_interval random_sample _ _ Hrng).
    intros u v Hu Hv. cbv beta in *.
    exists u, (v * 2 * PI).
    pose proof PI_RGT_0.
    split; [exact Hu|]. split; [nra|].
    f_equal; ring.
Qed.

End SamplerClaims.

Lemma sampled_points_on_their_surfaces_witness :
  unit_interval_draws Toy.random_sample /\ 0 <= 2 /\ (0 <= 3)%Z /\
  (exists pts s',
     ConvexHullDemo.generate_cylinder_wall nat Toy.random_sample 1 2 3 0%nat
       = (Ok pts, s') /\
     length pts = Z.to_nat 3 /\
     Forall (fun p => px p ^ 2 + py p ^ 2 = 1 ^ 2 /\ 0 <= pz p <= 2) pts) /\
  (exists pts s',
     ConvexHullDemo.generate_bottom nat Toy.random_sample 1 3 0%nat
       = (Ok pts, s') /\
     length pts = Z.to_nat 3 /\
     Forall (fun p => pz p = 0 /\ px p ^ 2 + py p ^ 2 <= 1 ^ 2) pts) /\
  (exists pts s',
     ConvexHullDemo.generate_fill_surface nat Toy.random_sample 1 2 (1 / 2) 3
       0%nat = (Ok pts, s') /\
     length pts = Z.to_nat 3 /\
     Forall (fun p => pz p = 1 / 2 * 2) pts).
Proof.
  split; [exact toy_draws_unit_interval|].
  split; [lra|]. split; [lia|].
  apply (sampled_points_on_their_surfaces Toy.random_sample 1 2 (1 / 2) 3 0%nat).
  - exact toy_draws_unit_interval.
  - lra.
  - lia.
Defined.

Lemma disk_sampling_law_witness :
  unit_interval_draws Toy.random_sample /\
  ConvexHullDemo.generate_bottom nat Toy.random_sample 1 3 0%nat =
    Sampler.sampleDisk nat Toy.random_sample 1 0 3 0%nat /\
  ConvexHullDemo.generate_fill_surface nat Toy.random_sample 1 2 (1 / 2) 3
    0%nat = Sampler.sampleDisk nat Toy.random_sample 1 (1 / 2 * 2) 3 0%nat /\
  forall pts s',
    Sampler.sampleDisk nat Toy.random_sample 1 7 3 0%nat = (Ok pts, s') ->
    Forall (fun p => exists u theta,
              0 <= u < 1 /\ 0 <= theta < 2 * PI /\
              p = mkPoint (1 * sqrt u * cos theta)
                          (1 * sqrt u * sin theta) 7) pts.
Proof.
  split; [exact toy_draws_unit_interval|].
  apply (disk_sampling_law Toy.random_sample 1 2 (1 / 2) 7 3 0%nat).
  exact toy_draws_unit_interval.
Defined.

Section CountClaims.
Context {RandomState : Type}.
Variable random_sample : RandomState -> R * RandomState.

Abbreviation wall := (ConvexHullDemo.generate_cylinder_wall RandomState random_sample).
Abbreviation bottom := (ConvexHullDemo.generate_bottom RandomState random_sample).
Abbreviation surface := (ConvexHullDemo.generate_fill_surface RandomState random_sample).

(** C5, as the code has it.  A count of [0] gives the empty point set and
    leaves the generator as it was; a negative count raises NumPy's
    [ValueError] at the first draw of the call, with the generator not
    advanced; for a count that is not negative the call returns that many
    points whatever the radius and the height, negative ones included. The
    generators of the alpha-shape script are the same functions. *)
Theorem sampler_count_discipline radius height fill_ratio n s :
  ((n = 0)%Z ->
     wall radius height n s = (Ok [], s) /\
     bottom radius n s = (Ok [], s) /\
     surface radius height fill_ratio n s = (Ok [], s)) /\
  ((n < 0)%Z ->
     wall radius height n s = (Raise ValueError, s) /\
     bottom radius n s = (Raise ValueError, s) /\
     surface radius height fill_ratio n s = (Raise ValueError, s)) /\
  ((0 <= n)%Z ->
     (exists pts s', wall radius height n s = (Ok pts, s') /\
        length pts = Z.to_nat n) /\
     (exists pts s', bottom radius n s = (Ok pts, s') /\
        length pts = Z.to_nat n) /\
     (exists pts s', surface radius height fill_ratio n s = (Ok pts, s') /\
        length pts = Z.to_nat n)) /\
  AlphaShapeDemo.generate_cylinder_wall RandomState random_sample = wall /\
  AlphaShapeDemo.generate_bottom RandomState random_sample = bottom /\
  AlphaShapeDemo.generate_fill_surface RandomState random_sample = surface.
Proof.
  split; [|split; [|split]].
  - intros ->.
    rewrite generate_cylinder_wall_run, generate_bottom_run,
      generate_fill_surface_run by lia.
    repeat split.
  - intros Hneg.
    unfold ConvexHullDemo.generate_cylinder_wall, ConvexHullDemo.generate_bottom,
      ConvexHullDemo.generate_fill_surface.
    repeat split; apply M_bind_Raise, random_rand_negative, Hneg.
  - intros Hn.
    assert (length (np.draws _ random_sample (Z.to_nat n) s).1 =
            length (np.draws _ random_sample (Z.to_nat n)
                      (np.draws _ random_sample (Z.to_nat n) s).2).1)
      as Hlen by (rewrite !draws_length; reflexivity).
    split; [|split]; eexists _, _.
    + split; [apply generate_cylinder_wall_run; exact Hn|].
      unfold wall_rows. rewrite length_zip_with_same by exact Hlen.
      apply draws_length.
    + split; [apply generate_bottom_run; exact Hn|].
      unfold disk_rows. rewrite length_zip_with_same by exact Hlen.
      apply draws_length.
    + split; [apply generate_fill_surface_run; exact Hn|].
      unfold disk_rows. rewrite length_zip_with_same by exact Hlen.
      apply draws_length.
  - apply alpha_generators_same.
Qed.

End CountClaims.

(** C5 as stated fails: a call with a negative radius is not rejected.  On
    the counting generator it draws twice and returns a point. *)
Lemma negative_radius_is_sampled :
  ConvexHullDemo.generate_cylinder_wall nat Toy.random_sample (-1) 1 1 0%nat =
    (Ok [mkPoint (-1 * cos (/ (0 + 2) * 2 * PI))
                 (-1 * sin (/ (0 + 2) * 2 * PI))
                 (/ (1 + 2) * 1)], 2%nat) /\
  ~ (exists e s',
       ConvexHullDemo.generate_cylinder_wall nat Toy.random_sample (-1) 1 1
         0%nat = (Raise e, s')).
Proof.
  split; [reflexivity|]. intros (e & s' & H). discriminate H.
Qed.

Lemma sampler_count_discipline_witness :
  ConvexHullDemo.generate_cylinder_wall nat Toy.random_sample (-1) (-2) 0 5%nat
    = (Ok [], 5%nat) /\
  ConvexHullDemo.generate_bottom nat Toy.random_sample (-1) (-3) 5%nat
    = (Raise ValueError, 5%nat) /\
  (exists pts s',
     ConvexHullDemo.generate_fill_surface nat Toy.random_sample (-1) (-2) 3 2
       5%nat = (Ok pts, s') /\ length pts = Z.to_nat 2).
Proof.
  split; [|split].
  - apply (sampler_count_discipline Toy.random_sample (-1) (-2) 3 0 5%nat).
    reflexivity.
  - apply (sampler_count_discipline Toy.random_sample (-1) (-2) 3 (-3) 5%nat).
    lia.
  - apply (sampler_count_discipline Toy.random_sample (-1) (-2) 3 2 5%nat).
    lia.
Defined.

(** ** Rounding and the liters fields *)


Lemma floor_bounds (y : R) : IZR (Int_part y) <= y < IZR (Int_part y) + 1.
Proof.
  pose proof (base_fp y) as [H0 H1]. unfold frac_part in *. lra.
Qed.

Lemma round_half_even_error (y : R) :
  Rabs (IZR (round_half_even y) - y) <= 1 / 2.
Proof.
  pose proof (floor_bounds y) as Hb.
  unfold round_half_even, frac_part.
  destruct (Rlt_dec (y - IZR (Int_part y)) (1 / 2)) as [Hlt|Hge].
  - apply Rabs_le. lra.
  - destruct (Rlt_dec (1 / 2) (y - IZR (Int_part y))) as [Hgt|Hle].
    + rewrite plus_IZR. apply Rabs_le. lra.
    + destruct (Z.even (Int_part y)).
      * apply Rabs_le. lra.
      * rewrite plus_IZR. apply Rabs_le. lra.
Qed.

Lemma pow10_pos n : 0 < 10 ^ n.
Proof. apply pow_lt. lra. Qed.

Lemma round_error (x : R) (n : nat) :
  Rabs (round x n - x) <= / (2 * 10 ^ n).
Proof.
  pose proof (pow10_pos n) as Hp.
  pose proof (round_half_even_error (x * 10 ^ n)) as He.
  unfold round.
  replace (IZR (round_half_even (x * 10 ^ n)) / 10 ^ n - x)
    with ((IZR (round_half_even (x * 10 ^ n)) - x * 10 ^ n) * / 10 ^ n)
    by (field; lra).
  rewrite Rabs_mult, (Rabs_pos_eq (/ 10 ^ n))
    by (left; apply Rinv_0_lt_compat; exact Hp).
  replace (/ (2 * 10 ^ n)) with (1 / 2 * / 10 ^ n) by (field; lra).
  apply Rmult_le_compat_r; [left; apply Rinv_0_lt_compat; exact Hp | exact He].
Qed.

Lemma vstack2 (a b : list Point3D) : np.vstack [a; b] = a ++ b.
Proof. unfold np.vstack. simpl. rewrite app_nil_r. reflexivity. Qed.

Lemma vstack3 (a b c : list Point3D) : np.vstack [a; b; c] = a ++ b ++ c.
Proof. unfold np.vstack. simpl. rewrite app_nil_r. reflexivity. Qed.

Lemma same_z_coplanar (pts : list Point3D) (z0 : R) :
  Forall (fun p => pz p = z0) pts -> coplanar pts.
Proof.
  intros H. exists 0, 0, 1, z0. split; [right; right; lra|].
  intros p Hp. rewrite List.Forall_forall in H. rewrite (H p Hp). ring.
Qed.

(** ** The estimators of the convex-hull script *)

Section HullScript.
Context {RandomState : Type}.
Variable random_sample : RandomState -> R * RandomState.
Variable ConvexHull : list Point3D -> result Hull.

Abbreviation estimate := (ConvexHullDemo.estimate_volumes ConvexHull).
Abbreviation metadata_of := ConvexHullDemo.metadata_of.
Abbreviation script := (ConvexHullDemo.main RandomState random_sample ConvexHull).

Lemma hull_estimate_run b w f radius height fill_ratio hf hfill :
  ConvexHull (np.vstack [b; w; f]) = Ok hf ->
  ConvexHull (np.vstack [b; f]) = Ok hfill ->
  estimate b w f radius height fill_ratio =
    Ok (list_to_map [
      ("analytic_capacity_m3"%string, PI * radius ^ 2 * height);
      ("analytic_fill_m3"%string, PI * radius ^ 2 * height * fill_ratio);
      ("convex_hull_full_m3"%string, volume hf);
      ("convex_hull_fill_m3"%string, volume hfill) ]).
Proof.
  intros H1 H2. unfold ConvexHullDemo.estimate_volumes. cbv zeta.
  rewrite (result_bind_Ok _ _ _ H1), (result_bind_Ok _ _ _ H2).
  reflexivity.
Qed.

Lemma hull_estimate_inv b w f radius height fill_ratio vols :
  estimate b w f radius height fill_ratio = Ok vols ->
  exists hf hfill,
    ConvexHull (np.vstack [b; w; f]) = Ok hf /\
    ConvexHull (np.vstack [b; f]) = Ok hfill /\
    vols = list_to_map [
      ("analytic_capacity_m3"%string, PI * radius ^ 2 * height);
      ("analytic_fill_m3"%string, PI * radius ^ 2 * height * fill_ratio);
      ("convex_hull_full_m3"%string, volume hf);
      ("convex_hull_fill_m3"%string, volume hfill) ].
Proof.
  unfold ConvexHullDemo.estimate_volumes. cbv zeta. intros H.
  apply result_bind_inv in H as (hf & H1 & H).
  apply result_bind_inv in H as (hfill & H2 & H).
  exists hf, hfill. repeat split; try assumption.
  injection H as <-. reflexivity.
Qed.

Lemma hull_estimate_raises_full b w f radius height fill_ratio e :
  ConvexHull (np.vstack [b; w; f]) = Raise e ->
  estimate b w f radius height fill_ratio = Raise e.
Proof.
  intros H. unfold ConvexHullDemo.estimate_volumes. cbv zeta.
  rewrite (result_bind_Raise _ _ _ H). reflexivity.
Qed.

Lemma hull_estimate_raises_fill b w f radius height fill_ratio hf e :
  ConvexHull (np.vstack [b; w; f]) = Ok hf ->
  ConvexHull (np.vstack [b; f]) = Raise e ->
  estimate b w f radius height fill_ratio = Raise e.
Proof.
  intros H1 H2. unfold ConvexHullDemo.estimate_volumes. cbv zeta.
  rewrite (result_bind_Ok _ _ _ H1), (result_bind_Raise _ _ _ H2).
  reflexivity.
Qed.

Lemma hull_metadata_run cfg (c fl hf hfill : R) :
  metadata_of cfg (list_to_map [
      ("analytic_capacity_m3"%string, c);
      ("analytic_fill_m3"%string, fl);
      ("convex_hull_full_m3"%string, hf);
      ("convex_hull_fill_m3"%string, hfill) ]) =
  Ok (list_to_map [
    ("bucket_radius"%string, Float (ConvexHullDemo.bucket_radius cfg));
    ("bucket_height"%string, Float (ConvexHullDemo.bucket_height cfg));
    ("fill_ratio"%string, Float (ConvexHullDemo.fill_ratio cfg));
    ("num_points_wall"%string, Int (ConvexHullDemo.num_points_wall cfg));
    ("num_points_bottom"%string, Int (ConvexHullDemo.num_points_bottom cfg));
    ("num_points_fill_surface"%string,
       Int (ConvexHullDemo.num_points_fill_surface cfg));
    ("analytic_capacity_m3"%string, Float (round c 6));
    ("analytic_capacity_liters"%string, Float (round (c * 1000) 3));
    ("analytic_fill_m3"%string, Float (round fl 6));
    ("analytic_fill_liters"%string, Float (round (fl * 1000) 3));
    ("convex_hull_full_m3"%string, Float (round hf 6));
    ("convex_hull_full_liters"%string, Float (round (hf * 1000) 3));
    ("convex_hull_fill_m3"%string, Float (round hfill 6));
    ("convex_hull_fill_liters"%string, Float (round (hfill * 1000) 3)) ]).
Proof. reflexivity. Qed.

Lemma hull_main_sampled cfg s wall bottom fill s1 s2 s3 :
  ConvexHullDemo.generate_cylinder_wall _ random_sample
    (ConvexHullDemo.bucket_radius cfg) (ConvexHullDemo.bucket_height cfg)
    (ConvexHullDemo.num_points_wall cfg) s = (Ok wall, s1) ->
  ConvexHullDemo.generate_bottom _ random_sample
    (ConvexHullDemo.bucket_radius cfg)
    (ConvexHullDemo.num_points_bottom cfg) s1 = (Ok bottom, s2) ->
  ConvexHullDemo.generate_fill_surface _ random_sample
    (ConvexHullDemo.bucket_radius cfg) (ConvexHullDemo.bucket_height cfg)
    (ConvexHullDemo.fill_ratio cfg)
    (ConvexHullDemo.num_points_fill_surface cfg) s2 = (Ok fill, s3) ->
  script cfg s =
    match estimate bottom wall fill (ConvexHullDemo.bucket_radius cfg)
            (ConvexHullDemo.bucket_height cfg) (ConvexHullDemo.fill_ratio cfg)
    with
    | Raise e => (Raise e, s3)
    | Ok vols =>
        match metadata_of cfg vols with
        | Raise e => (Raise e, s3)
        | Ok md =>
            (Ok (list_to_map [
               ("metadata"%string, Metadata md);
               ("empty_bucket"%string, Rows (np.vstack [wall; bottom]));
               ("fill_surface"%string, Rows fill);
               ("full_bucket"%string,
                  Rows (np.vstack [np.vstack [wall; bottom]; fill])) ]), s3)
        end
    end.
Proof.
  intros Hw Hb Hf. unfold ConvexHullDemo.main.
  rewrite (M_bind_Ok _ _ _ _ _ Hw), (M_bind_Ok _ _ _ _ _ Hb),
    (M_bind_Ok _ _ _ _ _ Hf).
  cbv zeta.
  destruct (estimate bottom wall fill _ _ _) as [vols|e] eqn:He.
  - erewrite M_bind_Ok by apply lift_run.
    destruct (metadata_of cfg vols) as [md|e] eqn:Hm.
    + erewrite M_bind_Ok by apply lift_run. reflexivity.
    + erewrite M_bind_Raise by apply lift_run. reflexivity.
  - erewrite M_bind_Raise by apply lift_run. reflexivity.
Qed.

End HullScript.

Lemma toy_qhull_rejects : qhull_rejects_degenerate Toy.Qhull.
Proof.
  intros pts H. unfold Toy.Qhull.
  destruct (excluded_middle_informative (degenerate pts)); [reflexivity|].
  contradiction.
Qed.

Section HullClaims.
Context {RandomState : Type}.
Variable random_sample : RandomState -> R * RandomState.
Variable ConvexHull : list Point3D -> result Hull.

Abbreviation estimate := (ConvexHullDemo.estimate_volumes ConvexHull).
Abbreviation script := (ConvexHullDemo.main RandomState random_sample ConvexHull).

Abbreviation sampled := (ConvexHullDemo.sampled RandomState random_sample).

(** C7.  When the three samplers return [wall], [bottom] and [fill] and
    both hulls are built, the script returns a payload whose only arrays of
    rows are [empty_bucket = wall ++ bottom], [fill_surface = fill] and
    [full_bucket = empty_bucket ++ fill]; the capacity estimate is the
    volume of the hull of [bottom ++ wall ++ fill], which holds the rows of
    [full_bucket] in another order, and the fill estimate is the volume of
    the hull of [bottom ++ fill]. *)
Theorem pipeline_composition cfg s wall bottom fill s3 hf hfill :
  sampled cfg s wall bottom fill s3 ->
  ConvexHull (bottom ++ wall ++ fill) = Ok hf ->
  ConvexHull (bottom ++ fill) = Ok hfill ->
  exists data md,
    script cfg s = (Ok data, s3) /\
    data !! "empty_bucket"%string = Some (Rows (wall ++ bottom)) /\
    data !! "fill_surface"%string = Some (Rows fill) /\
    data !! "full_bucket"%string = Some (Rows ((wall ++ bottom) ++ fill)) /\
    (forall k pts, data !! k = Some (Rows pts) ->
       k = "empty_bucket"%string \/ k = "fill_surface"%string \/
       k = "full_bucket"%string) /\
    Permutation (bottom ++ wall ++ fill) ((wall ++ bottom) ++ fill) /\
    data !! "metadata"%string = Some (Metadata md) /\
    md !! "convex_hull_full_m3"%string = Some (Float (round (volume hf) 6)) /\
    md !! "convex_hull_fill_m3"%string = Some (Float (round (volume hfill) 6)).
Proof.
  intros (s1 & s2 & Hw & Hb & Hf) H1 H2.
  rewrite <- vstack3 in H1. rewrite <- vstack2 in H2.
  eexists _, _. split.
  - rewrite (hull_main_sampled _ _ _ _ _ _ _ _ _ _ Hw Hb Hf).
    rewrite (hull_estimate_run _ _ _ _ _ _ _ _ _ H1 H2).
    rewrite hull_metadata_run. rewrite !vstack2. reflexivity.
  - split; [reflexivity|]. split; [reflexivity|]. split; [reflexivity|].
    split.
    { intros k pts Hk. simpl in Hk.
      repeat (apply lookup_insert_Some in Hk as [[<- Hk]|[_ Hk]];
              [first [discriminate Hk | auto] |]).
      rewrite lookup_empty in Hk. discriminate. }
    split.
    { rewrite app_assoc. apply Permutation_app_tail, Permutation_app_comm. }
    split; [reflexivity|]. split; reflexivity.
Qed.

(** C3, as the code has it.  With a hull builder that refuses degenerate
    inputs (fewer than four points, or all points in one plane, for
    instance all with the same [z]), [estimate_volumes] neither catches the
    error nor returns its analytic values: it raises [QhullError] when the
    full point set is degenerate and raises when the fill region is, and
    the script then ends with that exception and no payload. *)
Theorem degenerate_hull_aborts_the_run :
  qhull_rejects_degenerate ConvexHull ->
  (forall pts z0, Forall (fun p => pz p = z0) pts ->
     ConvexHull pts = Raise QhullError) /\
  (forall b w f radius height fill_ratio,
     degenerate (b ++ w ++ f) ->
     estimate b w f radius height fill_ratio = Raise QhullError) /\
  (forall b w f radius height fill_ratio,
     degenerate (b ++ f) ->
     exists e, estimate b w f radius height fill_ratio = Raise e) /\
  (forall cfg s wall bottom fill s3,
     sampled cfg s wall bottom fill s3 ->
     degenerate (bottom ++ wall ++ fill) \/ degenerate (bottom ++ fill) ->
     exists e, script cfg s = (Raise e, s3)).
Proof.
  intros Hq.
  assert (forall b w f radius height fill_ratio,
            degenerate (b ++ w ++ f) ->
            estimate b w f radius height fill_ratio = Raise QhullError) as Hfull.
  { intros b w f radius height fill_ratio Hd.
    apply hull_estimate_raises_full. rewrite vstack3. apply Hq, Hd. }
  assert (forall b w f radius height fill_ratio,
            degenerate (b ++ f) ->
            exists e, estimate b w f radius height fill_ratio = Raise e) as Hfill.
  { intros b w f radius height fill_ratio Hd.
    destruct (ConvexHull (np.vstack [b; w; f])) as [hf|e] eqn:H1.
    - exists QhullError. eapply hull_estimate_raises_fill; [exact H1|].
      rewrite vstack2. apply Hq, Hd.
    - exists e. apply hull_estimate_raises_full, H1. }
  split; [|split; [exact Hfull|split; [exact Hfill|]]].
  - intros pts z0 Hz. apply Hq. right. eapply same_z_coplanar, Hz.
  - intros cfg s wall bottom fill s3 (s1 & s2 & Hw & Hb & Hf) Hd.
    rewrite (hull_main_sampled _ _ _ _ _ _ _ _ _ _ Hw Hb Hf).
    destruct Hd as [Hd|Hd].
    + rewrite (Hfull _ _ _ _ _ _ Hd). eauto.
    + destruct (Hfill bottom wall fill (ConvexHullDemo.bucket_radius cfg)
                  (ConvexHullDemo.bucket_height cfg)
                  (ConvexHullDemo.fill_ratio cfg) Hd) as [e He].
      rewrite He. eauto.
Qed.

End HullClaims.

(** Runs the three sampling calls of a main block on a generator. *)
Ltac run_samplers :=
  eexists _, _; split; [|split];
  [ rewrite generate_cylinder_wall_run by (simpl; lia)
  | rewrite generate_bottom_run by (simpl; lia)
  | rewrite generate_fill_surface_run by (simpl; lia) ];
  reflexivity.

Lemma pipeline_composition_witness :
  exists wall bottom fill data,
    ConvexHullDemo.sampled nat Toy.random_sample Toy.four_points 0%nat
      wall bottom fill 8%nat /\
    Toy.ConvexHull (bottom ++ wall ++ fill) = Ok {| volume := 1 |} /\
    Toy.ConvexHull (bottom ++ fill) = Ok {| volume := 1 |} /\
    ConvexHullDemo.main nat Toy.random_sample Toy.ConvexHull Toy.four_points
      0%nat = (Ok data, 8%nat) /\
    data !! "empty_bucket"%string = Some (Rows (wall ++ bottom)) /\
    data !! "fill_surface"%string = Some (Rows fill) /\
    data !! "full_bucket"%string = Some (Rows ((wall ++ bottom) ++ fill)).
Proof.
  assert (exists wall bottom fill,
            ConvexHullDemo.sampled nat Toy.random_sample Toy.four_points 0%nat
              wall bottom fill 8%nat /\
            Toy.ConvexHull (bottom ++ wall ++ fill) = Ok {| volume := 1 |} /\
            Toy.ConvexHull (bottom ++ fill) = Ok {| volume := 1 |})
    as (wall & bottom & fill & Hs & H1 & H2).
  { eexists _, _, _. split.
    - run_samplers.
    - split; reflexivity. }
  destruct (pipeline_composition Toy.random_sample Toy.ConvexHull
              Toy.four_points 0%nat wall bottom fill 8%nat _ _ Hs H1 H2)
    as (data & md & Hrun & He & Hf & Hfull & _).
  exists wall, bottom, fill, data. auto 10.
Defined.

(** C3 as stated fails: with three points in all, Qhull's error ends the
    script, which returns no payload and no analytic value. *)
Lemma hull_failure_ends_the_script :
  ConvexHullDemo.main nat Toy.random_sample Toy.ConvexHull Toy.three_points
    0%nat = (Raise QhullError, 6%nat) /\
  ~ (exists data s',
       ConvexHullDemo.main nat Toy.random_sample Toy.ConvexHull
         Toy.three_points 0%nat = (Ok data, s')).
Proof.
  split; [reflexivity|]. intros (data & s' & H). discriminate H.
Qed.

Lemma degenerate_hull_aborts_the_run_witness :
  qhull_rejects_degenerate Toy.Qhull /\
  exists e,
    ConvexHullDemo.main nat Toy.random_sample Toy.Qhull Toy.three_points 0%nat
      = (Raise e, 6%nat).
Proof.
  split; [exact toy_qhull_rejects|].
  destruct (degenerate_hull_aborts_the_run Toy.random_sample Toy.Qhull
              toy_qhull_rejects) as (_ & _ & _ & Hmain).
  eapply Hmain.
  - run_samplers.
  - left. left. simpl. lia.
Defined.

(** ** The estimators of the alpha-shape script *)

Lemma take_spec (a : list Point3D) (idx : list nat) :
  Forall (fun i => (i < length a)%nat) idx ->
  exists rows, np.take a idx = Ok rows /\
    Forall2 (fun i p => a !! i = Some p) idx rows.
Proof.
  induction 1 as [|i idx Hi Hidx (rows & Hrows & Hall)].
  - exists []. split; [reflexivity | constructor].
  - destruct (lookup_lt_is_Some_2 a i Hi) as [p Hp].
    exists (p :: rows). simpl. rewrite Hp, Hrows. split; [reflexivity|].
    constructor; assumption.
Qed.

Lemma shuffled_prefix (p : list nat) (n k : nat) :
  Permutation p (seq 0 n) -> (k <= n)%nat ->
  length (firstn k p) = k /\ List.NoDup (firstn k p) /\
  Forall (fun i => (i < n)%nat) (firstn k p).
Proof.
  intros Hp Hk.
  assert (length p = n) as Hlen
    by (rewrite (Permutation_length Hp); apply length_seq).
  assert (List.NoDup p) as Hnd
    by (eapply Permutation_NoDup; [symmetry; exact Hp | apply seq_NoDup]).
  assert (forall i, In i p -> (i < n)%nat) as Hin.
  { intros i Hi. apply (Permutation_in _ Hp) in Hi.
    apply in_seq in Hi. lia. }
  split; [rewrite length_firstn; lia|]. split.
  - rewrite <- (firstn_skipn k p) in Hnd. apply NoDup_app_remove_r in Hnd.
    exact Hnd.
  - apply List.Forall_forall. intros i Hi. apply Hin.
    rewrite <- (firstn_skipn k p). apply in_or_app. left. exact Hi.
Qed.

Section AlphaScript.
Context {RandomState : Type}.
Variable random_sample : RandomState -> R * RandomState.
Variable permutation : nat -> RandomState -> list nat * RandomState.
Variable ConvexHull : list Point3D -> result Hull.
Variable alphashape : list Point3D -> R -> result Shape.

Abbreviation subsample := (AlphaShapeDemo.subsample RandomState permutation).
Abbreviation alpha_volume := (AlphaShapeDemo.alpha_volume ConvexHull alphashape).
Abbreviation estimate :=
  (AlphaShapeDemo.estimate_volumes RandomState permutation ConvexHull alphashape).
Abbreviation script :=
  (AlphaShapeDemo.main RandomState random_sample permutation ConvexHull alphashape).

Lemma subsample_small region s :
  (Z.of_nat (length region) <= 5000)%Z -> subsample region s = (Ok region, s).
Proof.
  intros H. unfold AlphaShapeDemo.subsample.
  destruct (Z.ltb_spec 5000 (Z.of_nat (length region))); [lia | reflexivity].
Qed.

Lemma subsample_large region s :
  (5000 < Z.of_nat (length region))%Z ->
  subsample region s =
    (np.take region
       (firstn (Z.to_nat 5000) (permutation (length region) s).1),
     (permutation (length region) s).2).
Proof.
  intros H. unfold AlphaShapeDemo.subsample.
  destruct (Z.ltb_spec 5000 (Z.of_nat (length region))); [|lia].
  unfold mbind, M_bind, np.random_choice.
  destruct (Nat.ltb_spec (length region) (Z.to_nat 5000)); [lia|].
  destruct (permutation (length region) s) as [p s1]. simpl.
  unfold lift. destruct (np.take region _); reflexivity.
Qed.

Lemma alpha_estimate_run b w f radius height fill_ratio alpha s region s1
    e av hf :
  subsample (np.vstack [b; f]) s = (Ok region, s1) ->
  alphashape region alpha = Raise e ->
  alpha_volume region alpha = Ok av ->
  ConvexHull (np.vstack [b; w; f]) = Ok hf ->
  estimate b w f radius height fill_ratio alpha s =
    (Ok (list_to_map [
       ("analytic_capacity_m3"%string, PI * radius ^ 2 * height);
       ("analytic_fill_m3"%string, PI * radius ^ 2 * height * fill_ratio);
       ("convex_hull_full_m3"%string, volume hf);
       ("alpha_shape_fill_m3"%string, av) ]), s1).
Proof.
  intros Hs He Ha Hh. unfold AlphaShapeDemo.estimate_volumes. cbv zeta.
  rewrite (M_bind_Ok _ _ _ _ _ Hs).
  erewrite M_bind_Ok by (rewrite lift_run, Ha; reflexivity).
  unfold AlphaShapeDemo.local_ConvexHull. rewrite He.
  erewrite M_bind_Ok by (rewrite lift_run, Hh; reflexivity).
  reflexivity.
Qed.

Lemma alpha_estimate_inv b w f radius height fill_ratio alpha s vols s' :
  estimate b w f radius height fill_ratio alpha s = (Ok vols, s') ->
  exists region av hf,
    subsample (np.vstack [b; f]) s = (Ok region, s') /\
    alpha_volume region alpha = Ok av /\
    ConvexHull (np.vstack [b; w; f]) = Ok hf /\
    vols = list_to_map [
       ("analytic_capacity_m3"%string, PI * radius ^ 2 * height);
       ("analytic_fill_m3"%string, PI * radius ^ 2 * height * fill_ratio);
       ("convex_hull_full_m3"%string, volume hf);
       ("alpha_shape_fill_m3"%string, av) ].
Proof.
  unfold AlphaShapeDemo.estimate_volumes. cbv zeta. intros H.
  apply M_bind_inv in H as (region & s1 & Hs & H).
  apply M_bind_inv in H as (av & s2 & Ha & H).
  apply M_bind_inv in H as (hf & s3 & Hh & H).
  unfold lift, AlphaShapeDemo.local_ConvexHull in Ha, Hh.
  destruct (alphashape region alpha) as [shape|e]; [discriminate Hh|].
  injection Ha as Ha <-. injection Hh as Hh <-. injection H as <- <-.
  exists region, av, hf. auto.
Qed.

(** A dict is returned only after the [except] block ran. *)
Lemma alpha_estimate_fallback b w f radius height fill_ratio alpha s vols s' :
  estimate b w f radius height fill_ratio alpha s = (Ok vols, s') ->
  exists region e,
    subsample (np.vstack [b; f]) s = (Ok region, s') /\
    alphashape region alpha = Raise e.
Proof.
  unfold AlphaShapeDemo.estimate_volumes. cbv zeta. intros H.
  apply M_bind_inv in H as (region & s1 & Hs & H).
  apply M_bind_inv in H as (av & s2 & Ha & H).
  apply M_bind_inv in H as (hf & s3 & Hh & H).
  unfold lift, AlphaShapeDemo.local_ConvexHull in Ha, Hh.
  destruct (alphashape region alpha) as [shape|e] eqn:He; [discriminate Hh|].
  injection Ha as Ha <-. injection Hh as Hh <-. injection H as <- <-.
  exists region, e. auto.
Qed.

(** When [alphashape] returned, the call on the full point set reads the
    unbound local name. *)
Lemma alpha_estimate_unbound b w f radius height fill_ratio alpha s region s1
    shape :
  subsample (np.vstack [b; f]) s = (Ok region, s1) ->
  alphashape region alpha = Ok shape ->
  estimate b w f radius height fill_ratio alpha s
    = (Raise UnboundLocalError, s1).
Proof.
  intros Hs He. unfold AlphaShapeDemo.estimate_volumes. cbv zeta.
  rewrite (M_bind_Ok _ _ _ _ _ Hs).
  unfold AlphaShapeDemo.alpha_volume, AlphaShapeDemo.local_ConvexHull.
  rewrite He. reflexivity.
Qed.

Lemma alpha_metadata_run cfg (c fl hf av : R) :
  AlphaShapeDemo.metadata_of cfg (list_to_map [
      ("analytic_capacity_m3"%string, c);
      ("analytic_fill_m3"%string, fl);
      ("convex_hull_full_m3"%string, hf);
      ("alpha_shape_fill_m3"%string, av) ]) =
  Ok (list_to_map [
    ("bucket_radius"%string, Float (AlphaShapeDemo.bucket_radius cfg));
    ("bucket_height"%string, Float (AlphaShapeDemo.bucket_height cfg));
    ("fill_ratio"%string, Float (AlphaShapeDemo.fill_ratio cfg));
    ("num_points_wall"%string, Int (AlphaShapeDemo.num_points_wall cfg));
    ("num_points_bottom"%string, Int (AlphaShapeDemo.num_points_bottom cfg));
    ("num_points_fill_surface"%string,
       Int (AlphaShapeDemo.num_points_fill_surface cfg));
    ("alpha_value"%string, Float (AlphaShapeDemo.alpha_value cfg));
    ("analytic_capacity_m3"%string, Float (round c 6));
    ("analytic_capacity_liters"%string, Float (round (c * 1000) 3));
    ("analytic_fill_m3"%string, Float (round fl 6));
    ("analytic_fill_liters"%string, Float (round (fl * 1000) 3));
    ("convex_hull_full_m3"%string, Float (round hf 6));
    ("convex_hull_full_liters"%string, Float (round (hf * 1000) 3));
    ("alpha_shape_fill_m3"%string, Float (round av 6));
    ("alpha_shape_fill_liters"%string, Float (round (av * 1000) 3)) ]).
Proof. reflexivity. Qed.

End AlphaScript.

Lemma toy_permutation_shuffles : shuffles Toy.permutation.
Proof.
  intros n s. unfold Toy.permutation. simpl.
  destruct (Nat.even s); [reflexivity|].
  symmetry. apply Permutation_rev.
Qed.

Section Subsampling.
Context {RandomState : Type}.
Variable permutation : nat -> RandomState -> list nat * RandomState.
Variable ConvexHull : list Point3D -> result Hull.
Variable alphashape : list Point3D -> R -> result Shape.

Abbreviation subsample := (AlphaShapeDemo.subsample RandomState permutation).
Abbreviation estimate :=
  (AlphaShapeDemo.estimate_volumes RandomState permutation ConvexHull alphashape).

Lemma subsample_large_spec region s :
  shuffles permutation ->
  (5000 < Z.of_nat (length region))%Z ->
  exists rows,
    subsample region s = (Ok rows, (permutation (length region) s).2) /\
    length rows = Z.to_nat 5000 /\
    List.NoDup (firstn (Z.to_nat 5000) (permutation (length region) s).1) /\
    Forall2 (fun i p => region !! i = Some p)
      (firstn (Z.to_nat 5000) (permutation (length region) s).1) rows.
Proof.
  intros Hsh Hlen.
  destruct (shuffled_prefix _ (length region) (Z.to_nat 5000) (Hsh _ s))
    as (Hk & Hnd & Hlt); [lia|].
  destruct (take_spec region _ Hlt) as (rows & Htake & Hall).
  exists rows. rewrite (subsample_large _ _ _ Hlen), Htake.
  split; [reflexivity|]. split; [|split; assumption].
  rewrite <- (Forall2_length _ _ _ Hall). exact Hk.
Qed.

(** C4, as the code has it.  The subsample is drawn from NumPy's
    module-wide generator, which [estimate_volumes] is not passed: a fill
    region of at most 5000 rows is kept and the generator is not touched;
    a larger one is replaced by exactly 5000 of its rows, those at the
    first 5000 indices of one [permutation] draw, which are pairwise
    different, and the generator is left in the state after that draw.  The
    result is a function of the region and of the generator state at the
    call; [estimate_volumes] hands the advanced state on to its caller. *)
Theorem subsample_draws_from_module_generator region s :
  shuffles permutation ->
  ((Z.of_nat (length region) <= 5000)%Z ->
     subsample region s = (Ok region, s)) /\
  ((5000 < Z.of_nat (length region))%Z ->
     exists idx rows,
       idx = firstn (Z.to_nat 5000) (permutation (length region) s).1 /\
       subsample region s = (Ok rows, (permutation (length region) s).2) /\
       length rows = Z.to_nat 5000 /\
       List.NoDup idx /\
       Forall2 (fun i p => region !! i = Some p) idx rows) /\
  (forall b w f radius height fill_ratio alpha vols s',
     np.vstack [b; f] = region ->
     estimate b w f radius height fill_ratio alpha s = (Ok vols, s') ->
     exists rows, subsample region s = (Ok rows, s')).
Proof.
  intros Hsh. split; [|split].
  - apply subsample_small.
  - intros Hlen.
    destruct (subsample_large_spec region s Hsh Hlen)
      as (rows & Hrun & Hk & Hnd & Hall).
    exists (firstn (Z.to_nat 5000) (permutation (length region) s).1), rows.
    auto.
  - intros b w f radius height fill_ratio alpha vols s' <- Hrun.
    apply alpha_estimate_inv in Hrun as (rows & av & hf & Hs & _).
    exists rows. exact Hs.
Qed.

End Subsampling.

Lemma big_region_length : length Toy.big_region = Z.to_nat 5001.
Proof. unfold Toy.big_region. rewrite length_map, length_seq. reflexivity. Qed.

Lemma big_region_lookup i :
  (i < Z.to_nat 5001)%nat ->
  Toy.big_region !! i = Some (mkPoint (INR i) 0 0).
Proof.
  intros Hi. unfold Toy.big_region.
  change (map ?f ?l) with (f <$> l).
  rewrite list_lookup_fmap, lookup_seq_lt by exact Hi. reflexivity.
Qed.

Lemma subsample_draws_from_module_generator_witness :
  shuffles Toy.permutation /\
  (5000 < Z.of_nat (length Toy.big_region))%Z /\
  exists rows,
    AlphaShapeDemo.subsample nat Toy.permutation Toy.big_region 0%nat
      = (Ok rows, 1%nat) /\
    length rows = Z.to_nat 5000.
Proof.
  assert (5000 < Z.of_nat (length Toy.big_region))%Z as Hlen
    by (rewrite big_region_length; lia).
  split; [exact toy_permutation_shuffles|]. split; [exact Hlen|].
  destruct (subsample_draws_from_module_generator Toy.permutation
              Toy.ConvexHull Toy.alphashape Toy.big_region 0%nat
              toy_permutation_shuffles) as (_ & Hlarge & _).
  destruct (Hlarge Hlen) as (idx & rows & _ & Hrun & Hk & _).
  exists rows. split; [exact Hrun | exact Hk].
Defined.

Lemma toy_permutation_first (n k : nat) :
  firstn (S k) (Toy.permutation (S n) 0).1 = 0%nat :: firstn k (seq 1 n).
Proof. reflexivity. Qed.

Lemma toy_permutation_second (n k : nat) :
  firstn (S k) (Toy.permutation (S n) 1).1 = n :: firstn k (rev (seq 0 n)).
Proof.
  unfold Toy.permutation. cbn [fst Nat.even negb].
  rewrite seq_S, rev_unit. reflexivity.
Qed.

(** C4 as stated fails: [estimate_volumes] receives no random source, and a
    second invocation on the same fill region, later in the same process
    seeded once, finds the module-wide generator advanced and draws other
    rows. *)
Lemma repeated_subsample_differs :
  exists rows0 rows1,
    AlphaShapeDemo.subsample nat Toy.permutation Toy.big_region 0%nat
      = (Ok rows0, 1%nat) /\
    AlphaShapeDemo.subsample nat Toy.permutation Toy.big_region 1%nat
      = (Ok rows1, 2%nat) /\
    rows0 <> rows1.
Proof.
  assert (5000 < Z.of_nat (length Toy.big_region))%Z as Hlen
    by (rewrite big_region_length; lia).
  destruct (subsample_large_spec Toy.permutation Toy.big_region 0%nat
              toy_permutation_shuffles Hlen) as (rows0 & Hrun0 & _ & _ & H0).
  destruct (subsample_large_spec Toy.permutation Toy.big_region 1%nat
              toy_permutation_shuffles Hlen) as (rows1 & Hrun1 & _ & _ & H1).
  exists rows0, rows1. split; [exact Hrun0|]. split; [exact Hrun1|].
  assert (length Toy.big_region = S (Z.to_nat 5000)) as E1
    by (rewrite big_region_length; lia).
  assert (Z.to_nat 5000 = S (Z.to_nat 4999)) as E0 by lia.
  rewrite E1 in H0, H1.
  generalize dependent (Z.to_nat 5000). intros m H0 H1 E1 ->.
  rewrite toy_permutation_first in H0.
  rewrite toy_permutation_second in H1.
  apply Forall2_cons_inv_l in H0 as (p0 & r0 & Hp0 & _ & ->).
  apply Forall2_cons_inv_l in H1 as (p1 & r1 & Hp1 & _ & ->).
  rewrite big_region_lookup in Hp0 by lia.
  rewrite big_region_lookup in Hp1 by lia.
  intros Heq.
  assert (INR 0 = INR (S (Z.to_nat 4999))) as Hinr by congruence.
  apply INR_eq in Hinr. lia.
Qed.

(** ** What a returned payload is made of *)

Section Payloads.
Context {RandomState : Type}.
Variable random_sample : RandomState -> R * RandomState.
Variable permutation : nat -> RandomState -> list nat * RandomState.
Variable ConvexHull : list Point3D -> result Hull.
Variable alphashape : list Point3D -> R -> result Shape.

Abbreviation hull_script :=
  (ConvexHullDemo.main RandomState random_sample ConvexHull).
Abbreviation alpha_script :=
  (AlphaShapeDemo.main RandomState random_sample permutation ConvexHull alphashape).

Lemma hull_main_inv cfg s data s' :
  hull_script cfg s = (Ok data, s') ->
  exists wall bottom fill vols md,
    ConvexHullDemo.sampled _ random_sample cfg s wall bottom fill s' /\
    ConvexHullDemo.estimate_volumes ConvexHull bottom wall fill
      (ConvexHullDemo.bucket_radius cfg) (ConvexHullDemo.bucket_height cfg)
      (ConvexHullDemo.fill_ratio cfg) = Ok vols /\
    ConvexHullDemo.metadata_of cfg vols = Ok md /\
    data = list_to_map [
      ("metadata"%string, Metadata md);
      ("empty_bucket"%string, Rows (np.vstack [wall; bottom]));
      ("fill_surface"%string, Rows fill);
      ("full_bucket"%string,
         Rows (np.vstack [np.vstack [wall; bottom]; fill])) ].
Proof.
  unfold ConvexHullDemo.main. intros H.
  apply M_bind_inv in H as (wall & s1 & Hw & H).
  apply M_bind_inv in H as (bottom & s2 & Hb & H).
  apply M_bind_inv in H as (fill & s3 & Hf & H).
  cbv zeta in H.
  apply M_bind_inv in H as (vols & s4 & Hv & H).
  apply M_bind_inv in H as (md & s5 & Hm & H).
  unfold lift in Hv, Hm.
  injection Hv as Hv <-. injection Hm as Hm <-. injection H as <- <-.
  exists wall, bottom, fill, vols, md.
  split; [exists s1, s2; auto | auto].
Qed.

Lemma alpha_main_inv cfg s data s' :
  alpha_script cfg s = (Ok data, s') ->
  exists wall bottom fill s3 vols md,
    AlphaShapeDemo.sampled _ random_sample cfg s wall bottom fill s3 /\
    AlphaShapeDemo.estimate_volumes _ permutation ConvexHull alphashape
      bottom wall fill
      (AlphaShapeDemo.bucket_radius cfg) (AlphaShapeDemo.bucket_height cfg)
      (AlphaShapeDemo.fill_ratio cfg) (AlphaShapeDemo.alpha_value cfg) s3
      = (Ok vols, s') /\
    AlphaShapeDemo.metadata_of cfg vols = Ok md /\
    data = list_to_map [
      ("metadata"%string, Metadata md);
      ("empty_bucket"%string, Rows (np.vstack [wall; bottom]));
      ("fill_surface"%string, Rows fill);
      ("full_bucket"%string,
         Rows (np.vstack [np.vstack [wall; bottom]; fill])) ].
Proof.
  unfold AlphaShapeDemo.main. intros H.
  apply M_bind_inv in H as (wall & s1 & Hw & H).
  apply M_bind_inv in H as (bottom & s2 & Hb & H).
  apply M_bind_inv in H as (fill & s3 & Hf & H).
  cbv zeta in H.
  apply M_bind_inv in H as (vols & s4 & Hv & H).
  apply M_bind_inv in H as (md & s5 & Hm & H).
  unfold lift in Hm.
  injection Hm as Hm <-. injection H as <- <-.
  exists wall, bottom, fill, s3, vols, md.
  split; [exists s1, s2; auto | auto].
Qed.

End Payloads.

(** ** The alpha-shape fallback *)

Lemma metadata_dom_alpha cfg (c fl hf av : R) md :
  AlphaShapeDemo.metadata_of cfg (list_to_map [
      ("analytic_capacity_m3"%string, c);
      ("analytic_fill_m3"%string, fl);
      ("convex_hull_full_m3"%string, hf);
      ("alpha_shape_fill_m3"%string, av) ]) = Ok md ->
  dom md = list_to_set [
    "bucket_radius"; "bucket_height"; "fill_ratio"; "num_points_wall";
    "num_points_bottom"; "num_points_fill_surface"; "alpha_value";
    "analytic_capacity_m3"; "analytic_capacity_liters";
    "analytic_fill_m3"; "analytic_fill_liters";
    "convex_hull_full_m3"; "convex_hull_full_liters";
    "alpha_shape_fill_m3"; "alpha_shape_fill_liters" ]%string /\
  md !! "alpha_shape_fill_m3"%string = Some (Float (round av 6)).
Proof.
  rewrite alpha_metadata_run. intros H. injection H as <-.
  split; [|reflexivity].
  cbn [list_to_map foldr fst snd uncurry]. unfold uncurry. cbn [fst snd].
  rewrite !dom_insert_L, dom_empty_L. cbn [list_to_set foldr].
  reflexivity.
Qed.

Section Fallback.
Context {RandomState : Type}.
Variable random_sample : RandomState -> R * RandomState.
Variable permutation : nat -> RandomState -> list nat * RandomState.
Variable ConvexHull : list Point3D -> result Hull.
Variable alphashape : list Point3D -> R -> result Shape.

Abbreviation subsample := (AlphaShapeDemo.subsample RandomState permutation).
Abbreviation alpha_volume := (AlphaShapeDemo.alpha_volume ConvexHull alphashape).
Abbreviation script :=
  (AlphaShapeDemo.main RandomState random_sample permutation ConvexHull alphashape).

Lemma alpha_main_run cfg s wall bottom fill s3 vols s4 md :
  AlphaShapeDemo.sampled _ random_sample cfg s wall bottom fill s3 ->
  AlphaShapeDemo.estimate_volumes _ permutation ConvexHull alphashape
    bottom wall fill
    (AlphaShapeDemo.bucket_radius cfg) (AlphaShapeDemo.bucket_height cfg)
    (AlphaShapeDemo.fill_ratio cfg) (AlphaShapeDemo.alpha_value cfg) s3
    = (Ok vols, s4) ->
  AlphaShapeDemo.metadata_of cfg vols = Ok md ->
  script cfg s =
    (Ok (list_to_map [
       ("metadata"%string, Metadata md);
       ("empty_bucket"%string, Rows (np.vstack [wall; bottom]));
       ("fill_surface"%string, Rows fill);
       ("full_bucket"%string,
          Rows (np.vstack [np.vstack [wall; bottom]; fill])) ]), s4).
Proof.
  intros (s1 & s2 & Hw & Hb & Hf) Hv Hm. unfold AlphaShapeDemo.main.
  rewrite (M_bind_Ok _ _ _ _ _ Hw), (M_bind_Ok _ _ _ _ _ Hb),
    (M_bind_Ok _ _ _ _ _ Hf).
  cbv zeta. rewrite (M_bind_Ok _ _ _ _ _ Hv).
  erewrite M_bind_Ok by (rewrite lift_run, Hm; reflexivity).
  reflexivity.
Qed.

(** C2, as the code has it.  When [alphashape] raises, the value is the
    volume of the convex hull of the same, subsampled, fill region, and an
    error of that hull construction is raised in turn; when both that hull
    and the hull of the full point set are built, the script returns a
    payload that stores the hull volume, rounded, under
    [alpha_shape_fill_m3].  When [alphashape] returns a shape, the [try]
    statement takes its [volume], whatever it is, or [0.0] when it has
    none, and builds no hull of the region.  Every payload the script
    returns stores the value of the [try] statement, rounded, under
    [alpha_shape_fill_m3], and its metadata has the same fifteen keys, none
    of which records a fallback. *)
Theorem alpha_fallback_branches region alpha :
  (forall e hull,
     alphashape region alpha = Raise e -> ConvexHull region = Ok hull ->
     alpha_volume region alpha = Ok (volume hull)) /\
  (forall e e',
     alphashape region alpha = Raise e -> ConvexHull region = Raise e' ->
     alpha_volume region alpha = Raise e') /\
  (forall shape v,
     alphashape region alpha = Ok shape -> volume_attr shape = Some v ->
     alpha_volume region alpha = Ok v) /\
  (forall shape,
     alphashape region alpha = Ok shape -> volume_attr shape = None ->
     alpha_volume region alpha = Ok 0) /\
  (forall cfg s wall bottom fill s3 s4 e hull hf,
     AlphaShapeDemo.sampled _ random_sample cfg s wall bottom fill s3 ->
     subsample (bottom ++ fill) s3 = (Ok region, s4) ->
     alpha = AlphaShapeDemo.alpha_value cfg ->
     alphashape region alpha = Raise e ->
     ConvexHull region = Ok hull ->
     ConvexHull (bottom ++ wall ++ fill) = Ok hf ->
     exists data md,
       script cfg s = (Ok data, s4) /\
       data !! "metadata"%string = Some (Metadata md) /\
       md !! "alpha_shape_fill_m3"%string
         = Some (Float (round (volume hull) 6))) /\
  (forall cfg s data s',
     script cfg s = (Ok data, s') ->
     exists wall bottom fill s3 rows av md,
       AlphaShapeDemo.sampled _ random_sample cfg s wall bottom fill s3 /\
       subsample (bottom ++ fill) s3 = (Ok rows, s') /\
       AlphaShapeDemo.alpha_volume ConvexHull alphashape rows
         (AlphaShapeDemo.alpha_value cfg) = Ok av /\
       data !! "metadata"%string = Some (Metadata md) /\
       md !! "alpha_shape_fill_m3"%string = Some (Float (round av 6)) /\
       dom md = list_to_set [
         "bucket_radius"; "bucket_height"; "fill_ratio"; "num_points_wall";
         "num_points_bottom"; "num_points_fill_surface"; "alpha_value";
         "analytic_capacity_m3"; "analytic_capacity_liters";
         "analytic_fill_m3"; "analytic_fill_liters";
         "convex_hull_full_m3"; "convex_hull_full_liters";
         "alpha_shape_fill_m3"; "alpha_shape_fill_liters" ]%string).
Proof.
  assert (forall e hull,
            alphashape region alpha = Raise e -> ConvexHull region = Ok hull ->
            alpha_volume region alpha = Ok (volume hull)) as Hfall.
  { unfold AlphaShapeDemo.alpha_volume. intros e hull -> ->. reflexivity. }
  split; [exact Hfall|].
  unfold AlphaShapeDemo.alpha_volume at 1 2 3.
  split; [|split; [|split; [|split]]].
  - intros e e' -> ->. reflexivity.
  - intros shape v -> ->. reflexivity.
  - intros shape -> ->. reflexivity.
  - intros cfg s wall bottom fill s3 s4 e hull hf Hs Hsub -> He Hh Hf.
    rewrite <- vstack2 in Hsub. rewrite <- vstack3 in Hf.
    pose proof (alpha_estimate_run permutation ConvexHull alphashape
                  bottom wall fill (AlphaShapeDemo.bucket_radius cfg)
                  (AlphaShapeDemo.bucket_height cfg)
                  (AlphaShapeDemo.fill_ratio cfg) _ _ _ _ _ _ _
                  Hsub He (Hfall e hull He Hh) Hf) as Hv.
    eexists _, _. split.
    + eapply alpha_main_run; [exact Hs | exact Hv | apply alpha_metadata_run].
    + split; reflexivity.
  - intros cfg s data s' Hrun.
    apply alpha_main_inv in Hrun
      as (wall & bottom & fill & s3 & vols & md & Hs & Hv & Hm & ->).
    apply alpha_estimate_inv in Hv as (rows & av & hf & Hsub & Hav & _ & ->).
    rewrite vstack2 in Hsub.
    apply metadata_dom_alpha in Hm as (Hdom & Hkey).
    exists wall, bottom, fill, s3, rows, av, md.
    split; [exact Hs|]. split; [exact Hsub|]. split; [exact Hav|].
    split; [reflexivity|]. split; [exact Hkey | exact Hdom].
Qed.

End Fallback.

Lemma toy_fallback_value rows av :
  AlphaShapeDemo.alpha_volume Toy.ConvexHull Toy.failing_alphashape rows 2
    = Ok av -> av = 1.
Proof.
  unfold AlphaShapeDemo.alpha_volume, Toy.failing_alphashape, Toy.ConvexHull.
  destruct (length rows <? 4)%nat; [discriminate|].
  intros H. injection H as <-. reflexivity.
Qed.

(** C2 as stated fails twice.  On a run in which [alphashape] raised, the
    script returns a payload with the four usual entries and a metadata
    with the fifteen usual keys, the hull volume 1 standing under
    [alpha_shape_fill_m3]: no entry records the fallback.  And for a shape
    without a [volume] the [try] statement takes [0.0], although no hull of
    the region can be built: there is no fallback to the hull. *)
Lemma fallback_leaves_no_record :
  (exists data md,
     AlphaShapeDemo.main nat Toy.random_sample Toy.permutation Toy.ConvexHull
       Toy.failing_alphashape Toy.alpha_four_points 0%nat = (Ok data, 8%nat) /\
     data !! "metadata"%string = Some (Metadata md) /\
     dom data = list_to_set
       ["metadata"; "empty_bucket"; "fill_surface"; "full_bucket"]%string /\
     dom md = list_to_set [
       "bucket_radius"; "bucket_height"; "fill_ratio"; "num_points_wall";
       "num_points_bottom"; "num_points_fill_surface"; "alpha_value";
       "analytic_capacity_m3"; "analytic_capacity_liters";
       "analytic_fill_m3"; "analytic_fill_liters";
       "convex_hull_full_m3"; "convex_hull_full_liters";
       "alpha_shape_fill_m3"; "alpha_shape_fill_liters" ]%string /\
     md !! "alpha_shape_fill_m3"%string = Some (Float (round 1 6))) /\
  (let region := [mkPoint 0 0 0; mkPoint 1 0 0] in
   AlphaShapeDemo.alpha_volume Toy.ConvexHull Toy.alphashape region 2 = Ok 0 /\
   Toy.ConvexHull region = Raise QhullError).
Proof.
  split.
  - assert (exists data,
              AlphaShapeDemo.main nat Toy.random_sample Toy.permutation
                Toy.ConvexHull Toy.failing_alphashape Toy.alpha_four_points
                0%nat = (Ok data, 8%nat)) as [data Hrun]
      by (eexists; reflexivity).
    pose proof Hrun as Hinv.
    apply alpha_main_inv in Hinv
      as (wall & bottom & fill & s3 & vols & md & _ & Hv & Hm & ->).
    apply alpha_estimate_inv in Hv as (rows & av & hf & _ & Hav & _ & ->).
    apply toy_fallback_value in Hav as ->.
    apply metadata_dom_alpha in Hm as (Hdom & Hkey).
    eexists _, md. split; [exact Hrun|]. split; [reflexivity|].
    split; [|split; [exact Hdom | exact Hkey]].
    cbn [list_to_map foldr]. unfold uncurry. cbn [fst snd].
    rewrite !dom_insert_L, dom_empty_L. cbn [list_to_set foldr].
    reflexivity.
  - split; reflexivity.
Qed.

Lemma alpha_fallback_branches_witness :
  let region :=
    [mkPoint 0 0 0; mkPoint 1 0 0; mkPoint 0 1 0; mkPoint 0 0 1] in
  Toy.failing_alphashape region 2 = Raise (LibraryError "alphashape") /\
  Toy.ConvexHull region = Ok {| volume := 1 |} /\
  AlphaShapeDemo.alpha_volume Toy.ConvexHull Toy.failing_alphashape region 2
    = Ok 1.
Proof.
  intros region. split; [reflexivity|]. split; [reflexivity|].
  destruct (alpha_fallback_branches Toy.random_sample Toy.permutation
              Toy.ConvexHull Toy.failing_alphashape region 2) as (Hfall & _).
  apply (Hfall (LibraryError "alphashape") {| volume := 1 |});
    reflexivity.
Defined.

(** ** The analytic reference and the report *)








Section Reports.
Context {RandomState : Type}.
Variable random_sample : RandomState -> R * RandomState.
Variable permutation : nat -> RandomState -> list nat * RandomState.
Variable ConvexHull : list Point3D -> result Hull.
Variable alphashape : list Point3D -> R -> result Shape.

Abbreviation hull_estimate := (ConvexHullDemo.estimate_volumes ConvexHull).
Abbreviation alpha_estimate :=
  (AlphaShapeDemo.estimate_volumes RandomState permutation ConvexHull alphashape).
Abbreviation hull_script :=
  (ConvexHullDemo.main RandomState random_sample ConvexHull).
Abbreviation alpha_script :=
  (AlphaShapeDemo.main RandomState random_sample permutation ConvexHull alphashape).

(** C1.  In both scripts, for every radius, height and fill ratio, every
    dict [estimate_volumes] returns holds [pi * radius^2 * height] under
    [analytic_capacity_m3] and that capacity times [fill_ratio] under
    [analytic_fill_m3]: [0] when the fill ratio is [0], the capacity when
    it is [1].  The function of the convex-hull script returns as soon as
    its two hulls are built; that of the alpha-shape script returns when
    the subsample is drawn, [alphashape] raised on it, and the hulls of the
    subsample and of the full point set are built. *)
Theorem analytic_reference b w f radius height fill_ratio :
  let capacity := PI * radius ^ 2 * height in
  let analytic (vols : gmap string R) :=
    vols !! "analytic_capacity_m3"%string = Some capacity /\
    vols !! "analytic_fill_m3"%string = Some (capacity * fill_ratio) /\
    (fill_ratio = 0 -> vols !! "analytic_fill_m3"%string = Some 0) /\
    (fill_ratio = 1 ->
       vols !! "analytic_fill_m3"%string = Some capacity) in
  (forall hf hfill,
     ConvexHull (b ++ w ++ f) = Ok hf -> ConvexHull (b ++ f) = Ok hfill ->
     exists vols,
       hull_estimate b w f radius height fill_ratio = Ok vols) /\
  (forall vols,
     hull_estimate b w f radius height fill_ratio = Ok vols ->
     analytic vols) /\
  (forall alpha s rows s1 e hull hf,
     AlphaShapeDemo.subsample _ permutation (b ++ f) s = (Ok rows, s1) ->
     alphashape rows alpha = Raise e ->
     ConvexHull rows = Ok hull ->
     ConvexHull (b ++ w ++ f) = Ok hf ->
     exists vols,
       alpha_estimate b w f radius height fill_ratio alpha s = (Ok vols, s1)) /\
  (forall alpha s vols s',
     alpha_estimate b w f radius height fill_ratio alpha s = (Ok vols, s') ->
     analytic vols).
Proof.
  intros capacity analytic.
  assert (forall c d : R,
            analytic (list_to_map [
              ("analytic_capacity_m3"%string, capacity);
              ("analytic_fill_m3"%string, capacity * fill_ratio);
              ("convex_hull_full_m3"%string, c);
              ("convex_hull_fill_m3"%string, d) ])) as Hhull.
  { intros c d. unfold analytic.
    split; [reflexivity|]. split; [reflexivity|]. split.
    - intros ->. replace (capacity * 0) with 0 by ring. reflexivity.
    - intros ->. replace (capacity * 1) with capacity by ring. reflexivity. }
  assert (forall c d : R,
            analytic (list_to_map [
              ("analytic_capacity_m3"%string, capacity);
              ("analytic_fill_m3"%string, capacity * fill_ratio);
              ("convex_hull_full_m3"%string, c);
              ("alpha_shape_fill_m3"%string, d) ])) as Halpha.
  { intros c d. unfold analytic.
    split; [reflexivity|]. split; [reflexivity|]. split.
    - intros ->. replace (capacity * 0) with 0 by ring. reflexivity.
    - intros ->. replace (capacity * 1) with capacity by ring. reflexivity. }
  split; [|split; [|split]].
  - intros hf hfill H1 H2. rewrite <- vstack3 in H1. rewrite <- vstack2 in H2.
    eexists. eapply hull_estimate_run; eassumption.
  - intros vols H.
    apply hull_estimate_inv in H as (hf & hfill & _ & _ & ->). apply Hhull.
  - intros alpha s rows s1 e hull hf Hs He Hr Hh.
    rewrite <- vstack2 in Hs. rewrite <- vstack3 in Hh.
    eexists. eapply alpha_estimate_run; [exact Hs | exact He | | exact Hh].
    unfold AlphaShapeDemo.alpha_volume. rewrite He, Hr. reflexivity.
  - intros alpha s vols s' H.
    apply alpha_estimate_inv in H as (rows & av & hf & _ & _ & _ & ->).
    apply Halpha.
Qed.


End Reports.

(** ** The viewer on a payload of the scripts *)


Section ViewerClaim.
Context {RandomState : Type}.
Variable random_sample : RandomState -> R * RandomState.
Variable permutation : nat -> RandomState -> list nat * RandomState.
Variable ConvexHull : list Point3D -> result Hull.
Variable alphashape : list Point3D -> R -> result Shape.

Abbreviation hull_script :=
  (ConvexHullDemo.main RandomState random_sample ConvexHull).
Abbreviation alpha_script :=
  (AlphaShapeDemo.main RandomState random_sample permutation ConvexHull alphashape).


End ViewerClaim.

Lemma analytic_reference_witness :
  let b := [mkPoint 0 0 0; mkPoint 1 0 0; mkPoint 0 1 0; mkPoint 0 0 1] in
  Toy.ConvexHull (b ++ [] ++ []) = Ok {| volume := 1 |} /\
  Toy.ConvexHull (b ++ []) = Ok {| volume := 1 |} /\
  exists vols,
    ConvexHullDemo.estimate_volumes Toy.ConvexHull b [] [] 1 2 1 = Ok vols /\
    vols !! "analytic_capacity_m3"%string = Some (PI * 1 ^ 2 * 2) /\
    vols !! "analytic_fill_m3"%string = Some (PI * 1 ^ 2 * 2).
Proof.
  intros b. split; [reflexivity|]. split; [reflexivity|].
  destruct (analytic_reference Toy.permutation Toy.ConvexHull Toy.alphashape
              b [] [] 1 2 1) as (Hrun & Hinv & _).
  destruct (Hrun {| volume := 1 |} {| volume := 1 |} eq_refl eq_refl)
    as [vols Hv].
  exists vols. split; [exact Hv|].
  destruct (Hinv vols Hv) as (Hc & _ & _ & H1).
  split; [exact Hc | apply H1; reflexivity].
Defined.



(** * Further properties *)

(** ** The figure of the viewer *)

Lemma add_group_spec points color name acc :
  Viewer.add_group points color name acc =
    (acc.1 ++ group_trace points color name,
     acc.2 ++ map Viewer.name (group_trace points color name)).
Proof.
  destruct acc as [ts ls]. destruct points as [|p points]; simpl.
  - rewrite !app_nil_r. reflexivity.
  - reflexivity.
Qed.

Lemma viewer_main_inv file_path data r :
  Viewer.main file_path data = Ok r ->
  (file_path = ""%string /\ r = None) \/
  (file_path <> ""%string /\
   exists E F U,
     Viewer.get data "empty_bucket" = Ok E /\
     Viewer.get data "fill_points" = Ok F /\
     Viewer.get data "full_bucket" = Ok U /\
     let T := group_trace E "blue" "Empty Bucket" ++
              group_trace F "orange" "Fill Points" ++
              group_trace U "green" "Full Bucket" in
     r = Some {|
       Viewer.traces := T;
       Viewer.buttons :=
         {| Viewer.label := "All"; Viewer.shows := replicate (length T) true |}
           :: Viewer.label_buttons (length T) 0 (map Viewer.name T);
       Viewer.title := "Point Cloud Viewer: " +:+ file_path |}).
Proof.
  unfold Viewer.main. destruct (decide (file_path = ""%string)) as [Hp|Hp].
  - intros H. injection H as <-. left. auto.
  - intros H. right. split; [exact Hp|].
    apply result_bind_inv in H as (E & HE & H).
    apply result_bind_inv in H as (F & HF & H).
    apply result_bind_inv in H as (U & HU & H).
    exists E, F, U. split; [exact HE|]. split; [exact HF|]. split; [exact HU|].
    rewrite !add_group_spec in H. cbn [fst snd app] in H.
    rewrite <- !map_app, <- !app_assoc in H.
    injection H as <-. reflexivity.
Qed.

Lemma length_label_buttons n i labels :
  length (Viewer.label_buttons n i labels) = length labels.
Proof.
  revert i. induction labels as [|l labels IH]; intros i; simpl;
    [reflexivity|]. rewrite IH. reflexivity.
Qed.

Lemma label_buttons_lookup n i labels j l :
  labels !! j = Some l ->
  Viewer.label_buttons n i labels !! j =
    Some {| Viewer.label := l;
            Viewer.shows := <[(i + j)%nat := true]> (replicate n false) |}.
Proof.
  revert i j. induction labels as [|l0 labels IH]; intros i j H.
  - discriminate.
  - destruct j as [|j]; simpl in *.
    + injection H as ->. rewrite Nat.add_0_r. reflexivity.
    + rewrite (IH (S i) j H).
      replace (i + S j)%nat with (S i + j)%nat by lia. reflexivity.
Qed.

Lemma only_one_shown (n i j : nat) :
  (i < n)%nat -> (j < n)%nat ->
  <[i := true]> (replicate n false) !! j = Some (bool_decide (j = i)).
Proof.
  intros Hi Hj. destruct (decide (j = i)) as [->|Hne].
  - rewrite list_lookup_insert_eq by (rewrite length_replicate; exact Hi).
    rewrite bool_decide_eq_true_2; reflexivity.
  - rewrite list_lookup_insert_ne by congruence.
    rewrite lookup_replicate_2 by exact Hj.
    rewrite bool_decide_eq_false_2; [reflexivity | exact Hne].
Qed.

(** X1.  In every figure the viewer returns there is one button more than
    traces: the first, "All", shows every trace, and the button after it at
    position [i] carries the name of trace [i] and shows that trace
    alone. *)
Theorem viewer_buttons_match_traces file_path data fig :
  Viewer.main file_path data = Ok (Some fig) ->
  let n := length (Viewer.traces fig) in
  length (Viewer.buttons fig) = S n /\
  Viewer.buttons fig !! 0%nat =
    Some {| Viewer.label := "All"; Viewer.shows := replicate n true |} /\
  forall i t, Viewer.traces fig !! i = Some t ->
    exists b,
      Viewer.buttons fig !! S i = Some b /\
      Viewer.label b = Viewer.name t /\
      length (Viewer.shows b) = n /\
      forall j, (j < n)%nat ->
        Viewer.shows b !! j = Some (bool_decide (j = i)).
Proof.
  intros H. apply viewer_main_inv in H as [[_ H]|(_ & E & F & U & _ & _ & _ & H)];
    [discriminate|].
  cbv zeta in H. injection H as ->.
  cbn [Viewer.traces Viewer.buttons].
  set (T := group_trace E "blue" "Empty Bucket" ++
            group_trace F "orange" "Fill Points" ++
            group_trace U "green" "Full Bucket").
  split; [|split].
  - cbn [length]. rewrite length_label_buttons, length_map. reflexivity.
  - reflexivity.
  - intros i t Ht.
    assert (i < length T)%nat as Hi by (eapply lookup_lt_Some; exact Ht).
    eexists. split.
    + cbn [lookup list_lookup]. apply label_buttons_lookup.
      change (map Viewer.name T) with (Viewer.name <$> T).
      rewrite list_lookup_fmap, Ht. reflexivity.
    + cbn [Viewer.label Viewer.shows]. split; [reflexivity|]. split.
      * rewrite length_insert, length_replicate. reflexivity.
      * intros j Hj. apply only_one_shown; [exact Hi | exact Hj].
Qed.

Lemma viewer_buttons_match_traces_witness :
  exists fig,
    Viewer.main "cloud.json" Cloud.two_groups = Ok (Some fig) /\
    length (Viewer.traces fig) = 2%nat /\
    length (Viewer.buttons fig) = 3%nat /\
    exists b, Viewer.buttons fig !! 2%nat = Some b /\
      Viewer.label b = "Fill Points"%string.
Proof.
  assert (exists fig,
            Viewer.main "cloud.json" Cloud.two_groups = Ok (Some fig) /\
            length (Viewer.traces fig) = 2%nat /\
            exists t, Viewer.traces fig !! 1%nat = Some t /\
              Viewer.name t = "Fill Points"%string)
    as (fig & Hrun & Hn & t & Ht & Hname).
  { eexists. split; [reflexivity|]. split; [reflexivity|].
    eexists. split; reflexivity. }
  destruct (viewer_buttons_match_traces "cloud.json" Cloud.two_groups fig Hrun)
    as (Hlen & _ & Hbtn).
  destruct (Hbtn 1%nat t Ht) as (b & Hb & Hl & _).
  exists fig. split; [exact Hrun|]. split; [exact Hn|].
  split; [rewrite Hlen, Hn; reflexivity|].
  exists b. split; [exact Hb|]. rewrite Hl. exact Hname.
Defined.

Lemma viewer_get_rows data key :
  (forall m, data !! key <> Some (Metadata m)) ->
  exists pts, Viewer.get data key = Ok pts /\
    (data !! key = None -> pts = []).
Proof.
  intros H. unfold Viewer.get. destruct (data !! key) as [[m|pts]|] eqn:Hk.
  - destruct (H m). reflexivity.
  - exists pts. split; [reflexivity | discriminate].
  - exists []. split; reflexivity.
Qed.

(** X2.  The viewer tolerates any of its three groups being absent: when
    each of [empty_bucket], [fill_points] and [full_bucket] is missing or an
    array of rows, it ends without error, and it ends without a figure
    exactly when no file was selected. *)
Theorem viewer_tolerates_absent_groups file_path data :
  (forall key m,
     In key ["empty_bucket"; "fill_points"; "full_bucket"]%string ->
     data !! key <> Some (Metadata m)) ->
  exists r, Viewer.main file_path data = Ok r /\
    (r = None <-> file_path = ""%string).
Proof.
  intros H.
  destruct (viewer_get_rows data "empty_bucket") as (E & HE & _);
    [intros m; apply H; simpl; auto|].
  destruct (viewer_get_rows data "fill_points") as (F & HF & _);
    [intros m; apply H; simpl; auto|].
  destruct (viewer_get_rows data "full_bucket") as (U & HU & _);
    [intros m; apply H; simpl; auto|].
  unfold Viewer.main. destruct (decide (file_path = ""%string)) as [Hp|Hp].
  - exists None. split; [reflexivity|]. split; auto.
  - rewrite (result_bind_Ok _ _ _ HE), (result_bind_Ok _ _ _ HF),
      (result_bind_Ok _ _ _ HU).
    destruct (Viewer.add_group U "green" "Full Bucket" _) as [ts ls].
    eexists. split; [reflexivity|]. split; [discriminate | contradiction].
Qed.

Lemma viewer_tolerates_absent_groups_witness :
  exists r,
    Viewer.main "cloud.json" Cloud.no_group = Ok r /\ r <> None.
Proof.
  destruct (viewer_tolerates_absent_groups "cloud.json" Cloud.no_group)
    as (r & Hrun & Hnone).
  - intros key m _. unfold Cloud.no_group. rewrite lookup_empty. discriminate.
  - exists r. split; [exact Hrun|]. intros Hr. apply Hnone in Hr.
    discriminate Hr.
Defined.

(** X3.  In a figure of the viewer a group has its trace exactly when it
    is not empty, the traces come in the order empty vessel, fill, full
    vessel, and every trace is visible and holds the three coordinate
    columns of the rows of one group that is not empty. *)
Theorem viewer_traces_follow_groups file_path data fig :
  Viewer.main file_path data = Ok (Some fig) ->
  exists E F U,
    Viewer.get data "empty_bucket" = Ok E /\
    Viewer.get data "fill_points" = Ok F /\
    Viewer.get data "full_bucket" = Ok U /\
    map Viewer.name (Viewer.traces fig) =
      (if E is [] then [] else ["Empty Bucket"%string]) ++
      (if F is [] then [] else ["Fill Points"%string]) ++
      (if U is [] then [] else ["Full Bucket"%string]) /\
    forall t, In t (Viewer.traces fig) ->
      Viewer.visible t = true /\
      exists pts, In pts [E; F; U] /\ pts <> [] /\
        Viewer.xs t = map px pts /\ Viewer.ys t = map py pts /\
        Viewer.zs t = map pz pts.
Proof.
  intros H.
  apply viewer_main_inv in H as [[_ H]|(_ & E & F & U & HE & HF & HU & H)];
    [discriminate|].
  cbv zeta in H. injection H as ->.
  exists E, F, U. split; [exact HE|]. split; [exact HF|]. split; [exact HU|].
  cbn [Viewer.traces]. split.
  - destruct E, F, U; reflexivity.
  - intros t Ht. apply in_app_or in Ht as [Ht|Ht];
      [|apply in_app_or in Ht as [Ht|Ht]].
    + destruct E as [|e E]; [destruct Ht|]. destruct Ht as [<-|[]].
      split; [reflexivity|]. exists (e :: E). simpl. auto 10.
    + destruct F as [|e F]; [destruct Ht|]. destruct Ht as [<-|[]].
      split; [reflexivity|]. exists (e :: F). simpl. auto 10.
    + destruct U as [|e U]; [destruct Ht|]. destruct Ht as [<-|[]].
      split; [reflexivity|]. exists (e :: U). simpl. auto 10.
Qed.

Lemma viewer_traces_follow_groups_witness :
  exists fig,
    Viewer.main "cloud.json" Cloud.two_groups = Ok (Some fig) /\
    map Viewer.name (Viewer.traces fig) =
      ["Empty Bucket"; "Fill Points"]%string.
Proof.
  assert (exists fig,
            Viewer.main "cloud.json" Cloud.two_groups = Ok (Some fig))
    as (fig & Hrun) by (eexists; reflexivity).
  destruct (viewer_traces_follow_groups "cloud.json" Cloud.two_groups fig Hrun)
    as (E & F & U & HE & HF & HU & Hnames & _).
  exists fig. split; [exact Hrun|]. rewrite Hnames.
  injection HE as <-. injection HF as <-. injection HU as <-. reflexivity.
Defined.

(** ** What the three sampling calls consume and return *)

Section Sampling.
Context {RandomState : Type}.
Variable random_sample : RandomState -> R * RandomState.

Abbreviation draws := (np.draws RandomState random_sample).
Abbreviation wall := (ConvexHullDemo.generate_cylinder_wall RandomState random_sample).
Abbreviation bottom := (ConvexHullDemo.generate_bottom RandomState random_sample).
Abbreviation surface := (ConvexHullDemo.generate_fill_surface RandomState random_sample).

Lemma draws_app a b s :
  draws (a + b) s =
    ((draws a s).1 ++ (draws b (draws a s).2).1, (draws b (draws a s).2).2).
Proof.
  revert s. induction a as [|a IH]; intros s.
  - simpl. destruct (draws b s); reflexivity.
  - simpl. destruct (random_sample s) as [u s1]. rewrite IH.
    destruct (draws a s1) as [us s2]. reflexivity.
Qed.

Lemma wall_negative radius height n s :
  (n < 0)%Z -> wall radius height n s = (Raise ValueError, s).
Proof.
  intros Hn. unfold ConvexHullDemo.generate_cylinder_wall.
  apply M_bind_Raise, random_rand_negative, Hn.
Qed.

Lemma bottom_negative radius n s :
  (n < 0)%Z -> bottom radius n s = (Raise ValueError, s).
Proof.
  intros Hn. unfold ConvexHullDemo.generate_bottom.
  apply M_bind_Raise, random_rand_negative, Hn.
Qed.

Lemma surface_negative radius height fill_ratio n s :
  (n < 0)%Z -> surface radius height fill_ratio n s = (Raise ValueError, s).
Proof.
  intros Hn. unfold ConvexHullDemo.generate_fill_surface.
  apply M_bind_Raise, random_rand_negative, Hn.
Qed.

Lemma length_wall_rows radius height us vs :
  length us = length vs -> length (wall_rows radius height us vs) = length us.
Proof. apply length_zip_with_same. Qed.

Lemma length_disk_rows radius z us vs :
  length us = length vs -> length (disk_rows radius z us vs) = length us.
Proof. apply length_zip_with_same. Qed.

(** The three calls in the order of the main blocks: they return exactly
    when no count is negative, and then they have read [2 nw], [2 nb] and
    [2 nf] consecutive doubles. *)
Lemma three_samplers_inv radius height fill_ratio nw nb nf s
    pw pb pf s1 s2 s3 :
  wall radius height nw s = (Ok pw, s1) ->
  bottom radius nb s1 = (Ok pb, s2) ->
  surface radius height fill_ratio nf s2 = (Ok pf, s3) ->
  (0 <= nw)%Z /\ (0 <= nb)%Z /\ (0 <= nf)%Z /\
  length pw = Z.to_nat nw /\ length pb = Z.to_nat nb /\
  length pf = Z.to_nat nf /\
  s3 = (draws (Z.to_nat (2 * (nw + nb + nf))) s).2 /\
  (exists us vs, pw = wall_rows radius height us vs) /\
  (exists us vs, pb = disk_rows radius 0 us vs) /\
  (exists us vs, pf = disk_rows radius (fill_ratio * height) us vs).
Proof.
  intros Hw Hb Hf.
  destruct (Z.lt_ge_cases nw 0) as [Hn|Hnw];
    [rewrite wall_negative in Hw by exact Hn; discriminate|].
  destruct (Z.lt_ge_cases nb 0) as [Hn|Hnb];
    [rewrite bottom_negative in Hb by exact Hn; discriminate|].
  destruct (Z.lt_ge_cases nf 0) as [Hn|Hnf];
    [rewrite surface_negative in Hf by exact Hn; discriminate|].
  rewrite generate_cylinder_wall_run in Hw by exact Hnw.
  rewrite generate_bottom_run in Hb by exact Hnb.
  rewrite generate_fill_surface_run in Hf by exact Hnf.
  cbv zeta in Hw, Hb, Hf.
  injection Hw as <- <-. injection Hb as <- <-. injection Hf as <- <-.
  split; [exact Hnw|]. split; [exact Hnb|]. split; [exact Hnf|].
  split; [rewrite length_wall_rows; rewrite !draws_length; reflexivity|].
  split; [rewrite length_disk_rows; rewrite !draws_length; reflexivity|].
  split; [rewrite length_disk_rows; rewrite !draws_length; reflexivity|].
  split.
  - replace (Z.to_nat (2 * (nw + nb + nf)))
      with (Z.to_nat nw + (Z.to_nat nw + (Z.to_nat nb + (Z.to_nat nb +
            (Z.to_nat nf + Z.to_nat nf)))))%nat by lia.
    rewrite !draws_app. reflexivity.
  - split; [eauto|]. split; eauto.
Qed.

Lemma three_samplers_raise radius height fill_ratio nw nb nf s :
  (nw < 0)%Z \/ (nb < 0)%Z \/ (nf < 0)%Z ->
  (exists s1, wall radius height nw s = (Raise ValueError, s1)) \/
  (exists pw s1, wall radius height nw s = (Ok pw, s1) /\
     ((exists s2, bottom radius nb s1 = (Raise ValueError, s2)) \/
      (exists pb s2, bottom radius nb s1 = (Ok pb, s2) /\
         exists s3, surface radius height fill_ratio nf s2
                      = (Raise ValueError, s3)))).
Proof.
  intros Hneg.
  destruct (Z.lt_ge_cases nw 0) as [Hn|Hnw];
    [left; eexists; apply wall_negative, Hn|].
  right. eexists _, _. split; [apply generate_cylinder_wall_run, Hnw|].
  destruct (Z.lt_ge_cases nb 0) as [Hn|Hnb];
    [left; eexists; apply bottom_negative, Hn|].
  right. eexists _, _. split; [apply generate_bottom_run, Hnb|].
  destruct (Z.lt_ge_cases nf 0) as [Hn|Hnf]; [|lia].
  eexists. apply surface_negative, Hn.
Qed.

End Sampling.

(** ** Counts, sizes and draws of the two scripts *)

Section Runs.
Context {RandomState : Type}.
Variable random_sample : RandomState -> R * RandomState.
Variable permutation : nat -> RandomState -> list nat * RandomState.
Variable ConvexHull : list Point3D -> result Hull.
Variable alphashape : list Point3D -> R -> result Shape.


(** X4.  A negative point count in the configuration makes either script
    end with NumPy's [ValueError], whatever the hull and alpha-shape
    builders would do. *)
Theorem negative_count_ends_the_script :
  (forall cfg s,
     (ConvexHullDemo.num_points_wall cfg < 0)%Z \/
     (ConvexHullDemo.num_points_bottom cfg < 0)%Z \/
     (ConvexHullDemo.num_points_fill_surface cfg < 0)%Z ->
     exists s', ConvexHullDemo.main _ random_sample ConvexHull
         cfg s = (Raise ValueError, s')) /\
  (forall cfg s,
     (AlphaShapeDemo.num_points_wall cfg < 0)%Z \/
     (AlphaShapeDemo.num_points_bottom cfg < 0)%Z \/
     (AlphaShapeDemo.num_points_fill_surface cfg < 0)%Z ->
     exists s', AlphaShapeDemo.main _ random_sample permutation ConvexHull
         alphashape
         cfg s = (Raise ValueError, s')).
Proof.
  split.
  - intros cfg s Hneg. unfold ConvexHullDemo.main.
    destruct (three_samplers_raise random_sample
                (ConvexHullDemo.bucket_radius cfg)
                (ConvexHullDemo.bucket_height cfg)
                (ConvexHullDemo.fill_ratio cfg) _ _ _ s Hneg)
      as [[s1 Hw]|(pw & s1 & Hw & [[s2 Hb]|(pb & s2 & Hb & s3 & Hf)])].
    + exists s1. apply M_bind_Raise, Hw.
    + exists s2. rewrite (M_bind_Ok _ _ _ _ _ Hw). apply M_bind_Raise, Hb.
    + exists s3. rewrite (M_bind_Ok _ _ _ _ _ Hw), (M_bind_Ok _ _ _ _ _ Hb).
      apply M_bind_Raise, Hf.
  - intros cfg s Hneg. unfold AlphaShapeDemo.main.
    destruct (three_samplers_raise random_sample
                (AlphaShapeDemo.bucket_radius cfg)
                (AlphaShapeDemo.bucket_height cfg)
                (AlphaShapeDemo.fill_ratio cfg) _ _ _ s Hneg)
      as [[s1 Hw]|(pw & s1 & Hw & [[s2 Hb]|(pb & s2 & Hb & s3 & Hf)])].
    + exists s1. apply M_bind_Raise, Hw.
    + exists s2. rewrite (M_bind_Ok _ _ _ _ _ Hw). apply M_bind_Raise, Hb.
    + exists s3. rewrite (M_bind_Ok _ _ _ _ _ Hw), (M_bind_Ok _ _ _ _ _ Hb).
      apply M_bind_Raise, Hf.
Qed.

(** X5.  In every payload either script returns, no configured count is
    negative, [empty_bucket] has as many rows as wall and bottom points were
    asked for, [fill_surface] as many as fill points, [full_bucket] as many
    as all three, and the metadata carries these three counts. *)
Theorem payload_sizes_match_counts :
  (forall cfg s data s',
     ConvexHullDemo.main _ random_sample ConvexHull cfg s = (Ok data, s') ->
     let nw := ConvexHullDemo.num_points_wall cfg in
     let nb := ConvexHullDemo.num_points_bottom cfg in
     let nf := ConvexHullDemo.num_points_fill_surface cfg in
     (0 <= nw)%Z /\ (0 <= nb)%Z /\ (0 <= nf)%Z /\
     exists E F U md,
       data !! "empty_bucket"%string = Some (Rows E) /\
       data !! "fill_surface"%string = Some (Rows F) /\
       data !! "full_bucket"%string = Some (Rows U) /\
       data !! "metadata"%string = Some (Metadata md) /\
       Z.of_nat (length E) = (nw + nb)%Z /\
       Z.of_nat (length F) = nf /\
       Z.of_nat (length U) = (nw + nb + nf)%Z /\
       md !! "num_points_wall"%string = Some (Int nw) /\
       md !! "num_points_bottom"%string = Some (Int nb) /\
       md !! "num_points_fill_surface"%string = Some (Int nf)) /\
  (forall cfg s data s',
     AlphaShapeDemo.main _ random_sample permutation ConvexHull alphashape
         cfg s = (Ok data, s') ->
     let nw := AlphaShapeDemo.num_points_wall cfg in
     let nb := AlphaShapeDemo.num_points_bottom cfg in
     let nf := AlphaShapeDemo.num_points_fill_surface cfg in
     (0 <= nw)%Z /\ (0 <= nb)%Z /\ (0 <= nf)%Z /\
     exists E F U md,
       data !! "empty_bucket"%string = Some (Rows E) /\
       data !! "fill_surface"%string = Some (Rows F) /\
       data !! "full_bucket"%string = Some (Rows U) /\
       data !! "metadata"%string = Some (Metadata md) /\
       Z.of_nat (length E) = (nw + nb)%Z /\
       Z.of_nat (length F) = nf /\
       Z.of_nat (length U) = (nw + nb + nf)%Z /\
       md !! "num_points_wall"%string = Some (Int nw) /\
       md !! "num_points_bottom"%string = Some (Int nb) /\
       md !! "num_points_fill_surface"%string = Some (Int nf)).
Proof.
  split.
  - intros cfg s data s' H nw nb nf.
    apply hull_main_inv in H
      as (pw & pb & pf & vols & md & (s1 & s2 & Hw & Hb & Hf) & Hv & Hm & ->).
    destruct (three_samplers_inv random_sample _ _ _ _ _ _ _ _ _ _ _ _ _
                Hw Hb Hf) as (Hnw & Hnb & Hnf & Lw & Lb & Lf & _).
    apply hull_estimate_inv in Hv as (hf & hfill & _ & _ & ->).
    rewrite hull_metadata_run in Hm. injection Hm as <-.
    split; [exact Hnw|]. split; [exact Hnb|]. split; [exact Hnf|].
    eexists _, _, _, _.
    split; [reflexivity|]. split; [reflexivity|]. split; [reflexivity|].
    split; [reflexivity|].
    rewrite !vstack2, !length_app.
    split; [lia|]. split; [lia|]. split; [lia|].
    split; [reflexivity|]. split; reflexivity.
  - intros cfg s data s' H nw nb nf.
    apply alpha_main_inv in H
      as (pw & pb & pf & s3 & vols & md & (s1 & s2 & Hw & Hb & Hf)
          & Hv & Hm & ->).
    destruct (three_samplers_inv random_sample _ _ _ _ _ _ _ _ _ _ _ _ _
                Hw Hb Hf) as (Hnw & Hnb & Hnf & Lw & Lb & Lf & _).
    apply alpha_estimate_inv in Hv as (rows & av & hf & _ & _ & _ & ->).
    rewrite alpha_metadata_run in Hm. injection Hm as <-.
    split; [exact Hnw|]. split; [exact Hnb|]. split; [exact Hnf|].
    eexists _, _, _, _.
    split; [reflexivity|]. split; [reflexivity|]. split; [reflexivity|].
    split; [reflexivity|].
    rewrite !vstack2, !length_app.
    split; [lia|]. split; [lia|]. split; [lia|].
    split; [reflexivity|]. split; reflexivity.
Qed.

(** X6.  A run of the convex-hull script that returns a payload has read
    exactly [2 (nw + nb + nf)] doubles of the generator and nothing else; a
    run of the alpha-shape script has read the same doubles and then, when
    bottom and fill points together exceed 5000, one permutation of their
    number, and otherwise nothing more. *)
Theorem scripts_draw_budget :
  (forall cfg s data s',
     ConvexHullDemo.main _ random_sample ConvexHull cfg s = (Ok data, s') ->
     s' = (np.draws _ random_sample
             (Z.to_nat (2 * (ConvexHullDemo.num_points_wall cfg
                             + ConvexHullDemo.num_points_bottom cfg
                             + ConvexHullDemo.num_points_fill_surface cfg)))
             s).2) /\
  (forall cfg s data s',
     AlphaShapeDemo.main _ random_sample permutation ConvexHull alphashape
         cfg s = (Ok data, s') ->
     let nb := AlphaShapeDemo.num_points_bottom cfg in
     let nf := AlphaShapeDemo.num_points_fill_surface cfg in
     let s3 := (np.draws _ random_sample
                  (Z.to_nat (2 * (AlphaShapeDemo.num_points_wall cfg
                                  + nb + nf))) s).2 in
     s' = if (5000 <? nb + nf)%Z
          then (permutation (Z.to_nat (nb + nf)) s3).2
          else s3).
Proof.
  split.
  - intros cfg s data s' H.
    apply hull_main_inv in H
      as (pw & pb & pf & vols & md & (s1 & s2 & Hw & Hb & Hf) & _).
    apply (three_samplers_inv random_sample _ _ _ _ _ _ _ _ _ _ _ _ _
             Hw Hb Hf).
  - intros cfg s data s' H nb nf s3.
    apply alpha_main_inv in H
      as (pw & pb & pf & s3' & vols & md & (s1 & s2 & Hw & Hb & Hf)
          & Hv & _).
    destruct (three_samplers_inv random_sample _ _ _ _ _ _ _ _ _ _ _ _ _
                Hw Hb Hf) as (Hnw & Hnb & Hnf & Lw & Lb & Lf & Hs3 & _).
    fold nb nf in Hnb, Hnf, Lb, Lf, Hs3. fold s3 in Hs3. subst s3'.
    apply alpha_estimate_inv in Hv as (rows & av & hf & Hsub & _).
    assert (length (np.vstack [pb; pf]) = Z.to_nat (nb + nf)) as Hlen
      by (rewrite vstack2, length_app; lia).
    destruct (Z.ltb_spec 5000 (nb + nf)) as [Hbig|Hsmall].
    + rewrite subsample_large in Hsub by (rewrite Hlen; lia).
      apply (f_equal snd) in Hsub. cbn [snd] in Hsub.
      rewrite <- Hsub, Hlen. reflexivity.
    + rewrite subsample_small in Hsub by (rewrite Hlen; lia).
      apply (f_equal snd) in Hsub. cbn [snd] in Hsub.
      rewrite <- Hsub. reflexivity.
Qed.

End Runs.

Lemma negative_count_ends_the_script_witness :
  exists s',
    ConvexHullDemo.main nat Toy.random_sample Toy.ConvexHull
      Configs.negative_bottom 0%nat = (Raise ValueError, s').
Proof.
  apply (proj1 (negative_count_ends_the_script Toy.random_sample
                  Toy.permutation Toy.ConvexHull Toy.alphashape)).
  right. left. simpl. lia.
Defined.

Lemma payload_sizes_match_counts_witness :
  exists data E,
    ConvexHullDemo.main nat Toy.random_sample Toy.ConvexHull Toy.four_points
      0%nat = (Ok data, 8%nat) /\
    data !! "full_bucket"%string = Some (Rows E) /\
    Z.of_nat (length E) = 4%Z.
Proof.
  assert (exists data,
            ConvexHullDemo.main nat Toy.random_sample Toy.ConvexHull
              Toy.four_points 0%nat = (Ok data, 8%nat)) as [data Hrun]
    by (eexists; reflexivity).
  destruct (proj1 (payload_sizes_match_counts Toy.random_sample
                     Toy.permutation Toy.ConvexHull Toy.alphashape)
              _ _ _ _ Hrun)
    as (_ & _ & _ & E & F & U & md & _ & _ & HU & _ & _ & _ & Hlen & _).
  exists data, U. split; [exact Hrun|]. split; [exact HU | exact Hlen].
Defined.

Lemma scripts_draw_budget_witness :
  exists data s',
    ConvexHullDemo.main nat Toy.random_sample Toy.ConvexHull Toy.four_points
      0%nat = (Ok data, s') /\
    s' = (np.draws nat Toy.random_sample (Z.to_nat (2 * (0 + 2 + 2))) 0%nat).2.
Proof.
  assert (exists data,
            ConvexHullDemo.main nat Toy.random_sample Toy.ConvexHull
              Toy.four_points 0%nat = (Ok data, 8%nat)) as [data Hrun]
    by (eexists; reflexivity).
  exists data, 8%nat. split; [exact Hrun|].
  apply (proj1 (scripts_draw_budget Toy.random_sample Toy.permutation
                  Toy.ConvexHull Toy.alphashape) _ _ _ _ Hrun).
Defined.

(** ** Where the sampled rows lie *)

Lemma same_x_coplanar (pts : list Point3D) (x0 : R) :
  Forall (fun p => px p = x0) pts -> coplanar pts.
Proof.
  intros H. exists 1, 0, 0, x0. split; [left; lra|].
  intros p Hp. rewrite List.Forall_forall in H. rewrite (H p Hp). ring.
Qed.

Lemma Forall_zip_with_any {A B C} (f : A -> B -> C) (G : C -> Prop)
    (l : list A) (k : list B) :
  (forall a b, G (f a b)) -> Forall G (zip_with f l k).
Proof.
  intros HG. revert k. induction l as [|a l IH]; intros [|b k]; simpl;
    constructor; auto.
Qed.

Lemma wall_rows_in_cylinder radius height us vs :
  0 <= height -> Forall (fun v => 0 <= v < 1) vs ->
  Forall (in_cylinder radius height) (wall_rows radius height us vs).
Proof.
  intros Hh Hvs. unfold wall_rows.
  eapply (Forall_zip_with_intro _ (fun _ => True)); [| |exact Hvs].
  - intros u v _ Hv. unfold in_cylinder. cbn [px py pz].
    rewrite on_circle. split; [lra | nra].
  - apply Forall_forall. auto.
Qed.

Lemma disk_rows_in_cylinder radius height z us vs :
  0 <= z <= height -> Forall (fun u => 0 <= u < 1) us ->
  Forall (in_cylinder radius height) (disk_rows radius z us vs).
Proof.
  intros Hz Hus. unfold disk_rows.
  eapply (Forall_zip_with_intro _ _ (fun _ => True)); [|exact Hus|].
  - intros u v Hu _. unfold in_cylinder. cbn [px py pz].
    rewrite on_circle. split; [|exact Hz].
    replace ((sqrt u * radius) ^ 2)
      with (sqrt u * sqrt u * radius ^ 2) by ring.
    rewrite sqrt_sqrt by lra.
    pose proof (pow2_ge_0 radius). nra.
  - apply Forall_forall. auto.
Qed.

Lemma disk_rows_z radius z us vs :
  Forall (fun p => pz p = z) (disk_rows radius z us vs).
Proof. apply Forall_zip_with_any. reflexivity. Qed.

Lemma disk_rows_no_radius z us vs :
  Forall (fun p => px p = 0) (disk_rows 0 z us vs).
Proof. apply Forall_zip_with_any. intros u v. cbn [px]. ring. Qed.

Lemma wall_rows_no_radius height us vs :
  Forall (fun p => px p = 0) (wall_rows 0 height us vs).
Proof. apply Forall_zip_with_any. intros u v. cbn [px]. ring. Qed.

Lemma wall_rows_no_height radius us vs :
  Forall (fun p => pz p = 0) (wall_rows radius 0 us vs).
Proof. apply Forall_zip_with_any. intros u v. cbn [pz]. ring. Qed.

Section Cylinder.
Context {RandomState : Type}.
Variable random_sample : RandomState -> R * RandomState.

(** The three calls of a main block put every row in the closed cylinder
    of the vessel. *)
Lemma three_samplers_in_cylinder radius height fill_ratio nw nb nf s
    pw pb pf s1 s2 s3 :
  unit_interval_draws random_sample ->
  0 <= height -> 0 <= fill_ratio <= 1 ->
  ConvexHullDemo.generate_cylinder_wall _ random_sample radius height nw s
    = (Ok pw, s1) ->
  ConvexHullDemo.generate_bottom _ random_sample radius nb s1 = (Ok pb, s2) ->
  ConvexHullDemo.generate_fill_surface _ random_sample radius height
    fill_ratio nf s2 = (Ok pf, s3) ->
  Forall (in_cylinder radius height) pw /\
  Forall (in_cylinder radius height) pb /\
  Forall (in_cylinder radius height) pf.
Proof.
  intros Hrng Hh Hfr Hw Hb Hf.
  destruct (three_samplers_inv random_sample _ _ _ _ _ _ _ _ _ _ _ _ _
              Hw Hb Hf) as (Hnw & Hnb & Hnf & _).
  rewrite generate_cylinder_wall_run in Hw by exact Hnw.
  rewrite generate_bottom_run in Hb by exact Hnb.
  rewrite generate_fill_surface_run in Hf by exact Hnf.
  cbv zeta in Hw, Hb, Hf.
  injection Hw as <- _. injection Hb as <- _. injection Hf as <- _.
  split; [|split].
  - apply wall_rows_in_cylinder; [exact Hh|].
    apply draws_unit_interval, Hrng.
  - apply disk_rows_in_cylinder; [lra|]. apply draws_unit_interval, Hrng.
  - apply disk_rows_in_cylinder; [nra|]. apply draws_unit_interval, Hrng.
Qed.

End Cylinder.

Section Geometry.
Context {RandomState : Type}.
Variable random_sample : RandomState -> R * RandomState.
Variable permutation : nat -> RandomState -> list nat * RandomState.
Variable ConvexHull : list Point3D -> result Hull.
Variable alphashape : list Point3D -> R -> result Shape.


(** X7.  With draws in [[0, 1)], a height that is not negative and a fill
    ratio in [[0, 1]], every row of every array of a payload either script
    returns lies in the closed cylinder of the vessel:
    [x^2 + y^2 <= radius^2] and [0 <= z <= height]. *)
Theorem payload_rows_in_cylinder :
  unit_interval_draws random_sample ->
  (forall cfg s data s' key pts,
     0 <= ConvexHullDemo.bucket_height cfg ->
     0 <= ConvexHullDemo.fill_ratio cfg <= 1 ->
     ConvexHullDemo.main _ random_sample ConvexHull cfg s = (Ok data, s') ->
     data !! key = Some (Rows pts) ->
     Forall (in_cylinder (ConvexHullDemo.bucket_radius cfg)
               (ConvexHullDemo.bucket_height cfg)) pts) /\
  (forall cfg s data s' key pts,
     0 <= AlphaShapeDemo.bucket_height cfg ->
     0 <= AlphaShapeDemo.fill_ratio cfg <= 1 ->
     AlphaShapeDemo.main _ random_sample permutation ConvexHull alphashape
         cfg s = (Ok data, s') ->
     data !! key = Some (Rows pts) ->
     Forall (in_cylinder (AlphaShapeDemo.bucket_radius cfg)
               (AlphaShapeDemo.bucket_height cfg)) pts).
Proof.
  intros Hrng.
  assert (forall radius height (pw pb pf : list Point3D)
            (md : gmap string value) key pts,
            Forall (in_cylinder radius height) pw ->
            Forall (in_cylinder radius height) pb ->
            Forall (in_cylinder radius height) pf ->
            (list_to_map [
               ("metadata"%string, Metadata md);
               ("empty_bucket"%string, Rows (np.vstack [pw; pb]));
               ("fill_surface"%string, Rows pf);
               ("full_bucket"%string,
                  Rows (np.vstack [np.vstack [pw; pb]; pf])) ]
             : gmap string payload) !! key = Some (Rows pts) ->
            Forall (in_cylinder radius height) pts) as Hrows.
  { intros radius height pw pb pf md key pts Cw Cb Cf Hk.
    cbn [list_to_map foldr] in Hk. unfold uncurry in Hk. cbn [fst snd] in Hk.
    rewrite !vstack2 in Hk.
    repeat (apply lookup_insert_Some in Hk as [[_ Hk]|[_ Hk]];
            [ first [ discriminate Hk
                    | injection Hk as <-;
                      repeat (apply Forall_app; split); assumption ] |]).
    rewrite lookup_empty in Hk. discriminate. }
  split.
  - intros cfg s data s' key pts Hh Hfr H Hk.
    apply hull_main_inv in H
      as (pw & pb & pf & vols & md & (s1 & s2 & Hw & Hb & Hf) & _ & _ & ->).
    destruct (three_samplers_in_cylinder random_sample _ _ _ _ _ _ _ _ _ _
                _ _ _ Hrng Hh Hfr Hw Hb Hf) as (Cw & Cb & Cf).
    exact (Hrows _ _ pw pb pf md key pts Cw Cb Cf Hk).
  - intros cfg s data s' key pts Hh Hfr H Hk.
    apply alpha_main_inv in H
      as (pw & pb & pf & s3 & vols & md & (s1 & s2 & Hw & Hb & Hf)
          & _ & _ & ->).
    destruct (three_samplers_in_cylinder random_sample _ _ _ _ _ _ _ _ _ _
                _ _ _ Hrng Hh Hfr Hw Hb Hf) as (Cw & Cb & Cf).
    exact (Hrows _ _ pw pb pf md key pts Cw Cb Cf Hk).
Qed.

End Geometry.

Lemma payload_rows_in_cylinder_witness :
  exists data U,
    ConvexHullDemo.main nat Toy.random_sample Toy.ConvexHull Toy.four_points
      0%nat = (Ok data, 8%nat) /\
    data !! "full_bucket"%string = Some (Rows U) /\
    Forall (in_cylinder (1 / 10) (2 / 10)) U.
Proof.
  assert (exists data U,
            ConvexHullDemo.main nat Toy.random_sample Toy.ConvexHull
              Toy.four_points 0%nat = (Ok data, 8%nat) /\
            data !! "full_bucket"%string = Some (Rows U))
    as (data & U & Hrun & HU)
    by (eexists _, _; split; reflexivity).
  exists data, U. split; [exact Hrun|]. split; [exact HU|].
  apply (proj1 (payload_rows_in_cylinder Toy.random_sample Toy.permutation
                  Toy.ConvexHull Toy.alphashape toy_draws_unit_interval)
           Toy.four_points 0%nat data 8%nat "full_bucket"%string U).
  - simpl. lra.
  - simpl. lra.
  - exact Hrun.
  - exact HU.
Defined.

(** ** Configurations on which no hull can be built *)

Section Flat.
Context {RandomState : Type}.
Variable random_sample : RandomState -> R * RandomState.
Variable permutation : nat -> RandomState -> list nat * RandomState.
Variable ConvexHull : list Point3D -> result Hull.
Variable alphashape : list Point3D -> R -> result Shape.


Lemma flat_full_set radius height fill_ratio nw nb nf s pw pb pf s1 s2 s3 :
  radius = 0 \/ height = 0 ->
  ConvexHullDemo.generate_cylinder_wall _ random_sample radius height nw s
    = (Ok pw, s1) ->
  ConvexHullDemo.generate_bottom _ random_sample radius nb s1 = (Ok pb, s2) ->
  ConvexHullDemo.generate_fill_surface _ random_sample radius height
    fill_ratio nf s2 = (Ok pf, s3) ->
  coplanar (np.vstack [pb; pw; pf]).
Proof.
  intros Hflat Hw Hb Hf.
  destruct (three_samplers_inv random_sample _ _ _ _ _ _ _ _ _ _ _ _ _
              Hw Hb Hf)
    as (_ & _ & _ & _ & _ & _ & _ & (uw & vw & ->) & (ub & vb & ->)
        & (uf & vf & ->)).
  rewrite vstack3. destruct Hflat as [->| ->].
  - apply (same_x_coplanar _ 0). repeat (apply Forall_app; split).
    + apply disk_rows_no_radius.
    + apply wall_rows_no_radius.
    + apply disk_rows_no_radius.
  - apply (same_z_coplanar _ 0). repeat (apply Forall_app; split).
    + apply disk_rows_z.
    + apply wall_rows_no_height.
    + rewrite Rmult_0_r. apply disk_rows_z.
Qed.

Lemma flat_fill_region radius height nw nb nf s pw pb pf s1 s2 s3 :
  ConvexHullDemo.generate_cylinder_wall _ random_sample radius height nw s
    = (Ok pw, s1) ->
  ConvexHullDemo.generate_bottom _ random_sample radius nb s1 = (Ok pb, s2) ->
  ConvexHullDemo.generate_fill_surface _ random_sample radius height
    0 nf s2 = (Ok pf, s3) ->
  coplanar (np.vstack [pb; pf]).
Proof.
  intros Hw Hb Hf.
  destruct (three_samplers_inv random_sample _ _ _ _ _ _ _ _ _ _ _ _ _
              Hw Hb Hf)
    as (_ & _ & _ & _ & _ & _ & _ & _ & (ub & vb & ->) & (uf & vf & ->)).
  rewrite vstack2. apply (same_z_coplanar _ 0). apply Forall_app. split.
  - apply disk_rows_z.
  - rewrite Rmult_0_l. apply disk_rows_z.
Qed.

(** X8.  With a hull builder that refuses degenerate inputs, the
    convex-hull script returns no payload when the radius, the height or
    the fill ratio is [0]: all points then lie in one plane, or those of
    the fill region do.  An empty vessel, fill ratio [0], cannot be
    reported. *)
Theorem flat_configuration_gives_no_report cfg s data s' :
  qhull_rejects_degenerate ConvexHull ->
  ConvexHullDemo.bucket_radius cfg = 0 \/
  ConvexHullDemo.bucket_height cfg = 0 \/
  ConvexHullDemo.fill_ratio cfg = 0 ->
  ConvexHullDemo.main _ random_sample ConvexHull cfg s <> (Ok data, s').
Proof.
  intros Hq Hflat H.
  apply hull_main_inv in H
    as (pw & pb & pf & vols & md & (s1 & s2 & Hw & Hb & Hf) & Hv & _).
  apply hull_estimate_inv in Hv as (hf & hfill & H1 & H2 & _).
  destruct Hflat as [Hr|[Hh|Hfr]].
  - rewrite (Hq (np.vstack [pb; pw; pf])) in H1; [discriminate|].
    right. eapply flat_full_set; [left; exact Hr | eassumption..].
  - rewrite (Hq (np.vstack [pb; pw; pf])) in H1; [discriminate|].
    right. eapply flat_full_set; [right; exact Hh | eassumption..].
  - rewrite (Hq (np.vstack [pb; pf])) in H2; [discriminate|].
    right. rewrite Hfr in Hf. eapply flat_fill_region; eassumption.
Qed.

(** X9.  With a hull builder that refuses degenerate inputs, the
    alpha-shape script returns no payload when the radius or the height is
    [0], whatever [alphashape] returns: the hull of the full point set
    cannot be built. *)
Theorem alpha_flat_configuration_gives_no_report cfg s data s' :
  qhull_rejects_degenerate ConvexHull ->
  AlphaShapeDemo.bucket_radius cfg = 0 \/
  AlphaShapeDemo.bucket_height cfg = 0 ->
  AlphaShapeDemo.main _ random_sample permutation ConvexHull alphashape
      cfg s <> (Ok data, s').
Proof.
  intros Hq Hflat H.
  apply alpha_main_inv in H
    as (pw & pb & pf & s3 & vols & md & (s1 & s2 & Hw & Hb & Hf) & Hv & _).
  apply alpha_estimate_inv in Hv as (rows & av & hf & _ & _ & H1 & _).
  rewrite (Hq (np.vstack [pb; pw; pf])) in H1; [discriminate|].
  right. eapply (flat_full_set _ _ _ _ _ _ _ _ _ _ _ _ _ Hflat Hw Hb Hf).
Qed.

End Flat.

Lemma flat_configuration_gives_no_report_witness :
  qhull_rejects_degenerate Toy.Qhull /\
  forall data s',
    ConvexHullDemo.main nat Toy.random_sample Toy.Qhull Configs.empty_vessel
      0%nat <> (Ok data, s').
Proof.
  split; [exact toy_qhull_rejects|]. intros data s'.
  apply (flat_configuration_gives_no_report Toy.random_sample Toy.Qhull
           Configs.empty_vessel 0%nat data s' toy_qhull_rejects).
  right. right. reflexivity.
Defined.

Lemma alpha_flat_configuration_gives_no_report_witness :
  qhull_rejects_degenerate Toy.Qhull /\
  forall data s',
    AlphaShapeDemo.main nat Toy.random_sample Toy.permutation Toy.Qhull
      Toy.failing_alphashape Configs.no_radius 0%nat <> (Ok data, s').
Proof.
  split; [exact toy_qhull_rejects|]. intros data s'.
  apply (alpha_flat_configuration_gives_no_report Toy.random_sample
           Toy.permutation Toy.Qhull Toy.failing_alphashape Configs.no_radius
           0%nat data s' toy_qhull_rejects).
  left. reflexivity.
Defined.

(** ** The two scripts on one configuration *)

Section SameCloud.
Context {RandomState : Type}.
Variable random_sample : RandomState -> R * RandomState.
Variable permutation : nat -> RandomState -> list nat * RandomState.
Variable ConvexHull : list Point3D -> result Hull.
Variable alphashape : list Point3D -> R -> result Shape.


(** X10.  Started on the same generator state with the same radius,
    height, fill ratio and counts, the two scripts sample the same point
    cloud: their payloads have the same three arrays, and their metadata
    agree on the parameters, the counts, the analytic volumes and the
    convex-hull volume of the full vessel, in cubic meters and in liters. *)
Theorem scripts_share_the_cloud cfgH cfgA s dH sH dA sA :
  ConvexHullDemo.bucket_radius cfgH = AlphaShapeDemo.bucket_radius cfgA ->
  ConvexHullDemo.bucket_height cfgH = AlphaShapeDemo.bucket_height cfgA ->
  ConvexHullDemo.fill_ratio cfgH = AlphaShapeDemo.fill_ratio cfgA ->
  ConvexHullDemo.num_points_wall cfgH = AlphaShapeDemo.num_points_wall cfgA ->
  ConvexHullDemo.num_points_bottom cfgH
    = AlphaShapeDemo.num_points_bottom cfgA ->
  ConvexHullDemo.num_points_fill_surface cfgH
    = AlphaShapeDemo.num_points_fill_surface cfgA ->
  ConvexHullDemo.main _ random_sample ConvexHull cfgH s = (Ok dH, sH) ->
  AlphaShapeDemo.main _ random_sample permutation ConvexHull alphashape
      cfgA s = (Ok dA, sA) ->
  (forall key, In key ["empty_bucket"; "fill_surface"; "full_bucket"]%string ->
     dH !! key = dA !! key /\ exists pts, dH !! key = Some (Rows pts)) /\
  exists mH mA,
    dH !! "metadata"%string = Some (Metadata mH) /\
    dA !! "metadata"%string = Some (Metadata mA) /\
    forall key,
      In key ["bucket_radius"; "bucket_height"; "fill_ratio";
              "num_points_wall"; "num_points_bottom";
              "num_points_fill_surface";
              "analytic_capacity_m3"; "analytic_capacity_liters";
              "analytic_fill_m3"; "analytic_fill_liters";
              "convex_hull_full_m3"; "convex_hull_full_liters"]%string ->
      mH !! key = mA !! key /\ is_Some (mH !! key).
Proof.
  intros Er Eh Ef Ew Eb Es HH HA.
  apply hull_main_inv in HH
    as (pw & pb & pf & vols & md & (s1 & s2 & Hw & Hb & Hf) & Hv & Hm & ->).
  apply alpha_main_inv in HA
    as (pw' & pb' & pf' & s3' & vols' & md' & (s1' & s2' & Hw' & Hb' & Hf')
        & Hv' & Hm' & ->).
  change (AlphaShapeDemo.generate_cylinder_wall RandomState random_sample)
    with (ConvexHullDemo.generate_cylinder_wall RandomState random_sample)
    in Hw'.
  change (AlphaShapeDemo.generate_bottom RandomState random_sample)
    with (ConvexHullDemo.generate_bottom RandomState random_sample) in Hb'.
  change (AlphaShapeDemo.generate_fill_surface RandomState random_sample)
    with (ConvexHullDemo.generate_fill_surface RandomState random_sample)
    in Hf'.
  rewrite <- Er, <- Eh, <- Ew in Hw'. rewrite Hw in Hw'.
  injection Hw' as <- <-.
  rewrite <- Er, <- Eb in Hb'. rewrite Hb in Hb'. injection Hb' as <- <-.
  rewrite <- Er, <- Eh, <- Ef, <- Es in Hf'. rewrite Hf in Hf'.
  injection Hf' as <- <-.
  apply hull_estimate_inv in Hv as (hf & hfill & H1 & _ & ->).
  apply alpha_estimate_inv in Hv' as (rows & av & hf' & _ & _ & H1' & ->).
  rewrite H1 in H1'. injection H1' as <-.
  rewrite hull_metadata_run in Hm. injection Hm as <-.
  rewrite alpha_metadata_run in Hm'. injection Hm' as <-.
  rewrite <- Er, <- Eh, <- Ef, <- Ew, <- Eb, <- Es.
  split.
  - intros key Hkey. simpl in Hkey.
    destruct Hkey as [<-|[<-|[<-|[]]]];
      (split; [reflexivity | eexists; reflexivity]).
  - eexists _, _. split; [reflexivity|]. split; [reflexivity|].
    intros key Hkey. simpl in Hkey.
    repeat (destruct Hkey as [<-|Hkey];
            [split; [reflexivity | eexists; reflexivity]|]).
    destruct Hkey.
Qed.

End SameCloud.

Lemma scripts_share_the_cloud_witness :
  exists dH dA,
    ConvexHullDemo.main nat Toy.random_sample Toy.ConvexHull Toy.four_points
      0%nat = (Ok dH, 8%nat) /\
    AlphaShapeDemo.main nat Toy.random_sample Toy.permutation Toy.ConvexHull
      Toy.failing_alphashape Toy.alpha_four_points 0%nat = (Ok dA, 8%nat) /\
    dH !! "full_bucket"%string = dA !! "full_bucket"%string.
Proof.
  assert (exists dH,
            ConvexHullDemo.main nat Toy.random_sample Toy.ConvexHull
              Toy.four_points 0%nat = (Ok dH, 8%nat)) as [dH HH]
    by (eexists; reflexivity).
  assert (exists dA,
            AlphaShapeDemo.main nat Toy.random_sample Toy.permutation
              Toy.ConvexHull Toy.failing_alphashape Toy.alpha_four_points 0%nat
              = (Ok dA, 8%nat)) as [dA HA]
    by (eexists; reflexivity).
  exists dH, dA. split; [exact HH|]. split; [exact HA|].
  destruct (scripts_share_the_cloud Toy.random_sample Toy.permutation
              Toy.ConvexHull Toy.failing_alphashape Toy.four_points
              Toy.alpha_four_points 0%nat dH 8%nat dA 8%nat
              eq_refl eq_refl eq_refl eq_refl eq_refl eq_refl HH HA)
    as (Harr & _).
  apply Harr. simpl. auto.
Defined.

(** ** The point set given to alphashape *)

Lemma looked_up_rows_in (region : list Point3D) idx rows :
  Forall2 (fun i p => region !! i = Some p) idx rows ->
  Forall (fun p => In p region) rows.
Proof.
  induction 1 as [|i p idx rows Hp _ IH]; constructor; [|exact IH].
  apply list_elem_of_In, list_elem_of_lookup. exists i. exact Hp.
Qed.

Section Cap.
Context {RandomState : Type}.
Variable random_sample : RandomState -> R * RandomState.
Variable permutation : nat -> RandomState -> list nat * RandomState.
Variable ConvexHull : list Point3D -> result Hull.
Variable alphashape : list Point3D -> R -> result Shape.


(** X11.  With a generator whose [permutation] shuffles, every run of the
    alpha-shape script that returns a payload built the alpha-shape value on
    [min(5000, nb + nf)] rows, each of them a bottom or fill-surface point
    of the run, and on all of these points when they are at most 5000. *)
Theorem alpha_shape_input_is_capped cfg s data s' :
  shuffles permutation ->
  AlphaShapeDemo.main _ random_sample permutation ConvexHull alphashape
      cfg s = (Ok data, s') ->
  exists wall bottom fill s3 rows av,
    AlphaShapeDemo.sampled _ random_sample cfg s wall bottom fill s3 /\
    AlphaShapeDemo.subsample _ permutation (bottom ++ fill) s3
      = (Ok rows, s') /\
    AlphaShapeDemo.alpha_volume ConvexHull alphashape rows
      (AlphaShapeDemo.alpha_value cfg) = Ok av /\
    Z.of_nat (length rows) =
      Z.min 5000 (AlphaShapeDemo.num_points_bottom cfg
                  + AlphaShapeDemo.num_points_fill_surface cfg) /\
    Forall (fun p => In p (bottom ++ fill)) rows /\
    ((AlphaShapeDemo.num_points_bottom cfg
      + AlphaShapeDemo.num_points_fill_surface cfg <= 5000)%Z ->
     rows = bottom ++ fill).
Proof.
  intros Hsh H.
  apply alpha_main_inv in H
    as (pw & pb & pf & s3 & vols & md & Hs & Hv & _).
  pose proof Hs as (s1 & s2 & Hw & Hb & Hf).
  destruct (three_samplers_inv random_sample _ _ _ _ _ _ _ _ _ _ _ _ _
              Hw Hb Hf) as (_ & Hnb & Hnf & _ & Lb & Lf & _).
  apply alpha_estimate_inv in Hv as (rows & av & hf & Hsub & Hav & _).
  rewrite vstack2 in Hsub.
  exists pw, pb, pf, s3, rows, av.
  split; [exact Hs|]. split; [exact Hsub|]. split; [exact Hav|].
  assert (Z.of_nat (length (pb ++ pf)) =
          (AlphaShapeDemo.num_points_bottom cfg
           + AlphaShapeDemo.num_points_fill_surface cfg)%Z) as Hlen
    by (rewrite length_app; lia).
  destruct (Z.le_gt_cases (Z.of_nat (length (pb ++ pf))) 5000) as [Hle|Hgt].
  - rewrite subsample_small in Hsub by exact Hle. injection Hsub as <- _.
    split; [lia|]. split; [|reflexivity].
    apply List.Forall_forall. auto.
  - destruct (subsample_large_spec permutation (pb ++ pf) s3 Hsh Hgt)
      as (rows' & Hrun & Hk & _ & Hall).
    rewrite Hrun in Hsub. injection Hsub as -> _.
    split; [lia|]. split; [|lia].
    eapply looked_up_rows_in, Hall.
Qed.

End Cap.

Lemma alpha_shape_input_is_capped_witness :
  exists data rows,
    AlphaShapeDemo.main nat Toy.random_sample Toy.permutation Toy.ConvexHull
      Toy.failing_alphashape Toy.alpha_four_points 0%nat
      = (Ok data, 8%nat) /\
    Z.of_nat (length rows) = Z.min 5000 (2 + 2) /\
    AlphaShapeDemo.alpha_volume Toy.ConvexHull Toy.failing_alphashape rows 2
      = Ok 1.
Proof.
  assert (exists data,
            AlphaShapeDemo.main nat Toy.random_sample Toy.permutation
              Toy.ConvexHull Toy.failing_alphashape Toy.alpha_four_points
              0%nat = (Ok data, 8%nat)) as [data Hrun]
    by (eexists; reflexivity).
  destruct (alpha_shape_input_is_capped Toy.random_sample Toy.permutation
              Toy.ConvexHull Toy.failing_alphashape Toy.alpha_four_points
              0%nat data 8%nat toy_permutation_shuffles Hrun)
    as (pw & pb & pf & s3 & rows & av & _ & _ & Hav & Hlen & _).
  exists data, rows. split; [exact Hrun|]. split; [exact Hlen|].
  change (AlphaShapeDemo.alpha_value Toy.alpha_four_points) with 2 in Hav.
  rewrite Hav. f_equal. eapply toy_fallback_value, Hav.
Defined.

(** ** Rounding *)

Lemma round_half_even_mono (x y : R) :
  x <= y -> (round_half_even x <= round_half_even y)%Z.
Proof.
  intros Hxy.
  pose proof (floor_bounds x) as Hx. pose proof (floor_bounds y) as Hy.
  assert (Int_part x <= Int_part y)%Z as Hn.
  { apply Z.lt_succ_r. apply lt_IZR. rewrite succ_IZR. lra. }
  unfold round_half_even, frac_part.
  destruct (Z.eq_dec (Int_part x) (Int_part y)) as [E|NE].
  - rewrite E in *.
    destruct (Rlt_dec (x - IZR (Int_part y)) (1/2)),
             (Rlt_dec (y - IZR (Int_part y)) (1/2)),
             (Rlt_dec (1/2) (x - IZR (Int_part y))),
             (Rlt_dec (1/2) (y - IZR (Int_part y))),
             (Z.even (Int_part y)); try lia; try lra.
  - assert (Int_part x < Int_part y)%Z as Hlt by lia.
    destruct (Rlt_dec (x - IZR (Int_part x)) (1/2)),
             (Rlt_dec (y - IZR (Int_part y)) (1/2)),
             (Rlt_dec (1/2) (x - IZR (Int_part x))),
             (Rlt_dec (1/2) (y - IZR (Int_part y))),
             (Z.even (Int_part x)), (Z.even (Int_part y)); lia.
Qed.

Lemma round_mono (x y : R) (n : nat) : x <= y -> round x n <= round y n.
Proof.
  intros Hxy. pose proof (pow10_pos n) as Hp. unfold round.
  apply Rmult_le_compat_r; [left; apply Rinv_0_lt_compat; exact Hp|].
  apply IZR_le, round_half_even_mono.
  apply Rmult_le_compat_r; [lra | exact Hxy].
Qed.

Lemma round_zero (n : nat) : round 0 n = 0.
Proof.
  unfold round. rewrite Rmult_0_l.
  assert (Int_part 0 = 0%Z) as E.
  { symmetry. apply Int_part_spec. simpl. lra. }
  unfold round_half_even, frac_part. rewrite E.
  destruct (Rlt_dec (0 - 0) (1 / 2)); [|lra].
  unfold Rdiv. rewrite Rmult_0_l. reflexivity.
Qed.

(** ** The metadata record *)

Lemma hull_metadata_cases cfg (vols : gmap string R) :
  match vols !! "analytic_capacity_m3"%string,
        vols !! "analytic_fill_m3"%string,
        vols !! "convex_hull_full_m3"%string,
        vols !! "convex_hull_fill_m3"%string with
  | Some c, Some fl, Some hf, Some hfill =>
      ConvexHullDemo.metadata_of cfg vols =
      ConvexHullDemo.metadata_of cfg (list_to_map [
        ("analytic_capacity_m3"%string, c);
        ("analytic_fill_m3"%string, fl);
        ("convex_hull_full_m3"%string, hf);
        ("convex_hull_fill_m3"%string, hfill) ])
  | _, _, _, _ => ConvexHullDemo.metadata_of cfg vols = Raise KeyError
  end.
Proof.
  unfold ConvexHullDemo.metadata_of, getitem.
  destruct (vols !! "analytic_capacity_m3"%string) as [c|]; [|reflexivity].
  destruct (vols !! "analytic_fill_m3"%string) as [fl|]; [|reflexivity].
  destruct (vols !! "convex_hull_full_m3"%string) as [hf|]; [|reflexivity].
  destruct (vols !! "convex_hull_fill_m3"%string) as [hfill|]; reflexivity.
Qed.

Lemma alpha_metadata_cases cfg (vols : gmap string R) :
  match vols !! "analytic_capacity_m3"%string,
        vols !! "analytic_fill_m3"%string,
        vols !! "convex_hull_full_m3"%string,
        vols !! "alpha_shape_fill_m3"%string with
  | Some c, Some fl, Some hf, Some av =>
      AlphaShapeDemo.metadata_of cfg vols =
      AlphaShapeDemo.metadata_of cfg (list_to_map [
        ("analytic_capacity_m3"%string, c);
        ("analytic_fill_m3"%string, fl);
        ("convex_hull_full_m3"%string, hf);
        ("alpha_shape_fill_m3"%string, av) ])
  | _, _, _, _ => AlphaShapeDemo.metadata_of cfg vols = Raise KeyError
  end.
Proof.
  unfold AlphaShapeDemo.metadata_of, getitem.
  destruct (vols !! "analytic_capacity_m3"%string) as [c|]; [|reflexivity].
  destruct (vols !! "analytic_fill_m3"%string) as [fl|]; [|reflexivity].
  destruct (vols !! "convex_hull_full_m3"%string) as [hf|]; [|reflexivity].
  destruct (vols !! "alpha_shape_fill_m3"%string) as [av|]; reflexivity.
Qed.

(** X12.  The metadata of either script needs the four volumes of
    [estimate_volumes] and nothing else of that dict: when one of the four
    keys is missing the dict subscript raises [KeyError], and when the four
    are present the metadata is built, other entries being ignored. *)
Theorem metadata_needs_the_four_volumes (vols : gmap string R) :
  (forall cfg,
     let keys := ["analytic_capacity_m3"; "analytic_fill_m3";
                  "convex_hull_full_m3"; "convex_hull_fill_m3"]%string in
     ((exists k, In k keys /\ vols !! k = None) ->
        ConvexHullDemo.metadata_of cfg vols = Raise KeyError) /\
     ((forall k, In k keys -> is_Some (vols !! k)) ->
        exists md, ConvexHullDemo.metadata_of cfg vols = Ok md)) /\
  (forall cfg,
     let keys := ["analytic_capacity_m3"; "analytic_fill_m3";
                  "convex_hull_full_m3"; "alpha_shape_fill_m3"]%string in
     ((exists k, In k keys /\ vols !! k = None) ->
        AlphaShapeDemo.metadata_of cfg vols = Raise KeyError) /\
     ((forall k, In k keys -> is_Some (vols !! k)) ->
        exists md, AlphaShapeDemo.metadata_of cfg vols = Ok md)).
Proof.
  split.
  - intros cfg keys. pose proof (hull_metadata_cases cfg vols) as Hc.
    split.
    + intros (k & Hin & Hk). simpl in Hin.
      destruct Hin as [<-|[<-|[<-|[<-|[]]]]]; rewrite Hk in Hc;
        repeat match type of Hc with
               | match ?o with _ => _ end => destruct o
               end; exact Hc.
    + intros Hall.
      destruct (Hall "analytic_capacity_m3"%string) as [c E1]; [simpl; auto|].
      destruct (Hall "analytic_fill_m3"%string) as [fl E2]; [simpl; auto|].
      destruct (Hall "convex_hull_full_m3"%string) as [hf E3];
        [simpl; auto|].
      destruct (Hall "convex_hull_fill_m3"%string) as [hfill E4];
        [simpl; auto 6|].
      rewrite E1, E2, E3, E4 in Hc. rewrite hull_metadata_run in Hc.
      eexists. exact Hc.
  - intros cfg keys. pose proof (alpha_metadata_cases cfg vols) as Hc.
    split.
    + intros (k & Hin & Hk). simpl in Hin.
      destruct Hin as [<-|[<-|[<-|[<-|[]]]]]; rewrite Hk in Hc;
        repeat match type of Hc with
               | match ?o with _ => _ end => destruct o
               end; exact Hc.
    + intros Hall.
      destruct (Hall "analytic_capacity_m3"%string) as [c E1]; [simpl; auto|].
      destruct (Hall "analytic_fill_m3"%string) as [fl E2]; [simpl; auto|].
      destruct (Hall "convex_hull_full_m3"%string) as [hf E3];
        [simpl; auto|].
      destruct (Hall "alpha_shape_fill_m3"%string) as [av E4];
        [simpl; auto 6|].
      rewrite E1, E2, E3, E4 in Hc. rewrite alpha_metadata_run in Hc.
      eexists. exact Hc.
Qed.

(** X13.  Whenever the metadata of either script is built, each of the
    four volumes [x] of [estimate_volumes] is displayed twice: under its own
    key, within half a millionth of [x], and under the liters key, within
    half a thousandth of [1000 x]. *)
Theorem reported_volumes_within_half_a_unit (vols : gmap string R) :
  (forall cfg md k x,
     ConvexHullDemo.metadata_of cfg vols = Ok md ->
     In k ["analytic_capacity_m3"; "analytic_fill_m3";
           "convex_hull_full_m3"; "convex_hull_fill_m3"]%string ->
     vols !! k = Some x ->
     exists y yl,
       md !! k = Some (Float y) /\
       md !! liters_key k = Some (Float yl) /\
       Rabs (y - x) <= / (2 * 10 ^ 6) /\
       Rabs (yl - x * 1000) <= / (2 * 10 ^ 3)) /\
  (forall cfg md k x,
     AlphaShapeDemo.metadata_of cfg vols = Ok md ->
     In k ["analytic_capacity_m3"; "analytic_fill_m3";
           "convex_hull_full_m3"; "alpha_shape_fill_m3"]%string ->
     vols !! k = Some x ->
     exists y yl,
       md !! k = Some (Float y) /\
       md !! liters_key k = Some (Float yl) /\
       Rabs (y - x) <= / (2 * 10 ^ 6) /\
       Rabs (yl - x * 1000) <= / (2 * 10 ^ 3)).
Proof.
  split.
  - intros cfg md k x Hm Hin Hk.
    pose proof (hull_metadata_cases cfg vols) as Hc.
    destruct (vols !! "analytic_capacity_m3"%string) as [c|] eqn:E1;
      [|rewrite Hc in Hm; discriminate].
    destruct (vols !! "analytic_fill_m3"%string) as [fl|] eqn:E2;
      [|rewrite Hc in Hm; discriminate].
    destruct (vols !! "convex_hull_full_m3"%string) as [hf|] eqn:E3;
      [|rewrite Hc in Hm; discriminate].
    destruct (vols !! "convex_hull_fill_m3"%string) as [hfill|] eqn:E4;
      [|rewrite Hc in Hm; discriminate].
    rewrite Hc, hull_metadata_run in Hm. injection Hm as <-.
    simpl in Hin.
    destruct Hin as [<-|[<-|[<-|[<-|[]]]]];
      match goal with
      | E : vols !! ?key = Some ?v, H : vols !! ?key = Some x |- _ =>
          rewrite E in H; injection H as <-
      end;
      (eexists _, _; split; [reflexivity|]; split; [reflexivity|];
       split; apply round_error).
  - intros cfg md k x Hm Hin Hk.
    pose proof (alpha_metadata_cases cfg vols) as Hc.
    destruct (vols !! "analytic_capacity_m3"%string) as [c|] eqn:E1;
      [|rewrite Hc in Hm; discriminate].
    destruct (vols !! "analytic_fill_m3"%string) as [fl|] eqn:E2;
      [|rewrite Hc in Hm; discriminate].
    destruct (vols !! "convex_hull_full_m3"%string) as [hf|] eqn:E3;
      [|rewrite Hc in Hm; discriminate].
    destruct (vols !! "alpha_shape_fill_m3"%string) as [av|] eqn:E4;
      [|rewrite Hc in Hm; discriminate].
    rewrite Hc, alpha_metadata_run in Hm. injection Hm as <-.
    simpl in Hin.
    destruct Hin as [<-|[<-|[<-|[<-|[]]]]];
      match goal with
      | E : vols !! ?key = Some ?v, H : vols !! ?key = Some x |- _ =>
          rewrite E in H; injection H as <-
      end;
      (eexists _, _; split; [reflexivity|]; split; [reflexivity|];
       split; apply round_error).
Qed.

Lemma metadata_needs_the_four_volumes_witness :
  ConvexHullDemo.metadata_of Toy.four_points
    (delete "analytic_fill_m3"%string
       (list_to_map [
          ("analytic_capacity_m3"%string, 2);
          ("analytic_fill_m3"%string, 1);
          ("convex_hull_full_m3"%string, 2);
          ("convex_hull_fill_m3"%string, 1) ]) : gmap string R)
    = Raise KeyError.
Proof.
  apply (proj1 (metadata_needs_the_four_volumes _) Toy.four_points).
  exists "analytic_fill_m3"%string. split; [simpl; auto|].
  apply lookup_delete_eq.
Defined.

Lemma reported_volumes_within_half_a_unit_witness :
  let vols : gmap string R := list_to_map [
      ("analytic_capacity_m3"%string, 2);
      ("analytic_fill_m3"%string, 1);
      ("convex_hull_full_m3"%string, 2);
      ("convex_hull_fill_m3"%string, 1) ] in
  exists md y,
    ConvexHullDemo.metadata_of Toy.four_points vols = Ok md /\
    md !! "convex_hull_full_m3"%string = Some (Float y) /\
    Rabs (y - 2) <= / (2 * 10 ^ 6).
Proof.
  intros vols.
  pose proof (hull_metadata_run Toy.four_points 2 1 2 1) as Hm.
  destruct (proj1 (reported_volumes_within_half_a_unit vols)
              Toy.four_points _ "convex_hull_full_m3"%string 2 Hm)
    as (y & yl & Hy & _ & Hb & _).
  - simpl. auto.
  - reflexivity.
  - eexists _, y. split; [exact Hm|]. split; [exact Hy | exact Hb].
Defined.

(** ** Analytic volumes as reported *)

Lemma analytic_volumes_ordered (radius height fill_ratio : R) :
  0 <= height -> 0 <= fill_ratio <= 1 ->
  0 <= PI * radius ^ 2 * height * fill_ratio <= PI * radius ^ 2 * height.
Proof.
  intros Hh Hfr.
  assert (0 <= PI * radius ^ 2 * height) as Hc.
  { pose proof PI_RGT_0. pose proof (pow2_ge_0 radius).
    apply Rmult_le_pos; [apply Rmult_le_pos; lra | exact Hh]. }
  nra.
Qed.

Lemma rounded_pair_ordered (f c : R) (n : nat) :
  0 <= f <= c -> 0 <= round f n <= round c n.
Proof.
  intros [H0 H1]. split.
  - rewrite <- (round_zero n). apply round_mono, H0.
  - apply round_mono, H1.
Qed.

Section Ordered.
Context {RandomState : Type}.
Variable random_sample : RandomState -> R * RandomState.
Variable permutation : nat -> RandomState -> list nat * RandomState.
Variable ConvexHull : list Point3D -> result Hull.
Variable alphashape : list Point3D -> R -> result Shape.


(** X14.  In every payload of either script whose height is not negative
    and whose fill ratio is in [[0, 1]], the reported analytic fill volume
    is neither negative nor above the reported analytic capacity, in cubic
    meters and in liters: rounding does not reverse the order. *)
Theorem reported_fill_within_capacity :
  (forall cfg s data s',
     0 <= ConvexHullDemo.bucket_height cfg ->
     0 <= ConvexHullDemo.fill_ratio cfg <= 1 ->
     ConvexHullDemo.main _ random_sample ConvexHull cfg s = (Ok data, s') ->
     exists md c f cl fl,
       data !! "metadata"%string = Some (Metadata md) /\
       md !! "analytic_capacity_m3"%string = Some (Float c) /\
       md !! "analytic_fill_m3"%string = Some (Float f) /\
       md !! "analytic_capacity_liters"%string = Some (Float cl) /\
       md !! "analytic_fill_liters"%string = Some (Float fl) /\
       0 <= f <= c /\ 0 <= fl <= cl) /\
  (forall cfg s data s',
     0 <= AlphaShapeDemo.bucket_height cfg ->
     0 <= AlphaShapeDemo.fill_ratio cfg <= 1 ->
     AlphaShapeDemo.main _ random_sample permutation ConvexHull alphashape
         cfg s = (Ok data, s') ->
     exists md c f cl fl,
       data !! "metadata"%string = Some (Metadata md) /\
       md !! "analytic_capacity_m3"%string = Some (Float c) /\
       md !! "analytic_fill_m3"%string = Some (Float f) /\
       md !! "analytic_capacity_liters"%string = Some (Float cl) /\
       md !! "analytic_fill_liters"%string = Some (Float fl) /\
       0 <= f <= c /\ 0 <= fl <= cl).
Proof.
  split.
  - intros cfg s data s' Hh Hfr H.
    apply hull_main_inv in H
      as (pw & pb & pf & vols & md & _ & Hv & Hm & ->).
    apply hull_estimate_inv in Hv as (hf & hfill & _ & _ & ->).
    rewrite hull_metadata_run in Hm. injection Hm as <-.
    pose proof (analytic_volumes_ordered (ConvexHullDemo.bucket_radius cfg)
                  _ _ Hh Hfr) as Hord.
    eexists _, _, _, _, _.
    split; [reflexivity|]. split; [reflexivity|]. split; [reflexivity|].
    split; [reflexivity|]. split; [reflexivity|].
    split; apply rounded_pair_ordered; [exact Hord | lra].
  - intros cfg s data s' Hh Hfr H.
    apply alpha_main_inv in H
      as (pw & pb & pf & s3 & vols & md & _ & Hv & Hm & ->).
    apply alpha_estimate_inv in Hv as (rows & av & hf & _ & _ & _ & ->).
    rewrite alpha_metadata_run in Hm. injection Hm as <-.
    pose proof (analytic_volumes_ordered (AlphaShapeDemo.bucket_radius cfg)
                  _ _ Hh Hfr) as Hord.
    eexists _, _, _, _, _.
    split; [reflexivity|]. split; [reflexivity|]. split; [reflexivity|].
    split; [reflexivity|]. split; [reflexivity|].
    split; apply rounded_pair_ordered; [exact Hord | lra].
Qed.

End Ordered.

Lemma reported_fill_within_capacity_witness :
  exists data md c f,
    ConvexHullDemo.main nat Toy.random_sample Toy.ConvexHull Toy.four_points
      0%nat = (Ok data, 8%nat) /\
    data !! "metadata"%string = Some (Metadata md) /\
    md !! "analytic_capacity_m3"%string = Some (Float c) /\
    md !! "analytic_fill_m3"%string = Some (Float f) /\
    0 <= f <= c.
Proof.
  assert (exists data,
            ConvexHullDemo.main nat Toy.random_sample Toy.ConvexHull
              Toy.four_points 0%nat = (Ok data, 8%nat)) as [data Hrun]
    by (eexists; reflexivity).
  destruct (proj1 (reported_fill_within_capacity Toy.random_sample
                     Toy.permutation Toy.ConvexHull Toy.alphashape)
              Toy.four_points 0%nat data 8%nat)
    as (md & c & f & cl & fl & Hmd & Hc & Hf & _ & _ & Hord & _).
  - simpl. lra.
  - simpl. lra.
  - exact Hrun.
  - exists data, md, c, f. auto.
Defined.

(** ** The viewer on what the scripts write *)

Lemma viewer_two_clouds md (E F U : list Point3D) (file_path : string) :
  file_path <> ""%string -> E <> [] -> U <> [] ->
  let data : gmap string payload := list_to_map [
      ("metadata"%string, Metadata md);
      ("empty_bucket"%string, Rows E);
      ("fill_surface"%string, Rows F);
      ("full_bucket"%string, Rows U) ] in
  exists fig,
    Viewer.main file_path data = Ok (Some fig) /\
    Viewer.traces fig =
      [Viewer.scatter E "blue" "Empty Bucket";
       Viewer.scatter U "green" "Full Bucket"] /\
    map Viewer.label (Viewer.buttons fig) =
      ["All"; "Empty Bucket"; "Full Bucket"]%string.
Proof.
  intros Hpath HE HU data.
  assert (Viewer.get data "empty_bucket" = Ok E) as GE by reflexivity.
  assert (Viewer.get data "fill_points" = Ok []) as GF by reflexivity.
  assert (Viewer.get data "full_bucket" = Ok U) as GU by reflexivity.
  unfold Viewer.main. destruct (decide (file_path = ""%string)) as [Heq|_];
    [contradiction|].
  rewrite (result_bind_Ok _ _ _ GE), (result_bind_Ok _ _ _ GF),
    (result_bind_Ok _ _ _ GU).
  destruct E as [|e E]; [contradiction|].
  destruct U as [|u U]; [contradiction|].
  eexists. split; [reflexivity|]. split; reflexivity.
Qed.

Section Display.
Context {RandomState : Type}.
Variable random_sample : RandomState -> R * RandomState.
Variable permutation : nat -> RandomState -> list nat * RandomState.
Variable ConvexHull : list Point3D -> result Hull.
Variable alphashape : list Point3D -> R -> result Shape.


(** X15.  Opened on a payload of either script that has wall or bottom
    points, the viewer shows exactly two traces and three buttons: "Empty
    Bucket" with one marker per wall and bottom point and "Full Bucket" with
    one marker per point, holding the coordinates of the rows of
    [empty_bucket] and [full_bucket]. *)
Theorem viewer_shows_the_two_vessels file_path :
  file_path <> ""%string ->
  (forall cfg s data s',
     (0 < ConvexHullDemo.num_points_wall cfg
          + ConvexHullDemo.num_points_bottom cfg)%Z ->
     ConvexHullDemo.main _ random_sample ConvexHull cfg s = (Ok data, s') ->
     exists fig E U,
       Viewer.main file_path data = Ok (Some fig) /\
       data !! "empty_bucket"%string = Some (Rows E) /\
       data !! "full_bucket"%string = Some (Rows U) /\
       Viewer.traces fig =
         [Viewer.scatter E "blue" "Empty Bucket";
          Viewer.scatter U "green" "Full Bucket"] /\
       map Viewer.label (Viewer.buttons fig) =
         ["All"; "Empty Bucket"; "Full Bucket"]%string /\
       Z.of_nat (length E)
         = (ConvexHullDemo.num_points_wall cfg
            + ConvexHullDemo.num_points_bottom cfg)%Z /\
       Z.of_nat (length U)
         = (ConvexHullDemo.num_points_wall cfg
            + ConvexHullDemo.num_points_bottom cfg
            + ConvexHullDemo.num_points_fill_surface cfg)%Z) /\
  (forall cfg s data s',
     (0 < AlphaShapeDemo.num_points_wall cfg
          + AlphaShapeDemo.num_points_bottom cfg)%Z ->
     AlphaShapeDemo.main _ random_sample permutation ConvexHull alphashape
         cfg s = (Ok data, s') ->
     exists fig E U,
       Viewer.main file_path data = Ok (Some fig) /\
       data !! "empty_bucket"%string = Some (Rows E) /\
       data !! "full_bucket"%string = Some (Rows U) /\
       Viewer.traces fig =
         [Viewer.scatter E "blue" "Empty Bucket";
          Viewer.scatter U "green" "Full Bucket"] /\
       map Viewer.label (Viewer.buttons fig) =
         ["All"; "Empty Bucket"; "Full Bucket"]%string /\
       Z.of_nat (length E)
         = (AlphaShapeDemo.num_points_wall cfg
            + AlphaShapeDemo.num_points_bottom cfg)%Z /\
       Z.of_nat (length U)
         = (AlphaShapeDemo.num_points_wall cfg
            + AlphaShapeDemo.num_points_bottom cfg
            + AlphaShapeDemo.num_points_fill_surface cfg)%Z).
Proof.
  intros Hpath.
  assert (forall (pw pb pf : list Point3D) (md : gmap string value)
            (nw nb nf : Z),
            (0 < nw + nb)%Z ->
            length pw = Z.to_nat nw -> length pb = Z.to_nat nb ->
            length pf = Z.to_nat nf ->
            (0 <= nw)%Z -> (0 <= nb)%Z -> (0 <= nf)%Z ->
            let data : gmap string payload := list_to_map [
              ("metadata"%string, Metadata md);
              ("empty_bucket"%string, Rows (np.vstack [pw; pb]));
              ("fill_surface"%string, Rows pf);
              ("full_bucket"%string,
                 Rows (np.vstack [np.vstack [pw; pb]; pf])) ] in
            exists fig E U,
              Viewer.main file_path data = Ok (Some fig) /\
              data !! "empty_bucket"%string = Some (Rows E) /\
              data !! "full_bucket"%string = Some (Rows U) /\
              Viewer.traces fig =
                [Viewer.scatter E "blue" "Empty Bucket";
                 Viewer.scatter U "green" "Full Bucket"] /\
              map Viewer.label (Viewer.buttons fig) =
                ["All"; "Empty Bucket"; "Full Bucket"]%string /\
              Z.of_nat (length E) = (nw + nb)%Z /\
              Z.of_nat (length U) = (nw + nb + nf)%Z) as Hshow.
  { intros pw pb pf md nw nb nf Hpos Lw Lb Lf Hnw Hnb Hnf data.
    assert (length (np.vstack [pw; pb]) = Z.to_nat (nw + nb)) as LE
      by (rewrite vstack2, length_app; lia).
    assert (length (np.vstack [np.vstack [pw; pb]; pf])
            = Z.to_nat (nw + nb + nf)) as LU
      by (rewrite vstack2, length_app; lia).
    destruct (viewer_two_clouds md (np.vstack [pw; pb]) pf
                (np.vstack [np.vstack [pw; pb]; pf]) file_path Hpath)
      as (fig & Hrun & Htr & Hbt).
    - intros E0. rewrite E0 in LE. simpl in LE. lia.
    - intros E0. rewrite E0 in LU. simpl in LU. lia.
    - exists fig, (np.vstack [pw; pb]), (np.vstack [np.vstack [pw; pb]; pf]).
      split; [exact Hrun|]. split; [reflexivity|]. split; [reflexivity|].
      split; [exact Htr|]. split; [exact Hbt|]. split; lia. }
  split.
  - intros cfg s data s' Hpos H.
    apply hull_main_inv in H
      as (pw & pb & pf & vols & md & (s1 & s2 & Hw & Hb & Hf) & _ & _ & ->).
    destruct (three_samplers_inv random_sample _ _ _ _ _ _ _ _ _ _ _ _ _
                Hw Hb Hf) as (Hnw & Hnb & Hnf & Lw & Lb & Lf & _).
    apply Hshow; assumption.
  - intros cfg s data s' Hpos H.
    apply alpha_main_inv in H
      as (pw & pb & pf & s3 & vols & md & (s1 & s2 & Hw & Hb & Hf)
          & _ & _ & ->).
    destruct (three_samplers_inv random_sample _ _ _ _ _ _ _ _ _ _ _ _ _
                Hw Hb Hf) as (Hnw & Hnb & Hnf & Lw & Lb & Lf & _).
    apply Hshow; assumption.
Qed.

End Display.

Lemma viewer_shows_the_two_vessels_witness :
  exists data fig,
    ConvexHullDemo.main nat Toy.random_sample Toy.ConvexHull Toy.four_points
      0%nat = (Ok data, 8%nat) /\
    Viewer.main "cloud.json" data = Ok (Some fig) /\
    map Viewer.label (Viewer.buttons fig) =
      ["All"; "Empty Bucket"; "Full Bucket"]%string.
Proof.
  assert (exists data,
            ConvexHullDemo.main nat Toy.random_sample Toy.ConvexHull
              Toy.four_points 0%nat = (Ok data, 8%nat)) as [data Hrun]
    by (eexists; reflexivity).
  destruct (proj1 (viewer_shows_the_two_vessels Toy.random_sample
                     Toy.permutation Toy.ConvexHull Toy.alphashape
                     "cloud.json" ltac:(discriminate))
              Toy.four_points 0%nat data 8%nat)
    as (fig & E & U & Hview & _ & _ & _ & Hbt & _).
  - simpl. lia.
  - exact Hrun.
  - exists data, fig. auto.
Defined.

(** ** The exceptions a script can end with *)

Lemma M_bind_Raise_inv {S A B} (m : M S A) (f : A -> M S B) s e s' :
  (m ≫= f) s = (Raise e, s') ->
  m s = (Raise e, s') \/
  exists a s1, m s = (Ok a, s1) /\ f a s1 = (Raise e, s').
Proof.
  unfold mbind, M_bind. destruct (m s) as [[a|e0] s1]; intros H.
  - right. exists a, s1. auto.
  - left. injection H as -> ->. reflexivity.
Qed.

Lemma result_bind_Raise_inv {A B} (m : result A) (f : A -> result B) e :
  (m ≫= f) = Raise e ->
  m = Raise e \/ exists a, m = Ok a /\ f a = Raise e.
Proof.
  destruct m as [a|e0]; intros H.
  - right. exists a. auto.
  - left. injection H as ->. reflexivity.
Qed.

Lemma take_error (a : list Point3D) idx e :
  np.take a idx = Raise e -> e = IndexError.
Proof.
  induction idx as [|i idx IH]; simpl; [discriminate|].
  destruct (a !! i) as [p|]; [|intros H; injection H as <-; reflexivity].
  destruct (np.take a idx) as [rows|e0]; simpl; [discriminate|].
  intros H. injection H as <-. apply IH. reflexivity.
Qed.

Section Errors.
Context {RandomState : Type}.
Variable random_sample : RandomState -> R * RandomState.
Variable permutation : nat -> RandomState -> list nat * RandomState.
Variable ConvexHull : list Point3D -> result Hull.
Variable alphashape : list Point3D -> R -> result Shape.


Lemma wall_error radius height n s e s' :
  ConvexHullDemo.generate_cylinder_wall _ random_sample radius height n s
    = (Raise e, s') -> e = ValueError.
Proof.
  destruct (Z.lt_ge_cases n 0) as [Hn|Hn].
  - rewrite wall_negative by exact Hn. intros H. injection H as <- _.
    reflexivity.
  - rewrite generate_cylinder_wall_run by exact Hn. discriminate.
Qed.

Lemma bottom_error radius n s e s' :
  ConvexHullDemo.generate_bottom _ random_sample radius n s = (Raise e, s') ->
  e = ValueError.
Proof.
  destruct (Z.lt_ge_cases n 0) as [Hn|Hn].
  - rewrite bottom_negative by exact Hn. intros H. injection H as <- _.
    reflexivity.
  - rewrite generate_bottom_run by exact Hn. discriminate.
Qed.

Lemma surface_error radius height fill_ratio n s e s' :
  ConvexHullDemo.generate_fill_surface _ random_sample radius height
    fill_ratio n s = (Raise e, s') -> e = ValueError.
Proof.
  destruct (Z.lt_ge_cases n 0) as [Hn|Hn].
  - rewrite surface_negative by exact Hn. intros H. injection H as <- _.
    reflexivity.
  - rewrite generate_fill_surface_run by exact Hn. discriminate.
Qed.

Lemma subsample_error region s e s' :
  AlphaShapeDemo.subsample _ permutation region s = (Raise e, s') ->
  e = ValueError \/ e = IndexError.
Proof.
  unfold AlphaShapeDemo.subsample.
  destruct (5000 <? Z.of_nat (length region))%Z; [|discriminate].
  intros H. apply M_bind_Raise_inv in H as [H|(idx & s1 & _ & H)].
  - unfold np.random_choice in H.
    destruct (length region <? Z.to_nat 5000)%nat.
    + injection H as <- _. left. reflexivity.
    + destruct (permutation (length region) s). discriminate.
  - unfold lift in H. injection H as H _. right. eapply take_error, H.
Qed.

Lemma alpha_volume_error region alpha e :
  AlphaShapeDemo.alpha_volume ConvexHull alphashape region alpha = Raise e ->
  ConvexHull region = Raise e.
Proof.
  unfold AlphaShapeDemo.alpha_volume.
  destruct (alphashape region alpha) as [shape|e0]; [discriminate|].
  destruct (ConvexHull region) as [hull|e1]; [discriminate|].
  intros H. injection H as ->. reflexivity.
Qed.

(** X16.  A run of the convex-hull script that ends with an exception ends
    with NumPy's [ValueError] or with an exception [ConvexHull] raised on
    some point set.  A run of the alpha-shape script ends with [ValueError],
    with [IndexError], with [UnboundLocalError] after [alphashape] returned
    a shape for the script's [alpha_value], or with an exception of
    [ConvexHull]: what [alphashape] raises never ends the script. *)
Theorem exceptions_of_the_scripts :
  (forall cfg s e s',
     ConvexHullDemo.main _ random_sample ConvexHull cfg s = (Raise e, s') ->
     e = ValueError \/ exists pts, ConvexHull pts = Raise e) /\
  (forall cfg s e s',
     AlphaShapeDemo.main _ random_sample permutation ConvexHull alphashape
         cfg s = (Raise e, s') ->
     e = ValueError \/ e = IndexError \/
     (e = UnboundLocalError /\
      exists rows shape,
        alphashape rows (AlphaShapeDemo.alpha_value cfg) = Ok shape) \/
     exists pts, ConvexHull pts = Raise e).
Proof.
  split.
  - intros cfg s e s' H. unfold ConvexHullDemo.main in H.
    apply M_bind_Raise_inv in H as [H|(pw & s1 & _ & H)];
      [left; eapply wall_error, H|].
    apply M_bind_Raise_inv in H as [H|(pb & s2 & _ & H)];
      [left; eapply bottom_error, H|].
    apply M_bind_Raise_inv in H as [H|(pf & s3 & _ & H)];
      [left; eapply surface_error, H|].
    cbv zeta in H.
    apply M_bind_Raise_inv in H as [H|(vols & s4 & Hv & H)].
    + unfold lift in H. injection H as H _. right.
      unfold ConvexHullDemo.estimate_volumes in H. cbv zeta in H.
      apply result_bind_Raise_inv in H as [H|(hf & _ & H)]; [eauto|].
      apply result_bind_Raise_inv in H as [H|(hfill & _ & H)]; [eauto|].
      discriminate.
    + unfold lift in Hv. injection Hv as Hv _.
      apply hull_estimate_inv in Hv as (hf & hfill & _ & _ & ->).
      apply M_bind_Raise_inv in H as [H|(md & s5 & _ & H)];
        [|discriminate].
      unfold lift in H. rewrite hull_metadata_run in H. discriminate.
  - intros cfg s e s' H. unfold AlphaShapeDemo.main in H.
    apply M_bind_Raise_inv in H as [H|(pw & s1 & _ & H)];
      [left; eapply wall_error, H|].
    apply M_bind_Raise_inv in H as [H|(pb & s2 & _ & H)];
      [left; eapply bottom_error, H|].
    apply M_bind_Raise_inv in H as [H|(pf & s3 & _ & H)];
      [left; eapply surface_error, H|].
    cbv zeta in H.
    apply M_bind_Raise_inv in H as [H|(vols & s4 & Hv & H)].
    + unfold AlphaShapeDemo.estimate_volumes in H. cbv zeta in H.
      apply M_bind_Raise_inv in H as [H|(rows & s5 & _ & H)].
      { apply subsample_error in H as [->| ->]; auto. }
      apply M_bind_Raise_inv in H as [H|(av & s6 & _ & H)].
      { unfold lift in H. injection H as H _.
        apply alpha_volume_error in H. eauto. }
      apply M_bind_Raise_inv in H as [H|(hf & s7 & _ & H)];
        [|discriminate].
      unfold lift, AlphaShapeDemo.local_ConvexHull in H.
      injection H as H _.
      destruct (alphashape rows (AlphaShapeDemo.alpha_value cfg))
        as [shape|e0] eqn:He.
      * injection H as <-. right. right. left. eauto.
      * eauto.
    + apply alpha_estimate_inv in Hv as (rows & av & hf & _ & _ & _ & ->).
      apply M_bind_Raise_inv in H as [H|(md & s5 & _ & H)];
        [|discriminate].
      unfold lift in H. rewrite alpha_metadata_run in H. discriminate.
Qed.

End Errors.

Lemma exceptions_of_the_scripts_witness :
  exists e s',
    AlphaShapeDemo.main nat Toy.random_sample Toy.permutation Toy.ConvexHull
      Toy.alphashape Toy.alpha_four_points 0%nat = (Raise e, s') /\
    (e = ValueError \/ e = IndexError \/
     (e = UnboundLocalError /\
      exists rows shape,
        Toy.alphashape rows (AlphaShapeDemo.alpha_value Toy.alpha_four_points)
          = Ok shape) \/
     exists pts, Toy.ConvexHull pts = Raise e).
Proof.
  exists UnboundLocalError, 8%nat. split; [reflexivity|].
  apply (proj2 (exceptions_of_the_scripts Toy.random_sample Toy.permutation
                  Toy.ConvexHull Toy.alphashape)
           Toy.alpha_four_points 0%nat UnboundLocalError 8%nat).
  reflexivity.
Defined.

(** ** The local name [ConvexHull] of the alpha-shape script *)

Section LocalName.
Context {RandomState : Type}.
Variable random_sample : RandomState -> R * RandomState.
Variable permutation : nat -> RandomState -> list nat * RandomState.
Variable ConvexHull : list Point3D -> result Hull.
Variable alphashape : list Point3D -> R -> result Shape.

(** The script ends at the hull of the full point set when [alphashape]
    returned on the subsample: the name [ConvexHull] is local to
    [estimate_volumes] and was never bound. *)
Lemma alpha_main_unbound cfg s wall bottom fill s3 rows s4 shape :
  AlphaShapeDemo.sampled _ random_sample cfg s wall bottom fill s3 ->
  AlphaShapeDemo.subsample _ permutation (bottom ++ fill) s3
    = (Ok rows, s4) ->
  alphashape rows (AlphaShapeDemo.alpha_value cfg) = Ok shape ->
  AlphaShapeDemo.main _ random_sample permutation ConvexHull alphashape
    cfg s = (Raise UnboundLocalError, s4).
Proof.
  intros (s1 & s2 & Hw & Hb & Hf) Hsub He. unfold AlphaShapeDemo.main.
  rewrite (M_bind_Ok _ _ _ _ _ Hw), (M_bind_Ok _ _ _ _ _ Hb),
    (M_bind_Ok _ _ _ _ _ Hf).
  cbv zeta. rewrite <- vstack2 in Hsub.
  apply M_bind_Raise.
  eapply alpha_estimate_unbound; [exact Hsub | exact He].
Qed.

(** X17.  The alpha-shape script returns a payload only after the [except]
    block ran.  When the three samplers and the subsample succeed and
    [alphashape] returns a shape on the subsample, [estimate_volumes] reads
    the name [ConvexHull], local to the function and bound by the import of
    the [except] block only, and the script ends with [UnboundLocalError],
    the generator standing where the subsample left it.  Every run that
    returns a payload is one in which [alphashape] raised on the
    subsample. *)
Theorem alpha_script_returns_only_after_fallback :
  (forall cfg s wall bottom fill s3 rows s4 shape,
     AlphaShapeDemo.sampled _ random_sample cfg s wall bottom fill s3 ->
     AlphaShapeDemo.subsample _ permutation (bottom ++ fill) s3
       = (Ok rows, s4) ->
     alphashape rows (AlphaShapeDemo.alpha_value cfg) = Ok shape ->
     AlphaShapeDemo.main _ random_sample permutation ConvexHull alphashape
       cfg s = (Raise UnboundLocalError, s4)) /\
  (forall cfg s data s',
     AlphaShapeDemo.main _ random_sample permutation ConvexHull alphashape
       cfg s = (Ok data, s') ->
     exists wall bottom fill s3 rows e,
       AlphaShapeDemo.sampled _ random_sample cfg s wall bottom fill s3 /\
       AlphaShapeDemo.subsample _ permutation (bottom ++ fill) s3
         = (Ok rows, s') /\
       alphashape rows (AlphaShapeDemo.alpha_value cfg) = Raise e).
Proof.
  split.
  - intros cfg s wall bottom fill s3 rows s4 shape Hs Hsub He.
    eapply alpha_main_unbound; [exact Hs | exact Hsub | exact He].
  - intros cfg s data s' Hrun.
    apply alpha_main_inv in Hrun
      as (wall & bottom & fill & s3 & vols & md & Hs & Hv & _).
    apply alpha_estimate_fallback in Hv as (rows & e & Hsub & He).
    rewrite vstack2 in Hsub.
    exists wall, bottom, fill, s3, rows, e. auto.
Qed.

End LocalName.

Lemma alpha_script_returns_only_after_fallback_witness :
  exists wall bottom fill rows,
    AlphaShapeDemo.sampled nat Toy.random_sample Toy.alpha_four_points 0%nat
      wall bottom fill 8%nat /\
    AlphaShapeDemo.subsample nat Toy.permutation (bottom ++ fill) 8%nat
      = (Ok rows, 8%nat) /\
    Toy.unit_alphashape rows 2 = Ok {| volume_attr := Some 1 |} /\
    AlphaShapeDemo.main nat Toy.random_sample Toy.permutation Toy.ConvexHull
      Toy.unit_alphashape Toy.alpha_four_points 0%nat
      = (Raise UnboundLocalError, 8%nat).
Proof.
  assert (exists wall bottom fill,
            AlphaShapeDemo.sampled nat Toy.random_sample Toy.alpha_four_points
              0%nat wall bottom fill 8%nat /\
            AlphaShapeDemo.subsample nat Toy.permutation (bottom ++ fill)
              8%nat = (Ok (bottom ++ fill), 8%nat))
    as (wall & bottom & fill & Hs & Hsub).
  { eexists _, _, _. split.
    - unfold AlphaShapeDemo.sampled.
      change (AlphaShapeDemo.generate_cylinder_wall nat Toy.random_sample)
        with (ConvexHullDemo.generate_cylinder_wall nat Toy.random_sample).
      change (AlphaShapeDemo.generate_bottom nat Toy.random_sample)
        with (ConvexHullDemo.generate_bottom nat Toy.random_sample).
      change (AlphaShapeDemo.generate_fill_surface nat Toy.random_sample)
        with (ConvexHullDemo.generate_fill_surface nat Toy.random_sample).
      run_samplers.
    - reflexivity. }
  exists wall, bottom, fill, (bottom ++ fill).
  split; [exact Hs|]. split; [exact Hsub|]. split; [reflexivity|].
  apply (proj1 (alpha_script_returns_only_after_fallback Toy.random_sample
                  Toy.permutation Toy.ConvexHull Toy.unit_alphashape)
           Toy.alpha_four_points 0%nat wall bottom fill 8%nat
           (bottom ++ fill) 8%nat {| volume_attr := Some 1 |} Hs Hsub).
  reflexivity.
Defined.
